(** * Admissions Navigator: the onboarding form, the Gemini gateway and the
    report view, embedded from [src/types.ts], [src/services/geminiService.ts]
    and [src/App.tsx].

    Layout: the JavaScript values the code works on ([JS]), the data shapes
    of [types.ts] ([Types]), the host functions the code calls but does not
    define ([Host]), then one module per source unit ([GeminiService],
    [Onboarding], [ReportDashboard], [App]); after them the predicates the
    properties are stated with ([Spec]) and the data of the examples
    ([Sample]); the properties last, one module per source unit again. *)

From Stdlib Require Import List NArith ZArith Bool String Ascii Floats Lia.
Import ListNotations.

Set Implicit Arguments.

(** The two decimal constants of the keyword cloud (0.6 and 0.04) stand for
    the nearest binary64 values, as they do in JavaScript. *)
Set Warnings "-inexact-float,-register-all".

(* ================================================================== *)
(** ** JavaScript strings *)
(* ================================================================== *)

Module JS.

(** A JavaScript string is a sequence of UTF-16 code units; a code unit is
    kept as an [N] below 65536. *)
Definition jsstring := list N.

(** Decoding of the UTF-8 bytes of a source literal into code units, so that
    the literals below can be written as they stand in the TypeScript
    files.  Code points above U+FFFF become a surrogate pair. *)
Fixpoint utf16_of_utf8 (bs : list N) : jsstring :=
  match bs with
  | [] => []
  | b0 :: t0 =>
    if (b0 <? 0x80)%N then b0 :: utf16_of_utf8 t0
    else
      match t0 with
      | [] => [0xFFFD%N]
      | b1 :: t1 =>
        if (b0 <? 0xE0)%N then
          N.lor (N.shiftl (N.land b0 0x1F) 6) (N.land b1 0x3F)
            :: utf16_of_utf8 t1
        else
          match t1 with
          | [] => [0xFFFD%N]
          | b2 :: t2 =>
            if (b0 <? 0xF0)%N then
              N.lor (N.shiftl (N.land b0 0x0F) 12)
                (N.lor (N.shiftl (N.land b1 0x3F) 6) (N.land b2 0x3F))
                :: utf16_of_utf8 t2
            else
              match t2 with
              | [] => [0xFFFD%N]
              | b3 :: t3 =>
                let cp :=
                  N.lor (N.shiftl (N.land b0 0x07) 18)
                    (N.lor (N.shiftl (N.land b1 0x3F) 12)
                       (N.lor (N.shiftl (N.land b2 0x3F) 6) (N.land b3 0x3F))) in
                let v := (cp - 0x10000)%N in
                (0xD800 + N.shiftr v 10)%N
                  :: (0xDC00 + N.land v 0x3FF)%N :: utf16_of_utf8 t3
              end
          end
      end
  end.

Definition js (s : string) : jsstring :=
  utf16_of_utf8 (map N_of_ascii (list_ascii_of_string s)).
Arguments js s%_string.

(** A literal is compared with another as it is written: conversion
    unfolds [js] after every other definition. *)
#[global] Strategy 1000 [js].
Arguments js s%_string : simpl never.

(** The double quote and the line feed, which the literals
    below splice in by concatenation. *)
Definition dquote : jsstring := [34%N].
Definition LF : jsstring := [10%N].

(** [s === t] on strings. *)
Fixpoint strEq (s t : jsstring) : bool :=
  match s, t with
  | [], [] => true
  | c :: s', d :: t' => (c =? d)%N && strEq s' t'
  | _, _ => false
  end.

(** [s !== ''] *)
Definition nonEmpty (s : jsstring) : bool :=
  match s with [] => false | _ :: _ => true end.

(** ECMAScript WhiteSpace and LineTerminator code points: what
    [String.prototype.trim] removes. TAB, LF, VT, FF, CR, SP, NBSP,
    U+1680, U+2000..U+200A, LS, PS, U+202F, U+205F, U+3000 and the BOM. *)
Definition isWhiteSpace (c : N) : bool :=
  ((9 <=? c) && (c <=? 13) || (c =? 0x20) || (c =? 0xA0) || (c =? 0x1680)
   || (0x2000 <=? c) && (c <=? 0x200A) || (c =? 0x2028) || (c =? 0x2029)
   || (c =? 0x202F) || (c =? 0x205F) || (c =? 0x3000) || (c =? 0xFEFF))%N.

Fixpoint dropWhile (p : N -> bool) (s : jsstring) : jsstring :=
  match s with
  | [] => []
  | c :: t => if p c then dropWhile p t else s
  end.

Definition dropWhileEnd (p : N -> bool) (s : jsstring) : jsstring :=
  rev (dropWhile p (rev s)).

(** [s.trim()] *)
Definition trim (s : jsstring) : jsstring :=
  dropWhileEnd isWhiteSpace (dropWhile isWhiteSpace s).

(** [s.trim() !== ''], the test the form and the gateway apply to a field. *)
Definition filled (s : jsstring) : bool := nonEmpty (trim s).

(** [s.startsWith(p)], returning what follows the prefix. *)
Fixpoint afterPrefix (p s : jsstring) : option jsstring :=
  match p, s with
  | [], _ => Some s
  | a :: p', b :: s' => if (a =? b)%N then afterPrefix p' s' else None
  | _ :: _, [] => None
  end.

(** [s.replace(/^p/, '')] for a literal [p]: the pattern has no flag, so
    [^] is the start of the input and at most one occurrence goes. *)
Definition removeAtStart (p s : jsstring) : jsstring :=
  match afterPrefix p s with
  | Some rest => rest
  | None => s
  end.

(** [s.replace(/q$/, '')] for a literal [q]: without the [m] flag [$] is the
    end of the input, so the only place the pattern can match is the last
    [length q] code units. *)
Definition removeAtEnd (q s : jsstring) : jsstring :=
  rev (removeAtStart (rev q) (rev s)).

(** [hay] has [needle] as a contiguous part. *)
Definition Includes (hay needle : jsstring) : Prop :=
  exists pre post, hay = pre ++ needle ++ post.

(** [x || y] on strings: the empty string is falsy. *)
Definition orElse (x y : jsstring) : jsstring :=
  match x with [] => y | _ :: _ => x end.

(** Truthiness of an optional string property: present and not empty. *)
Definition truthy (x : option jsstring) : bool :=
  match x with Some (_ :: _) => true | _ => false end.

(** *** [JSON.parse]

    ECMA-404 allows only SP, TAB, LF and CR around a value, and the text of a
    value begins with one of [{ [ dquote - 0..9 t f n] and ends with one of
    [} ] dquote 0..9 e l].  The grammar of values proper is a parameter
    ([grammar], [None] when the text is no value); the white space and the
    two end checks are written out because [trim] and the fence stripping
    of [analyzeStudentData] act exactly there. *)
Definition isJsonSpace (c : N) : bool :=
  ((c =? 0x20) || (c =? 0x09) || (c =? 0x0A) || (c =? 0x0D))%N.

Definition isDigit (c : N) : bool := ((0x30 <=? c) && (c <=? 0x39))%N.

Definition beginsValue (c : N) : bool :=
  ((c =? 0x7B) || (c =? 0x5B) || (c =? 0x22) || (c =? 0x2D) || isDigit c
   || (c =? 0x74) || (c =? 0x66) || (c =? 0x6E))%N.

Definition endsValue (c : N) : bool :=
  ((c =? 0x7D) || (c =? 0x5D) || (c =? 0x22) || isDigit c
   || (c =? 0x65) || (c =? 0x6C))%N.

Definition valueShaped (core : jsstring) : bool :=
  match hd_error core, hd_error (rev core) with
  | Some a, Some z => beginsValue a && endsValue z
  | _, _ => false
  end.

Definition JSON_parse (R : Type) (grammar : jsstring -> option R)
    (s : jsstring) : option R :=
  let core := dropWhileEnd isJsonSpace (dropWhile isJsonSpace s) in
  if valueShaped core then grammar core else None.

End JS.

(* ================================================================== *)
(** ** The data shapes of [types.ts] *)
(* ================================================================== *)

Module Types.
Import JS.

(** A JavaScript number is an IEEE 754 binary64 value. *)
Definition number := float.

(** [grade: '1' | '2' | '3' | ''] *)
Inductive Grade : Type := GradeUnset | Grade1 | Grade2 | Grade3.

Definition gradeText (g : Grade) : jsstring :=
  match g with
  | GradeUnset => []
  | Grade1 => js "1"
  | Grade2 => js "2"
  | Grade3 => js "3"
  end.

Record InlineImage : Type := { mimeType : jsstring; data : jsstring }.

Record ManualAcademicRecord : Type := {
  awards : jsstring;
  creativeActivities : jsstring;
  detailedAbilities : jsstring;
  readingActivities : jsstring;
  behavioralCharacteristics : jsstring
}.

Record MockExam : Type := {
  korean : jsstring;
  math : jsstring;
  english : jsstring;
  inquiry1 : jsstring;
  inquiry2 : jsstring
}.

(** [StudentInfo]. An optional property is an [option]. [studentName] is not
    declared in [types.ts]; [Onboarding] stores it in the object and
    [getAnalysisPrompt] reads it, so it is a property like the others. *)
Record StudentInfo : Type := {
  grade : Grade;
  desiredField : jsstring;
  studentName : option jsstring;
  academicRecord : option jsstring;
  academicRecordImage : option InlineImage;
  manualAcademicRecord : option ManualAcademicRecord;
  mockExam : MockExam
}.

(** [Object.values] of the two five-field objects, in property order. *)
Definition recordValues (r : ManualAcademicRecord) : list jsstring :=
  [awards r; creativeActivities r; detailedAbilities r;
   readingActivities r; behavioralCharacteristics r].

Definition mockExamValues (m : MockExam) : list jsstring :=
  [korean m; math m; english m; inquiry1 m; inquiry2 m].

Record Location : Type := { latitude : number; longitude : number }.

(** The report. Records whose field names repeat across interfaces live in
    a module each, so that they keep the names of [types.ts]. *)
Module ZScore.
Record t : Type := { subject : jsstring; zScore : number }.
End ZScore.

Module TrendPoint.
Record t : Type := { semester : jsstring; gpa : number }.
End TrendPoint.

Module MockExamNote.
Record t : Type := { subject : jsstring; strength : bool; comment : jsstring }.
End MockExamNote.

Module Keyword.
Record t : Type := { text : jsstring; value : number }.
End Keyword.

Module Competency.
Record t : Type := { subject : jsstring; score : number; fullMark : number }.
End Competency.

Record QuantitativeAnalysis : Type := {
  gpaZScore : list ZScore.t;
  gradeTrend : list TrendPoint.t;
  mockExamAnalysis : list MockExamNote.t
}.

Record QualitativeAnalysis : Type := {
  keywordCloud : list Keyword.t;
  competencyRadar : list Competency.t
}.

Record ApplicationStrategy : Type := {
  earlyDecisionProbability : number;
  regularDecisionProbability : number
}.

(** [category] is declared as a union of three labels in [types.ts]; the
    response schema declares a plain string and nothing checks the value,
    so the field holds whatever string the response carries. *)
Record UniversityRecommendation : Type := {
  category : jsstring;
  university : jsstring;
  major : jsstring;
  admissionType : jsstring;
  acceptanceChance : number;
  rationale : jsstring
}.

Module Academy.
Record t : Type := {
  name : jsstring; distance : jsstring; rating : number; reviewCount : number
}.
End Academy.

(** [type] is a string for the same reason as [category]. *)
Module StudySpace.
Record t : Type := {
  name : jsstring; type : jsstring; distance : jsstring; rating : number
}.
End StudySpace.

Record LocalSupport : Type := {
  weakSubject : jsstring;
  recommendedAcademies : list Academy.t;
  recommendedStudySpaces : list StudySpace.t
}.

Module Report.
Record t : Type := {
  studentName : jsstring;
  recommendedApplicationType : jsstring;
  quantitativeAnalysis : QuantitativeAnalysis;
  qualitativeAnalysis : QualitativeAnalysis;
  applicationStrategy : ApplicationStrategy;
  earlyDecisionRecommendations : list UniversityRecommendation;
  regularDecisionRecommendations : list UniversityRecommendation;
  localSupport : LocalSupport
}.
End Report.
Definition AnalysisReport := Report.t.

End Types.

(* ================================================================== *)
(** ** Host functions *)
(* ================================================================== *)

(** What the code calls and the repository does not define: the number
    formatting of the engine, and the value grammar behind [JSON.parse] at
    the two types the gateway casts its result to.  [readReport] and
    [readExtraction] answer [None] exactly when the text is not a JSON
    value; a text that is one is handed on as the typed object without any
    check, as the [as] casts of the source do. *)
Module Host.
Import JS Types.

Class Engine : Type := {
  (** [String(n)], as a template literal applies it *)
  Number_toString : number -> jsstring;
  (** [n.toFixed(1)] *)
  Number_toFixed1 : number -> jsstring;
  (** [Math.round(n)] *)
  Math_round : number -> number;
  (** the JSON value grammar, read as an [AnalysisReport] *)
  readReport : jsstring -> option AnalysisReport;
  (** the JSON value grammar, read as the extraction object: the
      [studentName] property and the rest of the object *)
  readExtraction : jsstring -> option (jsstring * ManualAcademicRecord)
}.

End Host.

(* ================================================================== *)
(** ** [services/geminiService.ts] *)
(* ================================================================== *)

Module GeminiService.
Import JS Types Host.

(** *** The request sent to the model *)

Inductive Part : Type :=
| TextPart (text : jsstring)
| InlineData (image : InlineImage).

(** The [responseSchema] tree ([Type.OBJECT], [Type.ARRAY], ...). *)
Inductive Schema : Type :=
| STRING (description : option jsstring)
| NUMBER
| BOOLEAN
| ARRAY (items : Schema)
| OBJECT (properties : list (jsstring * Schema)) (required : list jsstring).

Record Request : Type := {
  model : jsstring;
  parts : list Part;
  responseMimeType : jsstring;
  responseSchema : Schema
}.

(** What [await ai.models.generateContent(...)] yields: a rejection, or a
    response whose [text] may be undefined. *)
Inductive Response : Type :=
| Rejected
| Resolved (text : option jsstring).

(** What a run does to the outside, in order. *)
Inductive Effect : Type :=
| GenerateContent (request : Request)
| ConsoleError (label : jsstring)
| Alert (message : jsstring).

(** *** [extractDataFromImage] *)

Definition extractionPrompt : jsstring :=
  js "
    You are an expert OCR system specialized in South Korean academic records (학생생활기록부, Saenggibu).
    Analyze the provided image of an academic record and extract the student's name and the text content for the following key sections:
    1.  **성명 (Student Name)**
    2.  **수상경력 (Awards)**
    3.  **창의적 체험활동상황 (Creative Experiential Activities)**: Include details from 자율활동, 동아리활동, 봉사활동, and 진로활동.
    4.  **세부능력 및 특기사항 (Detailed Abilities & Special Notes by Subject)**
    5.  **독서활동상황 (Reading Activities)**
    6.  **행동특성 및 종합의견 (Behavioral Characteristics & Comprehensive Opinion)**

    Summarize the content of each section. If a section is not found or is empty, return an empty string for that field. The student's name must be extracted accurately. If the name is not found, return "
  ++ dquote ++ js "OOO" ++ dquote ++ js ".

    **CRITICAL**: The final output must be a single, valid JSON object that adheres to the provided schema. Do not add any text, markdown formatting, or explanations outside the JSON object.
  ".

Definition described (d : string) : Schema := STRING (Some (js d)).
Arguments described d%_string.

Definition plain : Schema := STRING None.

Definition extractionSchema : Schema :=
  OBJECT
    [ (js "studentName", described "학생 성명");
      (js "awards", described "수상경력");
      (js "creativeActivities", described "창의적 체험활동상황");
      (js "detailedAbilities", described "세부능력 및 특기사항");
      (js "readingActivities", described "독서활동상황");
      (js "behavioralCharacteristics", described "행동특성 및 종합의견") ]
    [ js "studentName"; js "awards"; js "creativeActivities";
      js "detailedAbilities"; js "readingActivities";
      js "behavioralCharacteristics" ].

Definition extractionRequest (academicRecordImage : InlineImage) : Request :=
  let imagePart :=
    InlineData {| mimeType := mimeType academicRecordImage;
                  data := data academicRecordImage |} in
  let textPart := TextPart extractionPrompt in
  {| model := js "gemini-2.5-flash";
     parts := [imagePart; textPart];
     responseMimeType := js "application/json";
     responseSchema := extractionSchema |}.

Definition extractionFailure : jsstring :=
  js "Failed to extract data from the image. Please try again or enter the data manually.".

(** The [try] block either returns the name and the record or throws; the
    [catch] logs and throws the fixed message.  [inl] is the thrown
    [Error]'s message. *)
Definition extractDataFromImage `{Engine} (ai : Request -> Response)
    (academicRecordImage : InlineImage)
    : (jsstring + jsstring * ManualAcademicRecord) * list Effect :=
  let request := extractionRequest academicRecordImage in
  let caught :=
    (inl extractionFailure,
     [GenerateContent request;
      ConsoleError (js "Error calling Gemini API for data extraction:")]) in
  match ai request with
  | Rejected => caught
  | Resolved None => caught
  | Resolved (Some text) =>
    let jsonText := trim text in
    match JSON_parse readExtraction jsonText with
    | None => caught
    | Some (studentName, manualRecord) =>
      (inr (studentName, manualRecord), [GenerateContent request])
    end
  end.

(** *** [formatManualRecord] *)

Definition NA : jsstring := js "N/A".

Definition formatManualRecord (record : ManualAcademicRecord) : jsstring :=
  js "
- **Academic Record (User-Verified Text)**: This is the primary source for qualitative analysis.
  - **Awards**: " ++ orElse (awards record) NA ++ js "
  - **Creative Experiential Activities**: " ++ orElse (creativeActivities record) NA ++ js "
  - **Detailed Abilities & Special Notes by Subject**: " ++ orElse (detailedAbilities record) NA ++ js "
  - **Reading Activities**: " ++ orElse (readingActivities record) NA ++ js "
  - **Behavioral Characteristics & Comprehensive Opinion**: " ++ orElse (behavioralCharacteristics record) NA ++ js "
".

(** *** [getAnalysisPrompt] *)

Definition locatedAt `{Engine} (l : Location) : jsstring :=
  js "The user is located at latitude " ++ Number_toString (latitude l)
    ++ js " and longitude " ++ Number_toString (longitude l) ++ js ".".

Definition noLocation : jsstring :=
  js "The user has not provided their location.".

Definition locationInfo `{Engine} (location : option Location) : jsstring :=
  match location with
  | Some l => locatedAt l
  | None => noLocation
  end.

(** [studentInfo.manualAcademicRecord &&
     Object.values(...).some(v => typeof v === 'string' && v.trim() !== '')];
    every value of the typed record is a string. *)
Definition hasManualRecord (studentInfo : StudentInfo) : bool :=
  match manualAcademicRecord studentInfo with
  | None => false
  | Some record => existsb filled (recordValues record)
  end.

Definition imageNotice : jsstring :=
  js "The academic record (생기부) is provided as an attached image. Please perform OCR and analyze its content.".

Definition pastedRecord (academicRecord : jsstring) : jsstring :=
  js "- **Academic Record (Pasted Text)**:" ++ LF ++ js "---" ++ LF
    ++ academicRecord ++ LF ++ js "---".

Definition noRecordNotice : jsstring :=
  js "No academic record was provided. Please make a general analysis based on the mock exam scores and desired field.".

(** The [if] chain of lines 91 to 109: the text about the record, and the
    parts pushed before the prompt is placed in front of them. *)
Definition academicRecordSource (studentInfo : StudentInfo)
    : jsstring * list Part :=
  if hasManualRecord studentInfo then
    match manualAcademicRecord studentInfo with
    | Some record => (formatManualRecord record, [])
    | None => ([], []) (* excluded by the test; the source asserts it with [!] *)
    end
  else
    match academicRecordImage studentInfo with
    | Some image =>
      (imageNotice,
       [InlineData {| mimeType := mimeType image; data := data image |}])
    | None =>
      match academicRecord studentInfo with
      | Some (c :: rest) => (pastedRecord (c :: rest), [])
      | _ => (noRecordNotice, [])
      end
    end.

Definition academicRecordInfo (studentInfo : StudentInfo) : jsstring :=
  fst (academicRecordSource studentInfo).

Definition mockExamScoresProvided (studentInfo : StudentInfo) : bool :=
  existsb filled (mockExamValues (mockExam studentInfo)).

Definition mockExamListing (m : MockExam) : jsstring :=
  js "- Mock Exam Scores (percentile): Korean " ++ korean m
    ++ js ", Math " ++ math m ++ js ", English " ++ english m
    ++ js ", Inquiry1 " ++ inquiry1 m ++ js ", Inquiry2 " ++ inquiry2 m.

Definition mockExamSkipped : jsstring :=
  js "- Mock Exam Scores: The user skipped this step. Please estimate the student's academic performance for the regular decision (정시) analysis based on the provided academic record (학생 생활기록부) content.".

Definition mockExamInfo (studentInfo : StudentInfo) : jsstring :=
  if mockExamScoresProvided studentInfo
  then mockExamListing (mockExam studentInfo)
  else mockExamSkipped.

Definition studentNameInfo (studentInfo : StudentInfo) : jsstring :=
  match studentName studentInfo with
  | Some (c :: rest) =>
    js "The student's name is " ++ (c :: rest)
      ++ js ". Use this exact name in the report."
  | _ =>
    js "Anonymize the student's name to " ++ dquote ++ js "OOO 학생"
      ++ dquote ++ js "."
  end.

(** The fixed text of the prompt template, cut at its seven holes. *)
Definition promptIntro : jsstring :=
  js "
    You are an expert South Korean college admissions consultant AI named '입시 네비게이터'. Your role is to provide a detailed, data-driven analysis for a parent about their high school student's university admission prospects.

    **Student Data:**
    - Grade: ".

Definition promptField : jsstring :=
  js "학년
    - Desired Field of Study: ".

Definition promptIndent : jsstring :=
  js "
    ".

Definition promptLocation : jsstring :=
  js "

    **User Location:**
    ".

Definition promptTask : jsstring :=
  js "

    **Your Task:**
    Analyze all the provided information and generate a comprehensive report. The report must be in Korean.

    1.  **Student Identification**: ".

Definition promptSteps : jsstring :=
  js "
    2.  **Quantitative Analysis**:
        - Create a grade trend chart data for 4 semesters. Estimate GPA based on the text.
        - Analyze mock exam scores, highlighting strengths and weaknesses. If scores are not provided, estimate performance based on the academic record.
        - Generate Z-scores for 5 key subjects based on the academic record.
    3.  **Qualitative Analysis**:
        - Extract at least 10-15 relevant keywords from the academic record for a keyword cloud, weighted by importance for the desired field.
        - Create a radar chart data for the 4 key competencies (학업역량, 전공적합성, 인성, 발전가능성) on a scale of 5.
    4.  **Application Strategy**:
        - Calculate the probability of success for Early Decision (수시) vs. Regular Decision (정시).
        - Recommend the most advantageous application type.
    5.  **University Recommendations**:
        - Recommend 6 Early Decision (수시) options categorized as '상향', '적정', '안정'.
        - Recommend 3 Regular Decision (정시) options categorized similarly.
        - For each recommendation, provide the university, major, admission type, chance of acceptance (%), and a brief rationale.
    6.  **Local Support (LBS)**:
        - Identify the student's weakest subject.
        - Based on the user's location, recommend 3 nearby specialized academies and 2 study spaces (libraries or study cafes). ".

Definition generalAdvice : jsstring :=
  js "If location is not available, provide general advice.".

Definition promptClosing : jsstring :=
  js " Include realistic names, distances, ratings, and review counts.

    **CRITICAL**: The final output must be a single, valid JSON object only. Do not add any text, markdown formatting like ```json, or any explanations outside the JSON object itself.
  ".

Definition promptText `{Engine} (studentInfo : StudentInfo)
    (location : option Location) : jsstring :=
  promptIntro ++ gradeText (grade studentInfo)
    ++ promptField ++ desiredField studentInfo
    ++ promptIndent ++ mockExamInfo studentInfo
    ++ promptIndent ++ academicRecordInfo studentInfo
    ++ promptLocation ++ locationInfo location
    ++ promptTask ++ studentNameInfo studentInfo
    ++ promptSteps ++ generalAdvice ++ promptClosing.

(** [parts.unshift({ text: promptText }); return { parts }] *)
Definition getAnalysisPrompt `{Engine} (studentInfo : StudentInfo)
    (location : option Location) : list Part :=
  TextPart (promptText studentInfo location)
    :: snd (academicRecordSource studentInfo).

(** *** [analyzeStudentData] *)

Definition object (properties : list (string * Schema)) : Schema :=
  OBJECT (map (fun kv => (js (fst kv), snd kv)) properties)
         (map (fun kv => js (fst kv)) properties).

(** Every object of the analysis schema requires all of its properties, in
    the order it declares them, which is what [object] builds. *)
Definition recommendationSchema : Schema :=
  object [ ("category", plain); ("university", plain); ("major", plain);
           ("admissionType", plain); ("acceptanceChance", NUMBER);
           ("rationale", plain) ]%string.

Definition analysisSchema : Schema :=
  object
    [ ("studentName", plain);
      ("recommendedApplicationType", plain);
      ("quantitativeAnalysis",
       object
         [ ("gpaZScore",
            ARRAY (object [ ("subject", plain); ("zScore", NUMBER) ]));
           ("gradeTrend",
            ARRAY (object [ ("semester", plain); ("gpa", NUMBER) ]));
           ("mockExamAnalysis",
            ARRAY (object [ ("subject", plain); ("strength", BOOLEAN);
                            ("comment", plain) ])) ]);
      ("qualitativeAnalysis",
       object
         [ ("keywordCloud",
            ARRAY (object [ ("text", plain); ("value", NUMBER) ]));
           ("competencyRadar",
            ARRAY (object [ ("subject", plain); ("score", NUMBER);
                            ("fullMark", NUMBER) ])) ]);
      ("applicationStrategy",
       object [ ("earlyDecisionProbability", NUMBER);
                ("regularDecisionProbability", NUMBER) ]);
      ("earlyDecisionRecommendations", ARRAY recommendationSchema);
      ("regularDecisionRecommendations", ARRAY recommendationSchema);
      ("localSupport",
       object
         [ ("weakSubject", plain);
           ("recommendedAcademies",
            ARRAY (object [ ("name", plain); ("distance", plain);
                            ("rating", NUMBER); ("reviewCount", NUMBER) ]));
           ("recommendedStudySpaces",
            ARRAY (object [ ("name", plain); ("type", plain);
                            ("distance", plain); ("rating", NUMBER) ])) ])
    ]%string.

Definition analysisRequest `{Engine} (studentInfo : StudentInfo)
    (location : option Location) : Request :=
  let contents := getAnalysisPrompt studentInfo location in
  {| model := js "gemini-2.5-flash";
     parts := contents;
     responseMimeType := js "application/json";
     responseSchema := analysisSchema |}.

Definition openingFence : jsstring := js "```json" ++ LF.
Definition closingFence : jsstring := LF ++ js "```".

(** [response.text.replace(/^```json\n/, '').replace(/\n```$/, '').trim()] *)
Definition cleanResponseText (text : jsstring) : jsstring :=
  trim (removeAtEnd closingFence (removeAtStart openingFence text)).

Definition analysisFailure : jsstring :=
  js "Failed to get analysis from AI. Please check the console for details.".

Definition analyzeStudentData `{Engine} (ai : Request -> Response)
    (studentInfo : StudentInfo) (location : option Location)
    : (jsstring + AnalysisReport) * list Effect :=
  let request := analysisRequest studentInfo location in
  let caught :=
    (inl analysisFailure,
     [GenerateContent request; ConsoleError (js "Error calling Gemini API:")]) in
  match ai request with
  | Rejected => caught
  | Resolved None => caught
  | Resolved (Some text) =>
    let jsonText := cleanResponseText text in
    match JSON_parse readReport jsonText with
    | None => caught
    | Some report => (inr report, [GenerateContent request])
    end
  end.

End GeminiService.

(* ================================================================== *)
(** ** [App.tsx]: the [Onboarding] component *)
(* ================================================================== *)

Module Onboarding.
Import JS Types Host GeminiService.

Inductive RecordInputType : Type := image | manual.

(** The five [useState] cells of the component. [step] is a number that
    [handleNext] and [handlePrev] move by one. *)
Record State : Type := {
  step : Z;
  info : StudentInfo;
  recordInputType : option RecordInputType;
  imagePreview : option jsstring;
  isExtracting : bool
}.

Definition initialInfo : StudentInfo :=
  {| grade := GradeUnset; desiredField := []; studentName := Some [];
     academicRecord := None; academicRecordImage := None;
     manualAcademicRecord := None;
     mockExam := {| korean := []; math := []; english := [];
                    inquiry1 := []; inquiry2 := [] |} |}.

Definition initial : State :=
  {| step := 1; info := initialInfo; recordInputType := None;
     imagePreview := None; isExtracting := false |}.

(** The setters, each the spread [{...prev, field: value}] of the source. *)
Definition setStep (f : Z -> Z) (s : State) : State :=
  {| step := f (step s); info := info s;
     recordInputType := recordInputType s;
     imagePreview := imagePreview s; isExtracting := isExtracting s |}.

Definition setInfo (f : StudentInfo -> StudentInfo) (s : State) : State :=
  {| step := step s; info := f (info s);
     recordInputType := recordInputType s;
     imagePreview := imagePreview s; isExtracting := isExtracting s |}.

Definition setRecordInputType (v : option RecordInputType) (s : State)
    : State :=
  {| step := step s; info := info s; recordInputType := v;
     imagePreview := imagePreview s; isExtracting := isExtracting s |}.

Definition setImagePreview (v : option jsstring) (s : State) : State :=
  {| step := step s; info := info s;
     recordInputType := recordInputType s;
     imagePreview := v; isExtracting := isExtracting s |}.

Definition setIsExtracting (v : bool) (s : State) : State :=
  {| step := step s; info := info s;
     recordInputType := recordInputType s;
     imagePreview := imagePreview s; isExtracting := v |}.

Definition withImage (v : option InlineImage) (prev : StudentInfo)
    : StudentInfo :=
  {| grade := grade prev; desiredField := desiredField prev;
     studentName := studentName prev; academicRecord := academicRecord prev;
     academicRecordImage := v;
     manualAcademicRecord := manualAcademicRecord prev;
     mockExam := mockExam prev |}.

Definition withManualRecord (v : ManualAcademicRecord) (prev : StudentInfo)
    : StudentInfo :=
  {| grade := grade prev; desiredField := desiredField prev;
     studentName := studentName prev; academicRecord := academicRecord prev;
     academicRecordImage := academicRecordImage prev;
     manualAcademicRecord := Some v;
     mockExam := mockExam prev |}.

Definition withExtraction (name : jsstring) (v : ManualAcademicRecord)
    (prev : StudentInfo) : StudentInfo :=
  {| grade := grade prev; desiredField := desiredField prev;
     studentName := Some name; academicRecord := academicRecord prev;
     academicRecordImage := academicRecordImage prev;
     manualAcademicRecord := Some v;
     mockExam := mockExam prev |}.

Definition handleNext : State -> State := setStep (fun s => s + 1)%Z.
Definition handlePrev : State -> State := setStep (fun s => s - 1)%Z.

Definition handleManualSelect (s : State) : State :=
  setInfo
    (withManualRecord
       {| awards := []; creativeActivities := []; detailedAbilities := [];
          readingActivities := []; behavioralCharacteristics := [] |})
    (setRecordInputType (Some manual) s).

(** [isStepComplete]: the [switch] on [step].  The [typeof] tests of cases
    2 and 3 hold of every value of the typed objects, and [info.mockExam] is
    always an object. *)
Definition isStepComplete (s : State) : bool :=
  match step s with
  | 1%Z =>
    match grade (info s) with
    | GradeUnset => false
    | _ => true
    end && filled (desiredField (info s))
  | 2%Z =>
    match manualAcademicRecord (info s) with
    | None => false
    | Some record => existsb filled (recordValues record)
    end
  | 3%Z => forallb filled (mockExamValues (mockExam (info s)))
  | _ => false
  end.

(** *** [handleFileChange]

    The chosen file, as far as the handler looks at it: the URL that
    [URL.createObjectURL] gives it, and what [fileToBase64] resolves to
    ([None] when the reader reports an error and the promise rejects). *)
Record File : Type := {
  objectURL : jsstring;
  base64 : option InlineImage
}.

(** The handler is an [async] function with two [await]s; each definition
    below is the code between two suspension points, and React renders the
    state each of them leaves. *)

(** Lines 69 to 71, up to [await fileToBase64(file)]. *)
Definition fileChosen (file : File) (s : State) : State :=
  setImagePreview (Some (objectURL file))
    (setRecordInputType (Some image) (setIsExtracting true s)).

(** Lines 73 and 74, up to [await extractDataFromImage(imagePayload)]. *)
Definition fileRead (imagePayload : InlineImage) (s : State) : State :=
  setInfo (withImage (Some imagePayload)) s.

(** Lines 77 to 90: the [try], its [catch] and the [finally]. *)
Definition extractionSettled
    (outcome : jsstring + jsstring * ManualAcademicRecord) (s : State)
    : State * list Effect :=
  match outcome with
  | inr (studentName, manualRecord) =>
    (setIsExtracting false
       (setRecordInputType (Some manual)
          (setInfo (withExtraction studentName manualRecord) s)),
     [])
  | inl message =>
    (setIsExtracting false (setRecordInputType (Some image) s),
     [ConsoleError message; Alert message])
  end.

(** A run of the handler: the states rendered after each segment, and the
    effects in order.  With no file nothing happens; when the file cannot
    be read the rejection is not caught and the handler stops after the
    first segment. *)
Record Run : Type := { frames : list State; effects : list Effect }.

Definition handleFileChange `{Engine} (ai : Request -> Response)
    (files : option File) (s : State) : Run :=
  match files with
  | None => {| frames := []; effects := [] |}
  | Some file =>
    let s1 := fileChosen file s in
    match base64 file with
    | None => {| frames := [s1]; effects := [] |}
    | Some imagePayload =>
      let s2 := fileRead imagePayload s1 in
      let (outcome, called) := extractDataFromImage ai imagePayload in
      let (s3, shown) := extractionSettled outcome s2 in
      {| frames := [s1; s2; s3]; effects := called ++ shown |}
    end
  end.

Definition finalState (s : State) (r : Run) : State := last (frames r) s.

End Onboarding.

(* ================================================================== *)
(** ** React elements *)
(* ================================================================== *)

(** What a render function returns: the tree of elements with their class
    names, inline styles, click handlers and children.  A string or number
    child is kept as the value handed to React. [A] is the type of the click
    handlers and [C] of the components mounted in the tree; an absent
    [className] is the empty string. [key] props are not part of the
    output and are left out. *)
Module React.
Import JS Types.

Inductive StyleValue : Type :=
| Css (s : jsstring)
| CssNumber (n : number).

Record Attrs (A : Type) : Type := {
  className : jsstring;
  style : list (jsstring * StyleValue);
  onClick : option A
}.

(** The recharts elements, each kept as one node with the data it is given. *)
Inductive Chart : Type :=
| PieChart (data : list (jsstring * number))
| LineChart (data : list TrendPoint.t)
| RadarChart (name : jsstring) (data : list Competency.t).

Inductive Icon : Type :=
| Spinner
| StarIcon (filled : bool).

Inductive Node (A C : Type) : Type :=
| Empty
| Text (s : jsstring)
| Number (n : number)
| Element (tag : jsstring) (attrs : Attrs A) (children : list (Node A C))
| Svg (icon : Icon)
| Recharts (chart : Chart)
| Component (c : C).

Arguments Empty {A C}.
Arguments Text {A C} s.
Arguments Number {A C} n.
Arguments Element {A C} tag attrs children.
Arguments Svg {A C} icon.
Arguments Recharts {A C} chart.
Arguments Component {A C} c.

Definition classed {A : Type} (c : jsstring) : Attrs A :=
  {| className := c; style := []; onClick := None |}.

Definition tagged {A C : Type} (tag cls : string)
    (children : list (Node A C)) : Node A C :=
  Element (js tag) (classed (js cls)) children.
Arguments tagged {A C} tag%_string cls%_string children.

Definition button {A C : Type} (cls : jsstring) (handler : A)
    (children : list (Node A C)) : Node A C :=
  Element (js "button")
    {| className := cls; style := []; onClick := Some handler |} children.

Definition t {A C : Type} (s : string) : Node A C := Text (js s).
Arguments t {A C} s%_string.

(** The click handlers a tree offers, in document order. *)
Fixpoint handlers {A C : Type} (n : Node A C) : list A :=
  match n with
  | Element _ a children =>
    match onClick a with Some h => [h] | None => [] end
      ++ flat_map handlers children
  | _ => []
  end.

(** The string and number children of a tree, in document order. *)
Fixpoint contents {A C : Type} (n : Node A C) : list (jsstring + number) :=
  match n with
  | Text s => [inl s]
  | Number x => [inr x]
  | Element _ _ children => flat_map contents children
  | _ => []
  end.

End React.

(* ================================================================== *)
(** ** [App.tsx]: the [ReportDashboard] component *)
(* ================================================================== *)

(** The report handed to the component is an [AnalysisReport], so the
    optional chaining and the [?? []] and [?? 50] defaults of the source
    never take their fallback; they are not repeated here. *)
Module ReportDashboard.
Import JS Types Host React.

(** The ids of [tabs], the values [activeTab] takes. *)
Inductive Tab : Type := dashboard | strategy | local.

Definition View : Type := Node Tab Empty_set.

Definition getCategoryColor (category : jsstring) : jsstring :=
  if strEq category (js "상향") then js "bg-red-100 text-red-800 border-red-500"
  else if strEq category (js "적정") then js "bg-yellow-100 text-yellow-800 border-yellow-500"
  else if strEq category (js "안정") then js "bg-green-100 text-green-800 border-green-500"
  else js "bg-gray-100 text-gray-800 border-gray-500".

(** [renderRecommendationCard(rec, index)]; [index] is the [key] only. *)
Definition renderRecommendationCard (rec : UniversityRecommendation) : View :=
  Element (js "div")
    (classed (js "border-l-4 p-4 rounded-lg shadow-sm "
                ++ getCategoryColor (category rec)))
    [ tagged "div" "flex justify-between items-start"
        [ Element (js "div") (classed [])
            [ Element (js "span")
                (classed (js "text-sm font-bold px-2 py-1 rounded-full "
                            ++ getCategoryColor (category rec)))
                [Text (category rec)];
              tagged "h3" "text-lg font-bold mt-2"
                [Text (university rec); t " - "; Text (major rec)];
              tagged "p" "text-sm text-slate-600" [Text (admissionType rec)] ];
          tagged "div" "text-right"
            [ tagged "p" "text-xl font-bold text-blue-700"
                [Number (acceptanceChance rec); t "%"];
              tagged "p" "text-xs text-slate-500" [t "예상 합격률"] ] ];
      tagged "p" "mt-3 text-sm text-slate-700 bg-white/50 p-3 rounded-md"
        [Text (rationale rec)] ].

Definition keywordChip `{Engine} (word : Keyword.t) : View :=
  Element (js "span")
    {| className := js "text-white rounded-full px-3 py-1 bg-blue-500";
       style :=
         [ (js "fontSize",
            Css (Number_toString (10 + Keyword.value word * 1.5)%float
                   ++ js "px"));
           (js "opacity", CssNumber (0.6 + Keyword.value word * 0.04)%float) ];
       onClick := None |}
    [Text (Keyword.text word)].

Definition panelTitle (title : string) : View :=
  tagged "h3" "text-lg font-semibold text-slate-800 mb-4" [t title].
Arguments panelTitle title%_string.

Definition renderDashboard `{Engine} (report : AnalysisReport) : View :=
  let pieData :=
    [ (js "수시", earlyDecisionProbability (Report.applicationStrategy report));
      (js "정시", regularDecisionProbability (Report.applicationStrategy report)) ] in
  tagged "div" "grid grid-cols-1 lg:grid-cols-3 gap-6"
    [ tagged "div" "lg:col-span-3 bg-white p-6 rounded-xl shadow-lg"
        [ tagged "h3" "text-xl font-bold text-slate-800" [t "핵심 진단 요약"];
          tagged "p" "text-slate-600"
            [ Text (orElse (Report.studentName report) (js "학생"));
              t ", ";
              Text (orElse (Report.recommendedApplicationType report)
                      (js "분석 결과"));
              t "이 유리합니다." ] ];
      tagged "div" "bg-white p-6 rounded-xl shadow-lg"
        [ panelTitle "수시 vs 정시 유불리";
          Recharts (PieChart pieData) ];
      tagged "div" "lg:col-span-2 bg-white p-6 rounded-xl shadow-lg"
        [ panelTitle "내신 성적 추이 (GPA)";
          Recharts (LineChart (gradeTrend (Report.quantitativeAnalysis report))) ];
      tagged "div" "lg:col-span-2 bg-white p-6 rounded-xl shadow-lg"
        [ panelTitle "4대 역량 분석";
          Recharts
            (RadarChart (orElse (Report.studentName report) (js "학생"))
               (competencyRadar (Report.qualitativeAnalysis report))) ];
      tagged "div" "bg-white p-6 rounded-xl shadow-lg"
        [ panelTitle "학생부 키워드 클라우드";
          tagged "div" "flex flex-wrap gap-2 items-center justify-center h-full"
            (map keywordChip (keywordCloud (Report.qualitativeAnalysis report))) ] ].

Definition strategyColumn (title : string)
    (recommendations : list UniversityRecommendation) : View :=
  Element (js "div") (classed [])
    [ tagged "h2" "text-2xl font-bold mb-4 text-slate-800" [t title];
      tagged "div" "space-y-4" (map renderRecommendationCard recommendations) ].
Arguments strategyColumn title%_string recommendations.

Definition renderStrategy (report : AnalysisReport) : View :=
  tagged "div" "grid grid-cols-1 lg:grid-cols-2 gap-8"
    [ strategyColumn "수시 6카드 추천" (Report.earlyDecisionRecommendations report);
      strategyColumn "정시 3카드 추천" (Report.regularDecisionRecommendations report) ].

(** [[...Array(5)].map((_, idx) => <StarIcon filled={idx < Math.round(rating)} />)] *)
Definition stars `{Engine} (rating : number) : list View :=
  map (fun idx => Svg (StarIcon (PrimFloat.ltb idx (Math_round rating))))
      [0; 1; 2; 3; 4]%float.

Definition placeHeader (name distance : jsstring) : View :=
  tagged "div" "flex justify-between items-center"
    [ tagged "h4" "font-bold" [Text name];
      tagged "span" "text-sm font-medium text-slate-500" [Text distance] ].

Definition academyCard `{Engine} (item : Academy.t) : View :=
  tagged "div" "p-4 border rounded-lg transition-all hover:bg-slate-50"
    [ placeHeader (Academy.name item) (Academy.distance item);
      tagged "div" "flex items-center mt-1"
        [ tagged "div" "flex" (stars (Academy.rating item));
          tagged "span" "text-xs text-slate-500 ml-2"
            [ t "("; Text (Number_toFixed1 (Academy.rating item));
              t ", 리뷰 "; Number (Academy.reviewCount item); t ")" ] ] ].

Definition studySpaceCard `{Engine} (item : StudySpace.t) : View :=
  let isLibrary := strEq (StudySpace.type item) (js "Library") in
  tagged "div" "p-4 border rounded-lg transition-all hover:bg-slate-50"
    [ placeHeader (StudySpace.name item) (StudySpace.distance item);
      tagged "div" "flex items-center mt-1"
        [ Element (js "span")
            (classed (js "text-xs font-semibold px-2 py-0.5 rounded-full "
                        ++ (if isLibrary
                            then js "bg-indigo-100 text-indigo-800"
                            else js "bg-teal-100 text-teal-800")))
            [ Text (if isLibrary then js "도서관" else js "스터디 카페") ];
          tagged "div" "flex ml-4" (stars (StudySpace.rating item));
          tagged "span" "text-xs text-slate-500 ml-2"
            [ t "("; Text (Number_toFixed1 (StudySpace.rating item)); t ")" ] ] ].

Definition renderLocalSupport `{Engine} (report : AnalysisReport) : View :=
  let support := Report.localSupport report in
  tagged "div" "bg-white p-6 rounded-xl shadow-lg"
    [ tagged "h2" "text-2xl font-bold mb-2 text-slate-800"
        [t "지역 기반 학업 지원 솔루션"];
      tagged "p" "mb-6 text-slate-600"
        [ t "AI 분석 결과, "; Text (Report.studentName report); t " 학생은 ";
          tagged "span" "font-bold text-blue-600" [Text (weakSubject support)];
          t " 보완이 시급합니다." ];
      tagged "div" "grid grid-cols-1 md:grid-cols-2 gap-8"
        [ Element (js "div") (classed [])
            [ tagged "h3" "text-xl font-semibold mb-4 text-slate-700"
                [t "약점 보완 전문 학원 추천"];
              tagged "div" "space-y-4"
                (map academyCard (recommendedAcademies support)) ];
          Element (js "div") (classed [])
            [ tagged "h3" "text-xl font-semibold mb-4 text-slate-700"
                [t "학습 공간 추천"];
              tagged "div" "space-y-4"
                (map studySpaceCard (recommendedStudySpaces support)) ] ] ].

Definition tabs : list (Tab * jsstring) :=
  [ (dashboard, js "종합 대시보드");
    (strategy, js "맞춤 합격 전략");
    (local, js "지역 학업 지원") ].

Definition sameTab (a b : Tab) : bool :=
  match a, b with
  | dashboard, dashboard | strategy, strategy | local, local => true
  | _, _ => false
  end.

Definition tabButton (activeTab : Tab) (tab : Tab * jsstring) : View :=
  button
    ((if sameTab activeTab (fst tab)
      then js "border-blue-500 text-blue-600"
      else js "border-transparent text-gray-500 hover:text-gray-700 hover:border-gray-300")
       ++ js " whitespace-nowrap py-4 px-1 border-b-2 font-medium text-sm transition-colors")
    (fst tab) [Text (snd tab)].

(** The component: the tab bar, then the one tab whose guard holds (the
    other two guards evaluate to [false], which React does not render). *)
Definition ReportDashboard `{Engine} (report : AnalysisReport)
    (activeTab : Tab) : View :=
  tagged "div" "p-4 md:p-8"
    [ tagged "div" "mb-6"
        [ tagged "div" "border-b border-gray-200"
            [ tagged "nav" "-mb-px flex space-x-8" (map (tabButton activeTab) tabs) ] ];
      (if sameTab activeTab dashboard then renderDashboard report else Empty);
      (if sameTab activeTab strategy then renderStrategy report else Empty);
      (if sameTab activeTab local then renderLocalSupport report else Empty) ].

End ReportDashboard.

(* ================================================================== *)
(** ** [App.tsx]: the [App] component *)
(* ================================================================== *)

Module App.
Import JS Types Host GeminiService React.

Inductive AppStep : Type := WELCOME | ONBOARDING | ANALYZING | REPORT | ERROR.

Record State : Type := {
  step : AppStep;
  studentInfo : option StudentInfo;
  analysisReport : option AnalysisReport;
  location : option Location;
  error : option jsstring
}.

Definition initial : State :=
  {| step := WELCOME; studentInfo := None; analysisReport := None;
     location := None; error := None |}.

Definition setStep (v : AppStep) (s : State) : State :=
  {| step := v; studentInfo := studentInfo s;
     analysisReport := analysisReport s; location := location s;
     error := error s |}.

Definition setStudentInfo (v : option StudentInfo) (s : State) : State :=
  {| step := step s; studentInfo := v;
     analysisReport := analysisReport s; location := location s;
     error := error s |}.

Definition setAnalysisReport (v : option AnalysisReport) (s : State) : State :=
  {| step := step s; studentInfo := studentInfo s;
     analysisReport := v; location := location s; error := error s |}.

Definition setLocation (v : option Location) (s : State) : State :=
  {| step := step s; studentInfo := studentInfo s;
     analysisReport := analysisReport s; location := v; error := error s |}.

Definition setError (v : option jsstring) (s : State) : State :=
  {| step := step s; studentInfo := studentInfo s;
     analysisReport := analysisReport s; location := location s;
     error := v |}.

(** *** [handleLocationRequest]

    What the browser answers: [navigator.geolocation] is missing, the error
    callback runs (permission denied, position unavailable, timeout), or
    the success callback runs with the coordinates. *)
Inductive Geolocation : Type :=
| Unsupported
| Failed
| Position (coords : Location).

Definition handleLocationRequest (browser : Geolocation) (s : State)
    : State * list Effect :=
  match browser with
  | Position coords =>
    (setLocation
       (Some {| latitude := latitude coords; longitude := longitude coords |}) s,
     [Alert (js "위치 정보가 성공적으로 수집되었습니다.")])
  | Failed =>
    (s, [ConsoleError (js "Geolocation error:");
         Alert (js "위치 정보를 가져오는데 실패했습니다.")])
  | Unsupported =>
    (s, [Alert (js "이 브라우저에서는 위치 정보가 지원되지 않습니다.")])
  end.

(** *** [handleOnboardingComplete]

    Lines 516 to 518 run before the [await]; [analyzing] is the state
    rendered while the request is out.  The callback is rebuilt whenever
    [location] changes, so it reads the location of the state it runs in. *)
Definition analyzing (info : StudentInfo) (s : State) : State :=
  setError None (setStep ANALYZING (setStudentInfo (Some info) s)).

(** Lines 521 to 527: the rest of the [try], and the [catch]. *)
Definition analysisSettled (outcome : jsstring + AnalysisReport) (s : State)
    : State * list Effect :=
  match outcome with
  | inr report => (setStep REPORT (setAnalysisReport (Some report) s), [])
  | inl message =>
    (setStep ERROR
       (setError (Some (orElse message (js "An unknown error occurred."))) s),
     [ConsoleError message])
  end.

Record Run : Type := { frames : list State; effects : list Effect }.

Definition handleOnboardingComplete `{Engine} (ai : Request -> Response)
    (info : StudentInfo) (s : State) : Run :=
  let s1 := analyzing info s in
  let (outcome, called) := analyzeStudentData ai info (location s) in
  let (s2, logged) := analysisSettled outcome s1 in
  {| frames := [s1; s2]; effects := called ++ logged |}.

Definition finalState (s : State) (r : Run) : State := last (frames r) s.

Definition reset (s : State) : State :=
  setLocation None
    (setError None
       (setAnalysisReport None (setStudentInfo None (setStep WELCOME s)))).

(** *** Rendering *)

(** The two click handlers of the component, and the two components it
    mounts ([Onboarding] with [handleOnboardingComplete] and
    [handleLocationRequest] as its props). *)
Inductive Handler : Type := startOnboarding | restart.

Inductive Mounted : Type :=
| OnboardingForm
| Dashboard (report : AnalysisReport).

Definition View : Type := Node Handler Mounted.

Definition handle (h : Handler) (s : State) : State :=
  match h with
  | startOnboarding => setStep ONBOARDING s
  | restart => reset s
  end.

Definition renderContent (s : State) : View :=
  match step s with
  | WELCOME =>
    tagged "div" "text-center p-8"
      [ tagged "h1" "text-4xl md:text-5xl font-extrabold text-slate-800 mb-4"
          [t "입시 네비게이터 AI"];
        tagged "p" "text-lg text-slate-600 max-w-2xl mx-auto mb-8"
          [ t "복잡한 입시, AI와 함께 명쾌한 해답을 찾으세요. ";
            Element (js "br") (classed []) [];
            t "자녀의 학생부를 기반으로 정확한 진단과 맞춤형 합격 전략을 제공합니다." ];
        button
          (js "bg-blue-600 text-white font-bold py-3 px-8 rounded-full text-lg hover:bg-blue-700 transition-transform transform hover:scale-105 shadow-lg")
          startOnboarding [t "무료 분석 시작하기"] ]
  | ONBOARDING => Component OnboardingForm
  | ANALYZING =>
    tagged "div" "text-center p-8 flex flex-col items-center justify-center"
      [ Svg Spinner;
        tagged "h2" "text-2xl font-bold text-slate-800"
          [t "AI가 학생부를 정밀 분석 중입니다..."];
        tagged "p" "text-slate-600 mt-2"
          [t "잠시만 기다려 주세요. 이미지 분석 시 약 1-2분 정도 소요될 수 있습니다."] ]
  | REPORT =>
    match analysisReport s with
    | Some report => Component (Dashboard report)
    | None => Empty
    end
  | ERROR =>
    tagged "div" "text-center p-8"
      [ tagged "h2" "text-2xl font-bold text-red-600" [t "분석 중 오류 발생"];
        tagged "p" "text-slate-600 my-4"
          [match error s with Some message => Text message | None => Empty end];
        button
          (js "bg-blue-600 text-white font-bold py-2 px-6 rounded-lg hover:bg-blue-700")
          restart [t "처음으로 돌아가기"] ]
  end.

(** The component's output: header (with the restart link on every screen
    but the first), the content, the footer. *)
Definition render (s : State) : View :=
  tagged "div" "min-h-screen bg-slate-100 font-sans text-slate-900"
    [ tagged "header" "bg-white shadow-md"
        [ tagged "div" "container mx-auto px-4 py-4 flex justify-between items-center"
            [ tagged "div" "text-2xl font-bold text-blue-700"
                [t "Admissions Navigator AI"];
              match step s with
              | WELCOME => Empty
              | _ =>
                button (js "text-sm text-slate-600 hover:text-blue-600")
                  restart [t "다시 시작하기"]
              end ] ];
      tagged "main" "container mx-auto px-4 py-8" [renderContent s];
      tagged "footer" "text-center py-4 text-xs text-slate-500"
        [t "© 2024 Admissions Navigator AI. All rights reserved. This is an AI-generated analysis and should be used for reference purposes only."] ].

End App.

(* ================================================================== *)
(** ** The vocabulary of the properties *)
(* ================================================================== *)

Unset Implicit Arguments.

Module Spec.
Import JS Types Host GeminiService React.

(** A string of white space only: what [trim] empties. *)
Definition Blank (s : jsstring) : Prop := forallb isWhiteSpace s = true.

(** [Parsed R grammar J core v]: [J] is [core] between two runs of JSON white
    space, [core] begins and ends as a value does, and the grammar reads it
    as [v]. *)
Inductive Parsed (R : Type) (grammar : jsstring -> option R)
    (J core : jsstring) (v : R) : Prop :=
| Parsed_intro (lead trail inner inner' : jsstring) (first final : N)
    (parsed_split : J = lead ++ core ++ trail)
    (parsed_lead : forallb isJsonSpace lead = true)
    (parsed_trail : forallb isJsonSpace trail = true)
    (parsed_first : core = first :: inner)
    (parsed_final : rev core = final :: inner')
    (parsed_begins : beginsValue first = true)
    (parsed_ends : endsValue final = true)
    (parsed_value : grammar core = Some v).

(** A decision procedure for containment, for the fixed texts. *)
Fixpoint includesb (hay needle : jsstring) : bool :=
  match afterPrefix needle hay with
  | Some _ => true
  | None =>
    match hay with
    | [] => false
    | _ :: rest => includesb rest needle
    end
  end.

(** The manual record is absent, or every one of its fields is blank. *)
Definition ManualBlank (studentInfo : StudentInfo) : Prop :=
  match manualAcademicRecord studentInfo with
  | None => True
  | Some record => Forall Blank (recordValues record)
  end.

(** The requests among the effects of a run. *)
Definition requestsOf (effects : list Effect) : list Request :=
  flat_map (fun e => match e with GenerateContent r => [r] | _ => [] end)
           effects.

(** The payload shape of the specification: the instruction text, then at
    most one inline image. *)
Definition TextThenOptionalImage (parts : list Part) : Prop :=
  exists text,
    parts = [TextPart text]
    \/ exists image, parts = [TextPart text; InlineData image].

Definition IsObject (schema : Schema) : Prop :=
  exists properties required, schema = OBJECT properties required.

(** The analysis call fails: the promise rejects, the response has no text,
    or its text, once cleaned, is not JSON. *)
Definition AnalysisFails `{Engine} (ai : Request -> Response)
    (info : StudentInfo) (location : option Location) : Prop :=
  ai (analysisRequest info location) = Rejected
  \/ ai (analysisRequest info location) = Resolved None
  \/ exists text,
       ai (analysisRequest info location) = Resolved (Some text)
       /\ JSON_parse readReport (cleanResponseText text) = None.

(** Only the console and alerts: nothing is sent and nothing is stored. *)
Definition Notice (e : Effect) : Prop :=
  match e with
  | GenerateContent _ => False
  | ConsoleError _ | Alert _ => True
  end.

(** *** Reading the strategy tab back *)

Section ReadBack.
Import ReportDashboard.

(** Reading a recommendation back from its card: the six places where
    [renderRecommendationCard] puts a field. *)
Definition readCard (card : View) : option UniversityRecommendation :=
  match card with
  | Element _ _
      [ Element _ _
          [ Element _ _
              [ Element _ _ [Text category];
                Element _ _ [Text university; _; Text major];
                Element _ _ [Text admissionType] ];
            Element _ _ [ Element _ _ [Number acceptanceChance; _]; _ ] ];
        Element _ _ [Text rationale] ] =>
    Some {| category := category; university := university; major := major;
            admissionType := admissionType;
            acceptanceChance := acceptanceChance; rationale := rationale |}
  | _ => None
  end.

Fixpoint readCards (cards : list View)
    : option (list UniversityRecommendation) :=
  match cards with
  | [] => Some []
  | card :: rest =>
    match readCard card, readCards rest with
    | Some rec, Some recs => Some (rec :: recs)
    | _, _ => None
    end
  end.

Definition readColumn (column : View)
    : option (list UniversityRecommendation) :=
  match column with
  | Element _ _ [ _; Element _ _ cards ] => readCards cards
  | _ => None
  end.

(** The early and the regular list, read back from the strategy tab. *)
Definition readStrategy (view : View)
    : option (list UniversityRecommendation * list UniversityRecommendation) :=
  match view with
  | Element _ _ [ early; regular ] =>
    match readColumn early, readColumn regular with
    | Some e, Some r => Some (e, r)
    | _, _ => None
    end
  | _ => None
  end.

Definition childrenOf (view : View) : list View :=
  match view with
  | Element _ _ children => children
  | _ => []
  end.

(** *** Reading the dashboard tab and the local support tab back *)

Fixpoint readEach {X : Type} (read : View -> option X) (views : list View)
    : option (list X) :=
  match views with
  | [] => Some []
  | view :: rest =>
    match read view, readEach read rest with
    | Some x, Some xs => Some (x :: xs)
    | _, _ => None
    end
  end.

(** The name and the application type of the summary sentence. *)
Definition readHeadline (panel : View) : option (jsstring * jsstring) :=
  match panel with
  | Element _ _ [ _; Element _ _ [Text name; _; Text kind; _] ] =>
    Some (name, kind)
  | _ => None
  end.

(** The chart of a panel, under its title. *)
Definition readChart (panel : View) : option Chart :=
  match panel with
  | Element _ _ [ _; Recharts chart ] => Some chart
  | _ => None
  end.

(** A keyword chip: its text and its inline style. *)
Definition readChip (chip : View)
    : option (jsstring * list (jsstring * StyleValue)) :=
  match chip with
  | Element _ attrs [Text text] => Some (text, style attrs)
  | _ => None
  end.

Definition readCloud (panel : View)
    : option (list (jsstring * list (jsstring * StyleValue))) :=
  match panel with
  | Element _ _ [ _; Element _ _ chips ] => readEach readChip chips
  | _ => None
  end.

(** The dashboard tab: the summary sentence, the data of the three charts
    (with the legend of the radar) and the keyword chips. *)
Definition readDashboard (view : View)
    : option (jsstring * jsstring * list (jsstring * number)
              * list TrendPoint.t * (jsstring * list Competency.t)
              * list (jsstring * list (jsstring * StyleValue))) :=
  match childrenOf view with
  | [ summary; pie; line; radar; cloud ] =>
    match readHeadline summary, readChart pie, readChart line,
          readChart radar, readCloud cloud with
    | Some (name, kind), Some (PieChart shares), Some (LineChart trend),
      Some (RadarChart legend competencies), Some chips =>
      Some (name, kind, shares, trend, (legend, competencies), chips)
    | _, _, _, _, _ => None
    end
  | _ => None
  end.

Definition readStar (star : View) : option bool :=
  match star with
  | Svg (StarIcon filled) => Some filled
  | _ => None
  end.

(** The name and the distance at the top of a card of the local tab. *)
Definition readPlace (header : View) : option (jsstring * jsstring) :=
  match header with
  | Element _ _ [ Element _ _ [Text name]; Element _ _ [Text distance] ] =>
    Some (name, distance)
  | _ => None
  end.

(** An academy card: name, distance, the five stars, the rating as it is
    printed, the review count. *)
Definition readAcademy (card : View)
    : option (jsstring * jsstring * list bool * jsstring * number) :=
  match card with
  | Element _ _
      [ header;
        Element _ _
          [ Element _ _ stars;
            Element _ _ [ _; Text rating; _; Number reviews; _ ] ] ] =>
    match readPlace header, readEach readStar stars with
    | Some (name, distance), Some filled =>
      Some (name, distance, filled, rating, reviews)
    | _, _ => None
    end
  | _ => None
  end.

(** A study space card: name, distance, the label, the five stars, the
    rating as it is printed. *)
Definition readStudySpace (card : View)
    : option (jsstring * jsstring * jsstring * list bool * jsstring) :=
  match card with
  | Element _ _
      [ header;
        Element _ _
          [ Element _ _ [Text label];
            Element _ _ stars;
            Element _ _ [ _; Text rating; _ ] ] ] =>
    match readPlace header, readEach readStar stars with
    | Some (name, distance), Some filled =>
      Some (name, distance, label, filled, rating)
    | _, _ => None
    end
  | _ => None
  end.

(** The local support tab: the student's name and the weak subject of the
    opening sentence, then the academies and the study spaces. *)
Definition readLocalSupport (view : View)
    : option (jsstring * jsstring
              * list (jsstring * jsstring * list bool * jsstring * number)
              * list (jsstring * jsstring * jsstring * list bool * jsstring)) :=
  match view with
  | Element _ _
      [ _;
        Element _ _ [ _; Text name; _; Element _ _ [Text weak]; _ ];
        Element _ _
          [ Element _ _ [ _; Element _ _ academies ];
            Element _ _ [ _; Element _ _ spaces ] ] ] =>
    match readEach readAcademy academies,
          readEach readStudySpace spaces with
    | Some a, Some s => Some (name, weak, a, s)
    | _, _ => None
    end
  | _ => None
  end.

(** The label of a study space: the one of a library for the type
    [Library], the one of a study cafe for every other string. *)
Definition libraryLabel (type : jsstring) : jsstring :=
  if list_eq_dec N.eq_dec type (js "Library")
  then js "도서관" else js "스터디 카페".

(** A report with other z-scores and other mock-exam notes. *)
Definition withScores (z : list ZScore.t) (m : list MockExamNote.t)
    (r : AnalysisReport) : AnalysisReport :=
  {| Report.studentName := Report.studentName r;
     Report.recommendedApplicationType := Report.recommendedApplicationType r;
     Report.quantitativeAnalysis :=
       {| gpaZScore := z;
          gradeTrend := gradeTrend (Report.quantitativeAnalysis r);
          mockExamAnalysis := m |};
     Report.qualitativeAnalysis := Report.qualitativeAnalysis r;
     Report.applicationStrategy := Report.applicationStrategy r;
     Report.earlyDecisionRecommendations := Report.earlyDecisionRecommendations r;
     Report.regularDecisionRecommendations :=
       Report.regularDecisionRecommendations r;
     Report.localSupport := Report.localSupport r |}.

End ReadBack.

End Spec.

(* ================================================================== *)
(** ** An engine and data for the examples *)
(* ================================================================== *)

(** The properties below hold for every [Engine].  The examples need one to
    run: this one prints integers as ECMAScript does (decimal digits, a
    minus sign), gives them one zero decimal under [toFixed(1)], rounds them
    to themselves, and reads two JSON documents, each to the object it
    denotes.  Numbers that are not integers do not occur in the examples. *)
Module Sample.
Import JS Types Host GeminiService.

(** The integer a number is, when it is one of magnitude below 10^21. *)
Definition integerOf (x : number) : option Z :=
  match Prim2SF x with
  | S754_zero _ => Some 0%Z
  | S754_finite negative m e =>
    let magnitude :=
      if (0 <=? e)%Z then Some (Z.pos m * 2 ^ e)%Z
      else if (Z.pos m mod 2 ^ (- e) =? 0)%Z then Some (Z.pos m / 2 ^ (- e))%Z
      else None in
    match magnitude with
    | Some v =>
      if (v <? 10 ^ 21)%Z then Some (if negative then (- v)%Z else v) else None
    | None => None
    end
  | _ => None
  end.

Fixpoint digits (fuel : nat) (n : N) (acc : jsstring) : jsstring :=
  match fuel with
  | O => acc
  | S fuel' =>
    let acc' := (0x30 + n mod 10)%N :: acc in
    if (n / 10 =? 0)%N then acc' else digits fuel' (n / 10)%N acc'
  end.

Definition decimal (v : Z) : jsstring :=
  (if (v <? 0)%Z then js "-" else []) ++ digits 22 (Z.abs_N v) [].

Definition printNumber (x : number) : jsstring :=
  match integerOf x with
  | Some v => decimal v
  | None => js "NaN"
  end.

Definition printFixed1 (x : number) : jsstring :=
  match integerOf x with
  | Some v => decimal v ++ js ".0"
  | None => js "NaN"
  end.

(** A literal with apostrophes where the JSON text has double quotes. *)
Definition json (s : string) : jsstring :=
  map (fun c => if (c =? 0x27)%N then 0x22%N else c) (js s).
Arguments json s%_string.

Definition recommendation : UniversityRecommendation :=
  {| category := js "적정"; university := js "한국대학교";
     major := js "컴퓨터공학과"; admissionType := js "학생부종합";
     acceptanceChance := 65%float; rationale := js "전공 관련 활동이 풍부함" |}.

Definition report : AnalysisReport :=
  {| Report.studentName := js "김민수";
     Report.recommendedApplicationType := js "수시";
     Report.quantitativeAnalysis :=
       {| gpaZScore := [ {| ZScore.subject := js "수학"; ZScore.zScore := 1%float |} ];
          gradeTrend := [ {| TrendPoint.semester := js "1-1"; TrendPoint.gpa := 2%float |} ];
          mockExamAnalysis :=
            [ {| MockExamNote.subject := js "영어"; MockExamNote.strength := false;
                 MockExamNote.comment := js "어휘 보완 필요" |} ] |};
     Report.qualitativeAnalysis :=
       {| keywordCloud := [ {| Keyword.text := js "인공지능"; Keyword.value := 8%float |} ];
          competencyRadar :=
            [ {| Competency.subject := js "학업역량"; Competency.score := 4%float;
                 Competency.fullMark := 5%float |} ] |};
     Report.applicationStrategy :=
       {| earlyDecisionProbability := 60%float; regularDecisionProbability := 40%float |};
     Report.earlyDecisionRecommendations := [recommendation];
     Report.regularDecisionRecommendations := [];
     Report.localSupport :=
       {| weakSubject := js "영어";
          recommendedAcademies :=
            [ {| Academy.name := js "한빛영어학원"; Academy.distance := js "1km";
                 Academy.rating := 4%float; Academy.reviewCount := 120%float |} ];
          recommendedStudySpaces :=
            [ {| StudySpace.name := js "시립도서관"; StudySpace.type := js "Library";
                 StudySpace.distance := js "2km"; StudySpace.rating := 5%float |} ] |} |}.

Definition reportText : jsstring :=
  json "{'studentName':'김민수','recommendedApplicationType':'수시','quantitativeAnalysis':{'gpaZScore':[{'subject':'수학','zScore':1}],'gradeTrend':[{'semester':'1-1','gpa':2}],'mockExamAnalysis':[{'subject':'영어','strength':false,'comment':'어휘 보완 필요'}]},'qualitativeAnalysis':{'keywordCloud':[{'text':'인공지능','value':8}],'competencyRadar':[{'subject':'학업역량','score':4,'fullMark':5}]},'applicationStrategy':{'earlyDecisionProbability':60,'regularDecisionProbability':40},'earlyDecisionRecommendations':[{'category':'적정','university':'한국대학교','major':'컴퓨터공학과','admissionType':'학생부종합','acceptanceChance':65,'rationale':'전공 관련 활동이 풍부함'}],'regularDecisionRecommendations':[],'localSupport':{'weakSubject':'영어','recommendedAcademies':[{'name':'한빛영어학원','distance':'1km','rating':4,'reviewCount':120}],'recommendedStudySpaces':[{'name':'시립도서관','type':'Library','distance':'2km','rating':5}]}}".

Definition extractedRecord : ManualAcademicRecord :=
  {| awards := js "교내 수학경시대회 금상"; creativeActivities := js "로봇 동아리 부장";
     detailedAbilities := []; readingActivities := js "코스모스";
     behavioralCharacteristics := js "성실함" |}.

Definition extractionText : jsstring :=
  json "{'studentName':'김민수','awards':'교내 수학경시대회 금상','creativeActivities':'로봇 동아리 부장','detailedAbilities':'','readingActivities':'코스모스','behavioralCharacteristics':'성실함'}".

Definition engine : Engine :=
  {| Number_toString := printNumber;
     Number_toFixed1 := printFixed1;
     Math_round := fun x => x;
     readReport := fun s => if strEq s reportText then Some report else None;
     readExtraction := fun s =>
       if strEq s extractionText
       then Some (js "김민수", extractedRecord) else None |}.

Definition picture : InlineImage :=
  {| mimeType := js "image/png"; data := js "iVBORw0KGgo=" |}.

Definition student : StudentInfo :=
  {| grade := Grade2; desiredField := js "컴퓨터공학";
     studentName := Some (js "김민수"); academicRecord := None;
     academicRecordImage := Some picture;
     manualAcademicRecord := Some extractedRecord;
     mockExam := {| korean := js "92"; math := js "88"; english := js "2";
                    inquiry1 := js "90"; inquiry2 := js "85" |} |}.

Definition seoul : Location := {| latitude := 37%float; longitude := 127%float |}.

(** The student who skipped the mock exam and gave no record at all. *)
Definition newcomer : StudentInfo :=
  {| grade := Grade1; desiredField := js "의예과";
     studentName := Some []; academicRecord := None;
     academicRecordImage := None; manualAcademicRecord := None;
     mockExam := {| korean := []; math := js " "; english := [];
                    inquiry1 := []; inquiry2 := [] |} |}.

(** The student whose picture was read into a record of blank fields. *)
Definition unread : StudentInfo :=
  {| grade := Grade3; desiredField := js "경영학";
     studentName := Some (js "OOO"); academicRecord := None;
     academicRecordImage := Some picture;
     manualAcademicRecord :=
       Some {| awards := []; creativeActivities := js " ";
               detailedAbilities := []; readingActivities := [];
               behavioralCharacteristics := [] |};
     mockExam := {| korean := js "92"; math := []; english := [];
                    inquiry1 := []; inquiry2 := [] |} |}.

(** The report document as a model may send it: indented, with a final
    line feed. *)
Definition paddedReportText : jsstring := js "  " ++ reportText ++ LF.

(** Services that answer every request the same way. *)
Definition answering (text : jsstring) : Request -> Response :=
  fun _ => Resolved (Some text).

Definition failing : Request -> Response := fun _ => Rejected.

(** A chosen file that the reader turns into [picture]. *)
Definition file : Onboarding.File :=
  {| Onboarding.objectURL := js "blob:https://app.example/5a1c";
     Onboarding.base64 := Some picture |}.

(** The form at step 2, after the image tile was clicked. *)
Definition atImageUpload : Onboarding.State :=
  Onboarding.setRecordInputType (Some Onboarding.image)
    (Onboarding.handleNext Onboarding.initial).

(** The form at step 1 with a grade chosen and one space typed in the
    desired field. *)
Definition spaceTyped : Onboarding.State :=
  Onboarding.setInfo
    (fun prev =>
       {| grade := Grade2; desiredField := js " ";
          studentName := studentName prev;
          academicRecord := academicRecord prev;
          academicRecordImage := academicRecordImage prev;
          manualAcademicRecord := manualAcademicRecord prev;
          mockExam := mockExam prev |})
    Onboarding.initial.

(** The application once the welcome button was clicked. *)
Definition started : App.State := App.handle App.startOnboarding App.initial.

Definition otherScores : AnalysisReport :=
  Spec.withScores
    [ {| ZScore.subject := js "국어"; ZScore.zScore := 2%float |} ]
    [ {| MockExamNote.subject := js "수학"; MockExamNote.strength := true;
         MockExamNote.comment := js "상위권 유지" |} ]
    report.

(** [n.toFixed(1)] by exact arithmetic on the binary expansion: the sign,
    then the integer nearest to ten times the magnitude (the larger one
    of two), with a point before its last digit.  For the finite numbers
    of magnitude below 10^21. *)
Definition fixed1 (x : number) : jsstring :=
  match Prim2SF x with
  | S754_zero _ => js "0.0"
  | S754_finite negative m e =>
    let n :=
      if (0 <=? e)%Z then (10 * Z.pos m * 2 ^ e)%Z
      else ((20 * Z.pos m + 2 ^ (- e)) / (2 * 2 ^ (- e)))%Z in
    if (n <? 10 ^ 22)%Z
    then (if negative then js "-" else [])
           ++ digits 22 (Z.to_N (n / 10)) [] ++ js "."
           ++ digits 1 (Z.to_N (n mod 10)) []
    else js "NaN"
  | _ => js "NaN"
  end.

Definition ofInteger (n : Z) : number :=
  if (n <? 0)%Z then PrimFloat.opp (PrimFloat.of_uint63 (Uint63.of_Z (- n)))
  else PrimFloat.of_uint63 (Uint63.of_Z n).

(** [Math.round(n)]: the integer part of [n + 1/2], by exact arithmetic
    (a number with no fractional bits is its own rounding); up to the sign
    of a zero result. *)
Definition roundHalfUp (x : number) : number :=
  match Prim2SF x with
  | S754_finite negative m e =>
    if (0 <=? e)%Z then x
    else
      let v := if negative then (- Z.pos m)%Z else Z.pos m in
      ofInteger ((2 * v + 2 ^ (- e)) / (2 * 2 ^ (- e)))%Z
  | _ => x
  end.

(** The engine of the examples with the two roundings worked out. *)
Definition precise : Engine :=
  {| Number_toString := printNumber;
     Number_toFixed1 := fixed1;
     Math_round := roundHalfUp;
     readReport := readReport (Engine := engine);
     readExtraction := readExtraction (Engine := engine) |}.

(** The report of the examples with another application type, with another
    weight on every keyword, with another type for every study space, and
    with another rating for every academy and study space. *)
Definition retyped (kind : jsstring) : AnalysisReport :=
  {| Report.studentName := Report.studentName report;
     Report.recommendedApplicationType := kind;
     Report.quantitativeAnalysis := Report.quantitativeAnalysis report;
     Report.qualitativeAnalysis := Report.qualitativeAnalysis report;
     Report.applicationStrategy := Report.applicationStrategy report;
     Report.earlyDecisionRecommendations :=
       Report.earlyDecisionRecommendations report;
     Report.regularDecisionRecommendations :=
       Report.regularDecisionRecommendations report;
     Report.localSupport := Report.localSupport report |}.

Definition reweighted (value : number) : AnalysisReport :=
  {| Report.studentName := Report.studentName report;
     Report.recommendedApplicationType :=
       Report.recommendedApplicationType report;
     Report.quantitativeAnalysis := Report.quantitativeAnalysis report;
     Report.qualitativeAnalysis :=
       {| keywordCloud :=
            map (fun word =>
                   {| Keyword.text := Keyword.text word;
                      Keyword.value := value |})
                (keywordCloud (Report.qualitativeAnalysis report));
          competencyRadar :=
            competencyRadar (Report.qualitativeAnalysis report) |};
     Report.applicationStrategy := Report.applicationStrategy report;
     Report.earlyDecisionRecommendations :=
       Report.earlyDecisionRecommendations report;
     Report.regularDecisionRecommendations :=
       Report.regularDecisionRecommendations report;
     Report.localSupport := Report.localSupport report |}.

Definition withLocalSupport (support : LocalSupport) : AnalysisReport :=
  {| Report.studentName := Report.studentName report;
     Report.recommendedApplicationType :=
       Report.recommendedApplicationType report;
     Report.quantitativeAnalysis := Report.quantitativeAnalysis report;
     Report.qualitativeAnalysis := Report.qualitativeAnalysis report;
     Report.applicationStrategy := Report.applicationStrategy report;
     Report.earlyDecisionRecommendations :=
       Report.earlyDecisionRecommendations report;
     Report.regularDecisionRecommendations :=
       Report.regularDecisionRecommendations report;
     Report.localSupport := support |}.

Definition rehoused (type : jsstring) : AnalysisReport :=
  withLocalSupport
    {| weakSubject := weakSubject (Report.localSupport report);
       recommendedAcademies :=
         recommendedAcademies (Report.localSupport report);
       recommendedStudySpaces :=
         map (fun item =>
                {| StudySpace.name := StudySpace.name item;
                   StudySpace.type := type;
                   StudySpace.distance := StudySpace.distance item;
                   StudySpace.rating := StudySpace.rating item |})
             (recommendedStudySpaces (Report.localSupport report)) |}.

Definition rerated (rating : number) : AnalysisReport :=
  withLocalSupport
    {| weakSubject := weakSubject (Report.localSupport report);
       recommendedAcademies :=
         map (fun item =>
                {| Academy.name := Academy.name item;
                   Academy.distance := Academy.distance item;
                   Academy.rating := rating;
                   Academy.reviewCount := Academy.reviewCount item |})
             (recommendedAcademies (Report.localSupport report));
       recommendedStudySpaces :=
         map (fun item =>
                {| StudySpace.name := StudySpace.name item;
                   StudySpace.type := StudySpace.type item;
                   StudySpace.distance := StudySpace.distance item;
                   StudySpace.rating := rating |})
             (recommendedStudySpaces (Report.localSupport report)) |}.

End Sample.

(* ================================================================== *)
(** ** [App.tsx]: [fileToBase64] *)
(* ================================================================== *)

Module FileReader.
Import JS Types.

(** [s.split(c)] for a separator of one code unit: the pieces between the
    occurrences of [c], never an empty array. *)
Fixpoint split (separator : N) (s : jsstring) : list jsstring :=
  match s with
  | [] => [[]]
  | c :: rest =>
    if (c =? separator)%N then [] :: split separator rest
    else
      match split separator rest with
      | piece :: pieces => (c :: piece) :: pieces
      | [] => [[c]]
      end
  end.

Definition comma : N := 0x2C%N.
Definition colon : N := 0x3A%N.
Definition semicolon : N := 0x3B%N.

(** How the promise of [fileToBase64] ends: [resolve({ mimeType, data })],
    where [data] is [undefined] when the result has no comma; a
    [TypeError] inside [onload] (the promise is never settled); or
    [reject] from [onerror]. *)
Inductive Settlement : Type :=
| Resolve (mimeType : jsstring) (data : option jsstring)
| Throw
| Reject.

(** [reader.onload]: element 0 of a split always exists; element 1 may be
    [undefined], and [undefined.split] throws. [mimeType] is computed
    before [data]. *)
Definition onload (result : jsstring) : Settlement :=
  match nth_error (split colon (hd [] (split comma result))) 1 with
  | None => Throw
  | Some afterColon =>
    Resolve (hd [] (split semicolon afterColon))
            (nth_error (split comma result) 1)
  end.

(** The reader hands over a data URL, or reports an error. *)
Definition fileToBase64 (reader : option jsstring) : Settlement :=
  match reader with
  | Some result => onload result
  | None => Reject
  end.

(** The data URL of a payload: [data:<type>;<parameters>,<payload>]. *)
Definition dataURL (mediaType parameters payload : jsstring) : jsstring :=
  js "data:" ++ mediaType ++ [semicolon] ++ parameters ++ [comma] ++ payload.

End FileReader.

(* ================================================================== *)
(** ** [App.tsx]: the inputs and buttons of [Onboarding] *)
(* ================================================================== *)

Module Form.
Import JS Types Host GeminiService Onboarding.

(** The [name] attributes of the five score inputs and of the five
    textareas. *)
Inductive ScoreKey : Type := Korean | Math | English | Inquiry1 | Inquiry2.

Inductive RecordKey : Type :=
| Awards | CreativeActivities | DetailedAbilities | ReadingActivities
| BehavioralCharacteristics.

(** The text inputs that call [handleChange]. *)
Inductive TextField : Type :=
| DesiredField
| RecordField (key : RecordKey)
| ScoreField (key : ScoreKey).

Definition nameOf (field : TextField) : jsstring :=
  match field with
  | DesiredField => js "desiredField"
  | RecordField Awards => js "awards"
  | RecordField CreativeActivities => js "creativeActivities"
  | RecordField DetailedAbilities => js "detailedAbilities"
  | RecordField ReadingActivities => js "readingActivities"
  | RecordField BehavioralCharacteristics => js "behavioralCharacteristics"
  | ScoreField Korean => js "korean"
  | ScoreField Math => js "math"
  | ScoreField English => js "english"
  | ScoreField Inquiry1 => js "inquiry1"
  | ScoreField Inquiry2 => js "inquiry2"
  end.

(** [m[key]] and [{ ...m, [key]: value }] on the two five-field objects. *)
Definition scoreOf (key : ScoreKey) (m : MockExam) : jsstring :=
  match key with
  | Korean => korean m
  | Math => math m
  | English => english m
  | Inquiry1 => inquiry1 m
  | Inquiry2 => inquiry2 m
  end.

Definition setScore (key : ScoreKey) (value : jsstring) (m : MockExam)
    : MockExam :=
  {| korean := match key with Korean => value | _ => korean m end;
     math := match key with Math => value | _ => math m end;
     english := match key with English => value | _ => english m end;
     inquiry1 := match key with Inquiry1 => value | _ => inquiry1 m end;
     inquiry2 := match key with Inquiry2 => value | _ => inquiry2 m end |}.

Definition recordFieldOf (key : RecordKey) (r : ManualAcademicRecord)
    : jsstring :=
  match key with
  | Awards => awards r
  | CreativeActivities => creativeActivities r
  | DetailedAbilities => detailedAbilities r
  | ReadingActivities => readingActivities r
  | BehavioralCharacteristics => behavioralCharacteristics r
  end.

Definition setRecordField (key : RecordKey) (value : jsstring)
    (r : ManualAcademicRecord) : ManualAcademicRecord :=
  {| awards := match key with Awards => value | _ => awards r end;
     creativeActivities :=
       match key with
       | CreativeActivities => value
       | _ => creativeActivities r
       end;
     detailedAbilities :=
       match key with DetailedAbilities => value | _ => detailedAbilities r end;
     readingActivities :=
       match key with ReadingActivities => value | _ => readingActivities r end;
     behavioralCharacteristics :=
       match key with
       | BehavioralCharacteristics => value
       | _ => behavioralCharacteristics r
       end |}.

Definition withMockExam (f : MockExam -> MockExam) (prev : StudentInfo)
    : StudentInfo :=
  {| grade := grade prev; desiredField := desiredField prev;
     studentName := studentName prev; academicRecord := academicRecord prev;
     academicRecordImage := academicRecordImage prev;
     manualAcademicRecord := manualAcademicRecord prev;
     mockExam := f (mockExam prev) |}.

Definition withRecord (f : ManualAcademicRecord -> ManualAcademicRecord)
    (prev : StudentInfo) : StudentInfo :=
  {| grade := grade prev; desiredField := desiredField prev;
     studentName := studentName prev; academicRecord := academicRecord prev;
     academicRecordImage := academicRecordImage prev;
     manualAcademicRecord :=
       match manualAcademicRecord prev with
       | Some r => Some (f r)
       | None => None
       end;
     mockExam := mockExam prev |}.

Definition withGrade (g : Grade) (prev : StudentInfo) : StudentInfo :=
  {| grade := g; desiredField := desiredField prev;
     studentName := studentName prev; academicRecord := academicRecord prev;
     academicRecordImage := academicRecordImage prev;
     manualAcademicRecord := manualAcademicRecord prev;
     mockExam := mockExam prev |}.

Definition withDesiredField (value : jsstring) (prev : StudentInfo)
    : StudentInfo :=
  {| grade := grade prev; desiredField := value;
     studentName := studentName prev; academicRecord := academicRecord prev;
     academicRecordImage := academicRecordImage prev;
     manualAcademicRecord := manualAcademicRecord prev;
     mockExam := mockExam prev |}.

(** *** [handleChange]

    The change events the form can raise: the grade select with one of its
    four options, or one of the eleven text inputs with any text. *)
Inductive Change : Type :=
| ChangeGrade (value : Grade)
| ChangeText (field : TextField) (value : jsstring).

(** The three branches: [name in info.mockExam]; else
    [info.manualAcademicRecord && name in info.manualAcademicRecord]; else
    [{ ...prev, [name]: value }].  A textarea name with no manual record
    takes the last branch and adds a property of that name to [info]
    itself, which no code reads: the typed state is as it was. *)
Definition handleChange (change : Change) (s : State) : State :=
  match change with
  | ChangeText (ScoreField key) value =>
    setInfo (withMockExam (setScore key value)) s
  | ChangeText (RecordField key) value =>
    match manualAcademicRecord (info s) with
    | Some _ => setInfo (withRecord (setRecordField key value)) s
    | None => s
    end
  | ChangeText DesiredField value => setInfo (withDesiredField value) s
  | ChangeGrade value => setInfo (withGrade value) s
  end.

(** The [value] prop of a text input: what the input shows. *)
Definition valueOf (field : TextField) (s : State) : option jsstring :=
  match field with
  | DesiredField => Some (desiredField (info s))
  | RecordField key =>
    match manualAcademicRecord (info s) with
    | Some r => Some (recordFieldOf key r)
    | None => None
    end
  | ScoreField key => Some (scoreOf key (mockExam (info s)))
  end.

(** [handleSkipMockExam], given what [window.confirm] answers. *)
Definition handleSkipMockExam (confirmed : bool) (s : State) : State :=
  if confirmed then handleNext s else s.

(** The click handler of the change-image button (line 191). *)
Definition changeImage (s : State) : State :=
  setInfo (withImage None) (setImagePreview None s).

(** *** What the component renders

    The interactive elements of the rendered tree, in document order: the
    inputs of [renderStep] and the buttons of the bar below it. A button
    carries its [disabled] prop. *)
Inductive Handler : Type :=
| ChooseImage | ChooseManual | ChangeImage | RequestLocation
| Prev | Skip | Next | Start.

Inductive Control : Type :=
| GradeSelect
| TextInput (field : TextField)
| FileInput
| Button (handler : Handler) (disabled : bool).

(** [renderStep]: the [switch] on [step], lines 135 to 240. *)
Definition stepControls (s : State) : list Control :=
  match step s with
  | 1%Z => [GradeSelect; TextInput DesiredField]
  | 2%Z =>
    if isExtracting s then []
    else
      match recordInputType s with
      | None => [Button ChooseImage false; Button ChooseManual false]
      | Some image =>
        FileInput
          :: match imagePreview s with
             | Some _ => [Button ChangeImage false]
             | None => []
             end
      | Some manual =>
        match manualAcademicRecord (info s) with
        | Some _ =>
          [ TextInput (RecordField DetailedAbilities);
            TextInput (RecordField CreativeActivities);
            TextInput (RecordField BehavioralCharacteristics);
            TextInput (RecordField Awards);
            TextInput (RecordField ReadingActivities) ]
        | None => []
        end
      end
  | 3%Z =>
    [ TextInput (ScoreField Korean); TextInput (ScoreField Math);
      TextInput (ScoreField English); TextInput (ScoreField Inquiry1);
      TextInput (ScoreField Inquiry2) ]
  | 4%Z => [Button RequestLocation false]
  | _ => []
  end.

(** The button bar, lines 252 to 286. *)
Definition barControls (s : State) : list Control :=
  (if (1 <? step s)%Z then [Button Prev false] else [])
    ++ (if (step s =? 3)%Z then [Button Skip false] else [])
    ++ (if (step s <? 4)%Z && negb (isExtracting s)
        then [Button Next (negb (isStepComplete s))] else [])
    ++ (if (step s =? 4)%Z then [Button Start false] else []).

Definition controls (s : State) : list Control :=
  stepControls s ++ barControls s.

Definition sameControl (a b : Control) : {a = b} + {a <> b}.
Proof. repeat decide equality. Defined.

(** The element is in the tree (and, for a button, enabled). *)
Definition offers (c : Control) (s : State) : bool :=
  if in_dec sameControl c (controls s) then true else false.

(** *** One mounted form

    The form together with the upload in flight: [handleFileChange] is
    suspended at its first [await] ([Reading]), at its second
    ([Extracting]), or not running. *)
Inductive Pending : Type :=
| Idle
| Reading (file : File)
| Extracting (imagePayload : InlineImage).

Record Session : Type := { form : State; pending : Pending }.

Definition opening : Session := {| form := initial; pending := Idle |}.

(** What can happen to a mounted form: the user acts on an element that is
    rendered, or a suspended [handleFileChange] resumes.  [confirmed] is
    what [window.confirm] answers; only the skip button asks. *)
Inductive Event : Type :=
| Select (value : Grade)
| Enter (field : TextField) (value : jsstring)
| Pick (file : File)
| Click (handler : Handler) (confirmed : bool)
| Loaded
| Answered.

Definition click (handler : Handler) (confirmed : bool) (s : State) : State :=
  match handler with
  | ChooseImage => setRecordInputType (Some image) s
  | ChooseManual => handleManualSelect s
  | ChangeImage => changeImage s
  | Prev => handlePrev s
  | Skip => handleSkipMockExam confirmed s
  | Next => handleNext s
  | RequestLocation => s
  | Start => s
  end.

(** One event; [None] when the element is not rendered (or is disabled), or
    when no handler is suspended at that point.  [RequestLocation] and
    [Start] call the props of the component and leave its state alone. *)
Definition fire `{Engine} (ai : Request -> Response) (e : Event)
    (x : Session) : option Session :=
  match e with
  | Select value =>
    if offers GradeSelect (form x)
    then Some {| form := handleChange (ChangeGrade value) (form x);
                 pending := pending x |}
    else None
  | Enter field value =>
    if offers (TextInput field) (form x)
    then Some {| form := handleChange (ChangeText field value) (form x);
                 pending := pending x |}
    else None
  | Pick file =>
    if offers FileInput (form x)
    then Some {| form := fileChosen file (form x); pending := Reading file |}
    else None
  | Click handler confirmed =>
    if offers (Button handler false) (form x)
    then Some {| form := click handler confirmed (form x);
                 pending := pending x |}
    else None
  | Loaded =>
    match pending x with
    | Reading file =>
      match base64 file with
      | Some imagePayload =>
        Some {| form := fileRead imagePayload (form x);
                pending := Extracting imagePayload |}
      | None => Some {| form := form x; pending := Idle |}
      end
    | _ => None
    end
  | Answered =>
    match pending x with
    | Extracting imagePayload =>
      Some {| form :=
                fst (extractionSettled
                       (fst (extractDataFromImage ai imagePayload)) (form x));
              pending := Idle |}
    | _ => None
    end
  end.

Fixpoint run `{Engine} (ai : Request -> Response) (events : list Event)
    (x : Session) : option Session :=
  match events with
  | [] => Some x
  | e :: rest =>
    match fire ai e x with
    | Some y => run ai rest y
    | None => None
    end
  end.

(** The sessions a mounted form can be in. *)
Inductive Reachable `{Engine} (ai : Request -> Response) : Session -> Prop :=
| Reachable_opening : Reachable ai opening
| Reachable_fire (e : Event) (x y : Session) :
    Reachable ai x -> fire ai e x = Some y -> Reachable ai y.

(** The sessions that can follow a given one. *)
Inductive After `{Engine} (ai : Request -> Response) (x : Session)
    : Session -> Prop :=
| After_here : After ai x x
| After_fire (e : Event) (y z : Session) :
    After ai x y -> fire ai e y = Some z -> After ai x z.

(** What holds of every session of a mounted form: the step is one of the
    four; an upload in flight shows as busy; a busy form is on one of the
    first two steps; past step 1 the grade and the field are there; past
    step 2 the manual record has something in it. *)
Record Sound (x : Session) : Prop := {
  sound_range : (1 <= step (form x) <= 4)%Z;
  sound_busy : pending x <> Idle -> isExtracting (form x) = true;
  sound_early : isExtracting (form x) = true -> (step (form x) <= 2)%Z;
  sound_basic :
    (2 <= step (form x))%Z ->
    grade (info (form x)) <> GradeUnset
    /\ filled (desiredField (info (form x))) = true;
  sound_record :
    (3 <= step (form x))%Z -> hasManualRecord (info (form x)) = true
}.

(** The inputs of [renderStep], step by step. *)
Inductive StepControl (s : State) (c : Control) : Prop :=
| at_step1 :
    step s = 1%Z -> c = GradeSelect \/ c = TextInput DesiredField ->
    StepControl s c
| at_tiles :
    step s = 2%Z -> isExtracting s = false -> recordInputType s = None ->
    c = Button ChooseImage false \/ c = Button ChooseManual false ->
    StepControl s c
| at_upload :
    step s = 2%Z -> isExtracting s = false ->
    recordInputType s = Some image ->
    c = FileInput \/ c = Button ChangeImage false ->
    StepControl s c
| at_record (key : RecordKey) (r : ManualAcademicRecord) :
    step s = 2%Z -> isExtracting s = false ->
    recordInputType s = Some manual ->
    manualAcademicRecord (info s) = Some r ->
    c = TextInput (RecordField key) ->
    StepControl s c
| at_step3 (key : ScoreKey) :
    step s = 3%Z -> c = TextInput (ScoreField key) -> StepControl s c
| at_step4 :
    step s = 4%Z -> c = Button RequestLocation false -> StepControl s c.

(** The record and the tile go together. *)
Definition Tidy (x : Session) : Prop :=
  (recordInputType (form x) <> Some manual ->
   manualAcademicRecord (info (form x)) = None)
  /\ (pending x <> Idle -> recordInputType (form x) = Some image).

(** The [info] that the start button hands to [onComplete]. *)
Definition submits (x : Session) : option StudentInfo :=
  if offers (Button Start false) (form x) then Some (info (form x)) else None.

End Form.

(* ================================================================== *)
(** ** [App.tsx]: one visit of the page *)
(* ================================================================== *)

Module Visit.
Import JS Types Host GeminiService React App.

(** The state of [App] together with the analyses in flight: each
    [handleOnboardingComplete] suspended at its [await], with the [info]
    and the [location] it was called with.  Nothing in the source cancels
    one.

    An answer that parses is taken to be a report ([readReport]).  The
    source stores whatever [JSON.parse] returns without a check; for the
    texts [null], [false], [0] and the empty string literal that is a
    falsy value, with which the report screen is blank.  Such answers are
    outside the typed report of this embedding, so nothing below is said
    about what the report screen shows. *)
Record Session : Type := {
  app : State;
  outstanding : list (StudentInfo * option Location)
}.

Definition arriving : Session := {| app := initial; outstanding := [] |}.

Inductive Event : Type :=
| Click (handler : Handler)
| Complete (info : StudentInfo)
| Located (browser : Geolocation)
| Settled (n : nat).

Definition sameHandler (a b : Handler) : bool :=
  match a, b with
  | startOnboarding, startOnboarding | restart, restart => true
  | _, _ => false
  end.

(** [Onboarding] is what [renderContent] mounts. *)
Definition formMounted (s : State) : bool :=
  match renderContent s with
  | Component OnboardingForm => true
  | _ => false
  end.

Definition without {A : Type} (n : nat) (l : list A) : list A :=
  firstn n l ++ skipn (S n) l.

(** One event; [None] when the button is not on the page, the form is not
    mounted, or there is no such analysis in flight.  [Located] is the
    answer of the browser to [handleLocationRequest]; it may come at any
    time. *)
Definition fire `{Engine} (ai : Request -> Response) (e : Event)
    (x : Session) : option Session :=
  match e with
  | Click handler =>
    if existsb (sameHandler handler) (handlers (render (app x)))
    then Some {| app := handle handler (app x);
                 outstanding := outstanding x |}
    else None
  | Complete info =>
    if formMounted (app x)
    then Some {| app := analyzing info (app x);
                 outstanding := outstanding x ++ [(info, location (app x))] |}
    else None
  | Located browser =>
    Some {| app := fst (handleLocationRequest browser (app x));
            outstanding := outstanding x |}
  | Settled n =>
    match nth_error (outstanding x) n with
    | Some (info, place) =>
      Some {| app :=
                fst (analysisSettled
                       (fst (analyzeStudentData ai info place)) (app x));
              outstanding := without n (outstanding x) |}
    | None => None
    end
  end.

Fixpoint run `{Engine} (ai : Request -> Response) (events : list Event)
    (x : Session) : option Session :=
  match events with
  | [] => Some x
  | e :: rest =>
    match fire ai e x with
    | Some y => run ai rest y
    | None => None
    end
  end.

(** The sessions a visit can be in.  The form calls [onComplete] with the
    [info] of a session of its own in which the start button is shown. *)
Inductive Reachable `{Engine} (ai : Request -> Response) : Session -> Prop :=
| Reachable_arriving : Reachable ai arriving
| Reachable_fire (e : Event) (x y : Session) :
    Reachable ai x ->
    fire ai e x = Some y ->
    (forall info, e = Complete info ->
       exists f, Form.Reachable ai f /\ Form.submits f = Some info) ->
    Reachable ai y.

(** What an error screen has to show: [setError] and [setStep('ERROR')]
    go together in the [catch] of [handleOnboardingComplete], and the
    message caught is the one [analyzeStudentData] throws. *)
Definition Shown (x : Session) : Prop :=
  step (app x) = ERROR -> error (app x) = Some analysisFailure.

End Visit.

(* ================================================================== *)
(** ** Walks through the form, for the examples *)
(* ================================================================== *)

Module Walk.
Import JS Types Host GeminiService.

(** Grade and field, the manual tile with one award typed in, then the
    mock exam skipped: the shortest way to the start button. *)
Definition shortest : list Form.Event :=
  [ Form.Select Grade2;
    Form.Enter Form.DesiredField (js "컴퓨터공학");
    Form.Click Form.Next false;
    Form.Click Form.ChooseManual false;
    Form.Enter (Form.RecordField Form.Awards) (js "교내 수학경시대회 금상");
    Form.Click Form.Next false;
    Form.Click Form.Skip true ].

(** The same with a picture uploaded and read by the model on the way. *)
Definition withUpload : list Form.Event :=
  [ Form.Select Grade2;
    Form.Enter Form.DesiredField (js "컴퓨터공학");
    Form.Click Form.Next false;
    Form.Click Form.ChooseImage false;
    Form.Pick Sample.file;
    Form.Loaded;
    Form.Answered;
    Form.Click Form.Next false;
    Form.Click Form.Skip true ].

(** Up to the mock exam, where one score is typed before the step is
    skipped. *)
Definition toMockExam : list Form.Event :=
  [ Form.Select Grade2;
    Form.Enter Form.DesiredField (js "컴퓨터공학");
    Form.Click Form.Next false;
    Form.Click Form.ChooseManual false;
    Form.Enter (Form.RecordField Form.Awards) (js "교내 수학경시대회 금상");
    Form.Click Form.Next false;
    Form.Enter (Form.ScoreField Form.Korean) (js "92") ].

(** Up to the file input, then a file is picked. *)
Definition picking (file : Onboarding.File) : list Form.Event :=
  [ Form.Select Grade2;
    Form.Enter Form.DesiredField (js "컴퓨터공학");
    Form.Click Form.Next false;
    Form.Click Form.ChooseImage false;
    Form.Pick file ].

(** Where a walk ends (the opening session when an event of the walk is
    not possible). *)
Definition arrive `{Engine} (ai : Request -> Response)
    (events : list Form.Event) : Form.Session :=
  match Form.run ai events Form.opening with
  | Some x => x
  | None => Form.opening
  end.

(** What the shortest walk hands over. *)
Definition submitted `{Engine} (ai : Request -> Response) : StudentInfo :=
  Onboarding.info (Form.form (arrive ai shortest)).

(** A visit: the form is opened, hands over what the shortest walk
    collects, and the answer arrives. *)
Definition throughVisit `{Engine} (ai : Request -> Response)
    : list Visit.Event :=
  [ Visit.Click App.startOnboarding;
    Visit.Complete (submitted ai);
    Visit.Settled 0 ].

Definition visit `{Engine} (ai : Request -> Response)
    (events : list Visit.Event) : Visit.Session :=
  match Visit.run ai events Visit.arriving with
  | Some x => x
  | None => Visit.arriving
  end.

(** The form just opened, nothing in flight. *)
Definition formOpened : Visit.Session :=
  {| Visit.app := App.setStep App.ONBOARDING App.initial;
     Visit.outstanding := [] |}.

(** A file the reader fails on. *)
Definition unreadable : Onboarding.File :=
  {| Onboarding.objectURL := js "blob:https://app.example/77f0";
     Onboarding.base64 := None |}.

(** The result of the reader for a small PNG. *)
Definition pngURL : jsstring :=
  js "data:image/png;base64,iVBORw0KGgo=".

End Walk.

(* ================================================================== *)
(** * Properties *)
(* ================================================================== *)

(** ** Strings, [trim] and [JSON.parse] *)

Module JSFacts.
Import JS Spec.

Lemma strEq_true_iff (s t : jsstring) : strEq s t = true <-> s = t.
Proof.
  revert t. induction s as [|c s IH]; intros [|d t]; simpl;
    try (split; [discriminate | discriminate]); [split; reflexivity|].
  rewrite andb_true_iff, N.eqb_eq, IH. split.
  - intros [-> ->]. reflexivity.
  - intros Heq. injection Heq as -> ->. split; reflexivity.
Qed.

Lemma dropWhile_all (p : N -> bool) (s : jsstring) :
  forallb p s = true -> dropWhile p s = [].
Proof.
  induction s as [|c s IH]; simpl; [reflexivity|].
  intros H. apply andb_prop in H as [Hc Hs]. rewrite Hc. exact (IH Hs).
Qed.

Lemma dropWhile_nil_all (p : N -> bool) (s : jsstring) :
  dropWhile p s = [] -> forallb p s = true.
Proof.
  induction s as [|c s IH]; simpl; [reflexivity|].
  destruct (p c); [exact IH | discriminate].
Qed.

Lemma dropWhile_stop (p : N -> bool) (c : N) (s : jsstring) :
  p c = false -> dropWhile p (c :: s) = c :: s.
Proof. intros H. simpl. rewrite H. reflexivity. Qed.

Lemma dropWhile_skip (p : N -> bool) (w s : jsstring) :
  forallb p w = true -> dropWhile p (w ++ s) = dropWhile p s.
Proof.
  induction w as [|c w IH]; simpl; [reflexivity|].
  intros H. apply andb_prop in H as [Hc Hw]. rewrite Hc. exact (IH Hw).
Qed.

(** [dropWhile] cuts a prefix on which the test holds. *)
Lemma dropWhile_prefix (p : N -> bool) (s : jsstring) :
  exists w, s = w ++ dropWhile p s /\ forallb p w = true.
Proof.
  induction s as [|c s (w & Hs & Hw)]; simpl.
  - exists []. split; reflexivity.
  - destruct (p c) eqn:Hc.
    + exists (c :: w). simpl. rewrite Hc, Hw. split; [f_equal; exact Hs | reflexivity].
    + exists []. split; reflexivity.
Qed.

Lemma dropWhileEnd_suffix (p : N -> bool) (s : jsstring) :
  exists w, s = dropWhileEnd p s ++ w /\ forallb p w = true.
Proof.
  unfold dropWhileEnd.
  destruct (dropWhile_prefix p (rev s)) as (w & Hs & Hw).
  exists (rev w). split.
  - rewrite <- (rev_involutive s), Hs at 1. apply rev_app_distr.
  - rewrite forallb_forall in *. intros x Hx. apply Hw, in_rev, Hx.
Qed.

Lemma forallb_rev (p : N -> bool) (s : jsstring) :
  forallb p (rev s) = forallb p s.
Proof.
  destruct (forallb p s) eqn:H.
  - rewrite forallb_forall in *. intros x Hx. apply H, in_rev, Hx.
  - destruct (forallb p (rev s)) eqn:H'; [|reflexivity].
    rewrite <- H. symmetry. rewrite forallb_forall in *.
    intros x Hx. apply H'. rewrite <- in_rev. exact Hx.
Qed.

(** [s.trim() === ''] exactly when [s] is white space only. *)
Lemma trim_nil_iff (s : jsstring) : trim s = [] <-> Blank s.
Proof.
  unfold trim, dropWhileEnd, Blank. split.
  - intros H. apply (f_equal (@rev N)) in H. rewrite rev_involutive in H.
    simpl in H. apply dropWhile_nil_all in H. rewrite forallb_rev in H.
    destruct (dropWhile_prefix isWhiteSpace s) as (w & Hs & Hw).
    destruct (dropWhile isWhiteSpace s) as [|c r] eqn:Hd.
    + apply dropWhile_nil_all. exact Hd.
    + exfalso. simpl in H. apply andb_prop in H as [Hc _].
      destruct s as [|d s']; [discriminate|]. simpl in Hd.
      destruct (isWhiteSpace d) eqn:Hdw.
      * clear - Hd Hc. induction s' as [|e s' IH]; simpl in Hd; [discriminate|].
        destruct (isWhiteSpace e) eqn:He; [exact (IH Hd)|].
        injection Hd as -> _. congruence.
      * injection Hd as -> _. congruence.
  - intros H. rewrite (dropWhile_all _ _ H). reflexivity.
Qed.

Lemma filled_false_iff (s : jsstring) : filled s = false <-> Blank s.
Proof.
  rewrite <- trim_nil_iff. unfold filled.
  destruct (trim s); simpl; split; congruence.
Qed.

Lemma filled_true_iff (s : jsstring) : filled s = true <-> ~ Blank s.
Proof.
  rewrite <- filled_false_iff. destruct (filled s); split; congruence.
Qed.

(** *** Containment *)

Lemma Includes_refl (s : jsstring) : Includes s s.
Proof. exists [], []. rewrite app_nil_r. reflexivity. Qed.

Lemma Includes_right (a b n : jsstring) : Includes b n -> Includes (a ++ b) n.
Proof.
  intros (pre & post & ->). exists (a ++ pre), post.
  rewrite <- app_assoc. reflexivity.
Qed.

Lemma Includes_left (a b n : jsstring) : Includes a n -> Includes (a ++ b) n.
Proof.
  intros (pre & post & ->). exists pre, (post ++ b).
  rewrite <- !app_assoc. reflexivity.
Qed.

Lemma Includes_head (n b : jsstring) : Includes (n ++ b) n.
Proof. apply Includes_left, Includes_refl. Qed.

Lemma Includes_trans (a b c : jsstring) :
  Includes a b -> Includes b c -> Includes a c.
Proof.
  intros (p1 & q1 & ->) (p2 & q2 & ->). exists (p1 ++ p2), (q2 ++ q1).
  rewrite <- !app_assoc. reflexivity.
Qed.

(** *** Character classes *)

Ltac chars_prop H :=
  rewrite ?orb_true_iff, ?andb_true_iff, ?N.eqb_eq, ?N.leb_le in H.

Ltac chars :=
  unfold isJsonSpace, isWhiteSpace, beginsValue, endsValue, isDigit in *;
  repeat match goal with
         | H : _ = true |- _ => chars_prop H; revert H
         end;
  intros; repeat split;
  try (apply not_true_is_false; let F := fresh in intro F; chars_prop F);
  lia.

Lemma jsonSpace_isWhiteSpace (c : N) :
  isJsonSpace c = true -> isWhiteSpace c = true.
Proof.
  unfold isJsonSpace. intros H.
  rewrite !orb_true_iff, !N.eqb_eq in H.
  destruct H as [[[-> | ->] | ->] | ->]; reflexivity.
Qed.

Lemma beginsValue_solid (c : N) :
  beginsValue c = true ->
  isWhiteSpace c = false /\ isJsonSpace c = false /\ c <> 0x60%N.
Proof. intros H. chars. Qed.

Lemma endsValue_solid (c : N) :
  endsValue c = true ->
  isWhiteSpace c = false /\ isJsonSpace c = false /\ c <> 0x60%N.
Proof. intros H. chars. Qed.

Lemma jsonSpace_not_backtick (c : N) : isJsonSpace c = true -> c <> 0x60%N.
Proof. intros H. chars. Qed.

Lemma forallb_weaken (p q : N -> bool) (w : jsstring) :
  (forall c, p c = true -> q c = true) ->
  forallb p w = true -> forallb q w = true.
Proof.
  intros Hpq. rewrite !forallb_forall. intros H x Hx. apply Hpq, H, Hx.
Qed.

Lemma dropWhileEnd_stop (p : N -> bool) (s m : jsstring) (z : N) :
  rev s = z :: m -> p z = false -> dropWhileEnd p s = s.
Proof.
  intros Hs Hz. unfold dropWhileEnd. rewrite Hs, (dropWhile_stop _ _ _ Hz), <- Hs.
  apply rev_involutive.
Qed.

Lemma dropWhileEnd_skip (p : N -> bool) (s w : jsstring) :
  forallb p w = true -> dropWhileEnd p (s ++ w) = dropWhileEnd p s.
Proof.
  intros Hw. unfold dropWhileEnd. rewrite rev_app_distr, dropWhile_skip.
  - reflexivity.
  - rewrite forallb_rev. exact Hw.
Qed.

(** *** The shape of a text that [JSON.parse] accepts *)

Section Parse.
Variable R : Type.
Variable grammar : jsstring -> option R.

Lemma JSON_parse_Parsed (J : jsstring) (v : R) :
  JSON_parse grammar J = Some v -> exists core, Parsed R grammar J core v.
Proof.
  unfold JSON_parse.
  destruct (dropWhile_prefix isJsonSpace J) as (w1 & HJ & Hw1).
  destruct (dropWhileEnd_suffix isJsonSpace (dropWhile isJsonSpace J))
    as (w2 & Hd & Hw2).
  set (core := dropWhileEnd isJsonSpace (dropWhile isJsonSpace J)) in *.
  unfold valueShaped.
  destruct core as [|a m] eqn:Hcore; [discriminate|].
  destruct (rev (a :: m)) as [|z m'] eqn:Hrev; [discriminate|].
  simpl hd_error. cbv beta iota.
  destruct (beginsValue a) eqn:Ha; [|discriminate].
  destruct (endsValue z) eqn:Hz; [|discriminate].
  simpl. intros Hv. exists (a :: m).
  apply (Parsed_intro R grammar J (a :: m) v w1 w2 m m' a z);
    try assumption; try reflexivity.
  rewrite HJ at 1. rewrite Hd at 1. reflexivity.
Qed.

Lemma Parsed_trim (J core : jsstring) (v : R) :
  Parsed R grammar J core v -> trim J = core.
Proof.
  intros [w1 w2 m m' a z HJ Hw1 Hw2 Ha Hz Hba Hez _].
  destruct (beginsValue_solid _ Hba) as (Hwa & _ & _).
  destruct (endsValue_solid _ Hez) as (Hwz & _ & _).
  unfold trim. rewrite HJ, dropWhile_skip
    by (eapply forallb_weaken; [apply jsonSpace_isWhiteSpace | exact Hw1]).
  assert (Hd : dropWhile isWhiteSpace (core ++ w2) = core ++ w2)
    by (rewrite Ha; apply dropWhile_stop, Hwa).
  rewrite Hd, dropWhileEnd_skip
    by (eapply forallb_weaken; [apply jsonSpace_isWhiteSpace | exact Hw2]).
  exact (dropWhileEnd_stop _ _ _ _ Hz Hwz).
Qed.

Lemma Parsed_core (J core : jsstring) (v : R) :
  Parsed R grammar J core v -> JSON_parse grammar core = Some v.
Proof.
  intros [w1 w2 m m' a z HJ Hw1 Hw2 Ha Hz Hba Hez Hv].
  destruct (beginsValue_solid _ Hba) as (_ & Hja & _).
  destruct (endsValue_solid _ Hez) as (_ & Hjz & _).
  assert (Hd : dropWhile isJsonSpace core = core)
    by (rewrite Ha; apply dropWhile_stop, Hja).
  assert (Hs : valueShaped core = true)
    by (unfold valueShaped; rewrite Hz, Ha; simpl hd_error; cbv beta iota;
        rewrite Hba, Hez; reflexivity).
  unfold JSON_parse. cbv zeta.
  rewrite Hd, (dropWhileEnd_stop _ _ _ _ Hz Hjz), Hs. exact Hv.
Qed.

(** [JSON.parse] does not see the white space that [trim] removes from a
    text it accepts. *)
Lemma JSON_parse_trim (J : jsstring) (v : R) :
  JSON_parse grammar J = Some v -> JSON_parse grammar (trim J) = Some v.
Proof.
  intros H. destruct (JSON_parse_Parsed _ _ H) as (core & Hp).
  rewrite (Parsed_trim _ _ _ Hp). exact (Parsed_core _ _ _ Hp).
Qed.

(** A text that [JSON.parse] accepts neither begins nor ends with a
    backtick. *)
Lemma Parsed_ends (J core : jsstring) (v : R) :
  Parsed R grammar J core v ->
  (exists c r, J = c :: r /\ c <> 0x60%N)
  /\ (exists c r, rev J = c :: r /\ c <> 0x60%N).
Proof.
  intros [w1 w2 m m' a z HJ Hw1 Hw2 Ha Hz Hba Hez _].
  destruct (beginsValue_solid _ Hba) as (_ & _ & Hna).
  destruct (endsValue_solid _ Hez) as (_ & _ & Hnz).
  split.
  - destruct w1 as [|c w1'].
    + exists a, (m ++ w2). rewrite HJ, Ha. split; [reflexivity | exact Hna].
    + exists c, (w1' ++ core ++ w2). rewrite HJ. split; [reflexivity|].
      simpl in Hw1. apply andb_prop in Hw1 as [Hc _].
      exact (jsonSpace_not_backtick _ Hc).
  - rewrite HJ, !rev_app_distr.
    destruct (rev w2) as [|c r2] eqn:Hr2.
    + exists z, (m' ++ rev w1). rewrite Hz. split; [reflexivity | exact Hnz].
    + exists c, (r2 ++ rev core ++ rev w1). rewrite <- app_assoc.
      split; [reflexivity|].
      rewrite <- forallb_rev, Hr2 in Hw2. simpl in Hw2.
      apply andb_prop in Hw2 as [Hc _].
      exact (jsonSpace_not_backtick _ Hc).
Qed.

End Parse.

(** *** Anchored replacement *)

Lemma afterPrefix_app (p s : jsstring) : afterPrefix p (p ++ s) = Some s.
Proof.
  induction p as [|a p IH]; simpl; [destruct s; reflexivity|].
  rewrite N.eqb_refl. exact IH.
Qed.

Lemma removeAtStart_app (p s : jsstring) : removeAtStart p (p ++ s) = s.
Proof. unfold removeAtStart. rewrite afterPrefix_app. reflexivity. Qed.

Lemma removeAtEnd_app (q s : jsstring) : removeAtEnd q (s ++ q) = s.
Proof.
  unfold removeAtEnd. rewrite rev_app_distr, removeAtStart_app.
  apply rev_involutive.
Qed.

Lemma removeAtStart_other (a c : N) (p s : jsstring) :
  c <> a -> removeAtStart (a :: p) (c :: s) = c :: s.
Proof.
  intros H. unfold removeAtStart. simpl.
  destruct (N.eqb_spec a c); [congruence | reflexivity].
Qed.

Lemma removeAtEnd_other (a c : N) (q s r : jsstring) :
  rev s = c :: r -> c <> a -> removeAtEnd (q ++ [a]) s = s.
Proof.
  intros Hs H. unfold removeAtEnd. rewrite rev_app_distr, Hs. simpl rev.
  simpl app. rewrite (removeAtStart_other _ _ _ _ H), <- Hs. apply rev_involutive.
Qed.

End JSFacts.

(** ** The gateway: prompts and requests *)

Module GatewayProps.
Import JS Types Host GeminiService Spec JSFacts.

Lemma afterPrefix_Some (p s r : jsstring) :
  afterPrefix p s = Some r -> s = p ++ r.
Proof.
  revert s. induction p as [|a p IH]; intros s H.
  - destruct s; injection H as <-; reflexivity.
  - destruct s as [|b s]; [discriminate|]. simpl in H.
    destruct (N.eqb_spec a b) as [->|]; [|discriminate].
    simpl. f_equal. exact (IH s H).
Qed.

Lemma includesb_Includes (hay needle : jsstring) :
  includesb hay needle = true -> Includes hay needle.
Proof.
  induction hay as [|c hay IH]; simpl.
  - destruct (afterPrefix needle []) as [r|] eqn:Hp; [|discriminate].
    intros _. exists [], r. exact (afterPrefix_Some _ _ _ Hp).
  - destruct (afterPrefix needle (c :: hay)) as [r|] eqn:Hp.
    + intros _. exists [], r. exact (afterPrefix_Some _ _ _ Hp).
    + intros H. destruct (IH H) as (pre & post & ->).
      exists (c :: pre), post. reflexivity.
Qed.

(** The tests of the gateway, as propositions on the fields. *)
Lemma existsb_filled_false (l : list jsstring) :
  existsb filled l = false <-> Forall Blank l.
Proof.
  rewrite Forall_forall. split.
  - intros H v Hv. apply filled_false_iff.
    destruct (filled v) eqn:Hf; [|reflexivity].
    rewrite <- H. symmetry. apply existsb_exists. exists v. split; assumption.
  - intros H. destruct (existsb filled l) eqn:He; [|reflexivity].
    apply existsb_exists in He as (v & Hv & Hf).
    apply filled_true_iff in Hf. destruct (Hf (H v Hv)).
Qed.

Lemma existsb_filled_true (l : list jsstring) :
  existsb filled l = true <-> Exists (fun v => ~ Blank v) l.
Proof.
  rewrite Exists_exists, existsb_exists.
  split; intros (v & Hv & Hf); exists v; split; try assumption;
    apply filled_true_iff; assumption.
Qed.

Lemma hasManualRecord_false (studentInfo : StudentInfo) :
  hasManualRecord studentInfo = false <-> ManualBlank studentInfo.
Proof.
  unfold hasManualRecord, ManualBlank.
  destruct (manualAcademicRecord studentInfo) as [record|].
  - apply existsb_filled_false.
  - split; trivial.
Qed.

Section Gateway.
Context `{E : Engine}.

(** The [n]-th piece of [promptText], counted from 0. *)
Local Tactic Notation "piece" integer(n) :=
  unfold promptText; do n apply Includes_right;
  first [apply Includes_head | apply Includes_refl].

Lemma prompt_mockExamInfo studentInfo location :
  Includes (promptText studentInfo location) (mockExamInfo studentInfo).
Proof. piece 5. Qed.

Lemma prompt_academicRecordInfo studentInfo location :
  Includes (promptText studentInfo location) (academicRecordInfo studentInfo).
Proof. piece 7. Qed.

Lemma prompt_locationInfo studentInfo location :
  Includes (promptText studentInfo location) (locationInfo location).
Proof. piece 9. Qed.

Lemma prompt_generalAdvice studentInfo location :
  Includes (promptText studentInfo location) generalAdvice.
Proof. piece 13. Qed.

(** C3. The analysis request begins with a text part.  When the five
    mock-exam scores are all blank, that text carries the sentence that
    tells the model the step was skipped and asks it to estimate the
    academic performance from the academic record; when one of them is
    not blank, it carries the line that lists the five scores as they
    were typed. *)
Theorem mock_exam_section (studentInfo : StudentInfo)
    (location : option Location) :
  exists text rest,
    parts (analysisRequest studentInfo location) = TextPart text :: rest
    /\ (Forall Blank (mockExamValues (mockExam studentInfo)) ->
        Includes text
          (js "- Mock Exam Scores: The user skipped this step. Please estimate the student's academic performance for the regular decision (정시) analysis based on the provided academic record (학생 생활기록부) content."))
    /\ (Exists (fun v => ~ Blank v) (mockExamValues (mockExam studentInfo)) ->
        Includes text
          (js "- Mock Exam Scores (percentile): Korean "
             ++ korean (mockExam studentInfo)
             ++ js ", Math " ++ math (mockExam studentInfo)
             ++ js ", English " ++ english (mockExam studentInfo)
             ++ js ", Inquiry1 " ++ inquiry1 (mockExam studentInfo)
             ++ js ", Inquiry2 " ++ inquiry2 (mockExam studentInfo))).
Proof.
  exists (promptText studentInfo location),
         (snd (academicRecordSource studentInfo)).
  split; [reflexivity|].
  pose proof (prompt_mockExamInfo studentInfo location) as Hp.
  unfold mockExamInfo, mockExamScoresProvided in Hp. split.
  - intros Hblank. apply existsb_filled_false in Hblank.
    rewrite Hblank in Hp. unfold mockExamSkipped in Hp. exact Hp.
  - intros Hsome. apply existsb_filled_true in Hsome.
    rewrite Hsome in Hp. unfold mockExamListing in Hp. exact Hp.
Qed.

(** C4. With no location the request is built all the same: it begins
    with a text part that says the user has not provided a location and
    asks for general advice when no location is available.  With a
    location the text has the sentence that spells out the latitude and
    the longitude. *)
Theorem location_section (studentInfo : StudentInfo) :
  (exists text rest,
     parts (analysisRequest studentInfo None) = TextPart text :: rest
     /\ Includes text (js "The user has not provided their location.")
     /\ Includes text
          (js "If location is not available, provide general advice."))
  /\ (forall l : Location,
       exists text rest,
         parts (analysisRequest studentInfo (Some l)) = TextPart text :: rest
         /\ Includes text
              (js "The user is located at latitude "
                 ++ Number_toString (latitude l)
                 ++ js " and longitude " ++ Number_toString (longitude l)
                 ++ js ".")).
Proof.
  split.
  - exists (promptText studentInfo None),
           (snd (academicRecordSource studentInfo)).
    split; [reflexivity|]. split.
    + pose proof (prompt_locationInfo studentInfo None) as Hp.
      unfold locationInfo, noLocation in Hp. exact Hp.
    + pose proof (prompt_generalAdvice studentInfo None) as Hp.
      unfold generalAdvice in Hp. exact Hp.
  - intros l.
    exists (promptText studentInfo (Some l)),
           (snd (academicRecordSource studentInfo)).
    split; [reflexivity|].
    pose proof (prompt_locationInfo studentInfo (Some l)) as Hp.
    unfold locationInfo, locatedAt in Hp. exact Hp.
Qed.

Lemma source_manual studentInfo record :
  manualAcademicRecord studentInfo = Some record ->
  Exists (fun v => ~ Blank v) (recordValues record) ->
  academicRecordSource studentInfo = (formatManualRecord record, []).
Proof.
  intros Hr Hv. apply existsb_filled_true in Hv.
  unfold academicRecordSource, hasManualRecord. rewrite Hr, Hv. reflexivity.
Qed.

Lemma source_image studentInfo image :
  ManualBlank studentInfo ->
  academicRecordImage studentInfo = Some image ->
  academicRecordSource studentInfo = (imageNotice, [InlineData image]).
Proof.
  intros Hb Hi. apply hasManualRecord_false in Hb.
  unfold academicRecordSource. rewrite Hb, Hi. destruct image. reflexivity.
Qed.

Lemma source_parts studentInfo image :
  In (InlineData image) (snd (academicRecordSource studentInfo)) ->
  ManualBlank studentInfo /\ academicRecordImage studentInfo = Some image.
Proof.
  unfold academicRecordSource.
  destruct (hasManualRecord studentInfo) eqn:Hm.
  - destruct (manualAcademicRecord studentInfo); intros [].
  - apply hasManualRecord_false in Hm.
    destruct (academicRecordImage studentInfo) as [i|].
    + simpl. intros [Heq|[]]. injection Heq as <-. destruct i. auto.
    + destruct (academicRecord studentInfo) as [[|c r]|]; intros [].
Qed.


Lemma source_parts_shape studentInfo :
  snd (academicRecordSource studentInfo) = []
  \/ exists image, snd (academicRecordSource studentInfo) = [InlineData image].
Proof.
  unfold academicRecordSource.
  destruct (hasManualRecord studentInfo).
  - left. destruct (manualAcademicRecord studentInfo); reflexivity.
  - destruct (academicRecordImage studentInfo) as [i|].
    + right. eexists. reflexivity.
    + left. destruct (academicRecord studentInfo) as [[|c r]|]; reflexivity.
Qed.

Lemma analyze_requests ai studentInfo location :
  requestsOf (snd (analyzeStudentData ai studentInfo location))
  = [analysisRequest studentInfo location].
Proof.
  unfold analyzeStudentData. cbv zeta.
  destruct (ai (analysisRequest studentInfo location)) as [|[text|]];
    try reflexivity.
  destruct (JSON_parse readReport (cleanResponseText text)); reflexivity.
Qed.

Lemma extract_requests ai image :
  requestsOf (snd (extractDataFromImage ai image)) = [extractionRequest image].
Proof.
  unfold extractDataFromImage. cbv zeta.
  destruct (ai (extractionRequest image)) as [|[text|]]; try reflexivity.
  destruct (JSON_parse readExtraction (trim text)) as [[name record]|];
    reflexivity.
Qed.

(** C7, as the code has it. A run of either gateway function sends one
    request, and the request declares an object schema.  The analysis
    request is the instruction text followed by at most one inline image;
    the extraction request is the inline image followed by the instruction
    text. *)
Theorem request_payloads (ai : Request -> Response)
    (studentInfo : StudentInfo) (location : option Location)
    (image : InlineImage) :
  (requestsOf (snd (analyzeStudentData ai studentInfo location))
     = [analysisRequest studentInfo location]
   /\ TextThenOptionalImage (parts (analysisRequest studentInfo location))
   /\ IsObject (responseSchema (analysisRequest studentInfo location)))
  /\ (requestsOf (snd (extractDataFromImage ai image))
       = [extractionRequest image]
     /\ parts (extractionRequest image)
         = [InlineData image; TextPart extractionPrompt]
     /\ IsObject (responseSchema (extractionRequest image))).
Proof.
  split; split; [apply analyze_requests | | apply extract_requests | ].
  - split.
    + exists (promptText studentInfo location). simpl parts.
      unfold getAnalysisPrompt.
      destruct (source_parts_shape studentInfo) as [-> | (i & ->)].
      * left. reflexivity.
      * right. exists i. reflexivity.
    + eexists _, _. reflexivity.
  - split.
    + destruct image. reflexivity.
    + eexists _, _. reflexivity.
Qed.

(** *** Fences *)

Lemma openingFence_head :
  openingFence = 0x60%N :: removeAtStart [0x60%N] openingFence.
Proof. vm_compute. reflexivity. Qed.

Lemma closingFence_last :
  closingFence = removeAtEnd [0x60%N] closingFence ++ [0x60%N].
Proof. vm_compute. reflexivity. Qed.

Lemma clean_fenced (J : jsstring) :
  cleanResponseText (openingFence ++ J ++ closingFence) = trim J.
Proof.
  unfold cleanResponseText.
  rewrite removeAtStart_app, removeAtEnd_app. reflexivity.
Qed.

Lemma clean_parsed (R : Type) (grammar : jsstring -> option R)
    (J : jsstring) (v : R) :
  JSON_parse grammar J = Some v -> cleanResponseText J = trim J.
Proof.
  intros H. destruct (JSON_parse_Parsed _ _ _ _ H) as (core & Hp).
  destruct (Parsed_ends _ _ _ _ _ Hp) as ((c & r & HJ & Hc) & (d & q & HR & Hd)).
  unfold cleanResponseText.
  assert (H1 : removeAtStart openingFence J = J).
  { rewrite openingFence_head, HJ. apply removeAtStart_other, Hc. }
  rewrite H1, closingFence_last.
  rewrite (removeAtEnd_other _ _ _ _ _ HR Hd). reflexivity.
Qed.

(** C10. A response made of the opening fence line, a text [J] that
    [JSON.parse] accepts, and the closing fence line loses exactly the two
    fences, and [analyzeStudentData] returns what [J] parses to; so it does
    for [J] alone. *)
Theorem fenced_response (ai : Request -> Response)
    (studentInfo : StudentInfo) (location : option Location)
    (J : jsstring) (report : AnalysisReport) :
  JSON_parse readReport J = Some report ->
  cleanResponseText (openingFence ++ J ++ closingFence) = trim J
  /\ (ai (analysisRequest studentInfo location)
         = Resolved (Some (openingFence ++ J ++ closingFence)) ->
       fst (analyzeStudentData ai studentInfo location) = inr report)
  /\ (ai (analysisRequest studentInfo location) = Resolved (Some J) ->
       fst (analyzeStudentData ai studentInfo location) = inr report).
Proof.
  intros HJ. pose proof (JSON_parse_trim _ _ _ _ HJ) as Ht.
  split; [apply clean_fenced|]. split; intros Hai.
  - unfold analyzeStudentData. cbv zeta.
    rewrite Hai, clean_fenced, Ht. reflexivity.
  - unfold analyzeStudentData. cbv zeta.
    rewrite Hai, (clean_parsed _ _ _ _ HJ), Ht. reflexivity.
Qed.

End Gateway.

(** *** Examples and counterexamples *)

Lemma newcomer_scores_blank :
  Forall Blank (mockExamValues (mockExam Sample.newcomer)).
Proof. repeat constructor. Qed.

Lemma student_scores_given :
  Exists (fun v => ~ Blank v) (mockExamValues (mockExam Sample.student)).
Proof. apply Exists_cons_hd, filled_true_iff. vm_compute. reflexivity. Qed.

Lemma mock_exam_section_examples :
  (exists text rest,
     parts (analysisRequest (H := Sample.engine) Sample.newcomer None)
       = TextPart text :: rest
     /\ Includes text
          (js "Please estimate the student's academic performance"))
  /\ (exists text rest,
        parts (analysisRequest (H := Sample.engine) Sample.student None)
          = TextPart text :: rest
        /\ Includes text
             (js "Korean 92, Math 88, English 2, Inquiry1 90, Inquiry2 85")).
Proof.
  destruct (@mock_exam_section Sample.engine Sample.newcomer None)
    as (skipped & rest1 & Hp1 & Hs & _).
  destruct (@mock_exam_section Sample.engine Sample.student None)
    as (listed & rest2 & Hp2 & _ & Hl).
  split.
  - exists skipped, rest1. split; [exact Hp1|].
    apply (Includes_trans _ _ _ (Hs newcomer_scores_blank)).
    apply includesb_Includes. vm_compute. reflexivity.
  - exists listed, rest2. split; [exact Hp2|].
    apply (Includes_trans _ _ _ (Hl student_scores_given)).
    apply includesb_Includes. vm_compute. reflexivity.
Defined.

Lemma location_section_example :
  (exists text rest,
     parts (analysisRequest (H := Sample.engine) Sample.student None)
       = TextPart text :: rest
     /\ Includes text (js "The user has not provided their location."))
  /\ (exists text rest,
        parts (analysisRequest (H := Sample.engine) Sample.student
                 (Some Sample.seoul))
          = TextPart text :: rest
        /\ Includes text
             (js "The user is located at latitude 37 and longitude 127.")).
Proof.
  pose proof (@location_section Sample.engine Sample.student) as [Hn Hl].
  split.
  - destruct Hn as (text & rest & Hp & Hi & _).
    exists text, rest. split; assumption.
  - destruct (Hl Sample.seoul) as (text & rest & Hp & Hi).
    exists text, rest. split; [exact Hp|].
    apply (Includes_trans _ _ _ Hi).
    apply includesb_Includes. vm_compute. reflexivity.
Defined.

Lemma unread_record_blank : ManualBlank Sample.unread.
Proof. repeat constructor. Qed.

Lemma student_record_given :
  Exists (fun v => ~ Blank v) (recordValues Sample.extractedRecord).
Proof. apply Exists_cons_hd, filled_true_iff. vm_compute. reflexivity. Qed.


(** C7, as the specification words it, fails on the extraction request: its
    first part is the image. *)
Lemma extraction_request_leads_with_image :
  ~ TextThenOptionalImage (parts (extractionRequest Sample.picture)).
Proof.
  intros (text & [H | (image & H)]); discriminate H.
Qed.

Lemma padded_report_parses :
  JSON_parse (readReport (Engine := Sample.engine)) Sample.paddedReportText
  = Some Sample.report.
Proof. vm_compute. reflexivity. Qed.

Lemma fenced_response_example :
  fst (analyzeStudentData (H := Sample.engine)
         (Sample.answering
            (openingFence ++ Sample.paddedReportText ++ closingFence))
         Sample.student None)
    = inr Sample.report
  /\ fst (analyzeStudentData (H := Sample.engine)
            (Sample.answering Sample.paddedReportText) Sample.student None)
     = inr Sample.report.
Proof.
  pose proof (@fenced_response Sample.engine
                (Sample.answering
                   (openingFence ++ Sample.paddedReportText ++ closingFence))
                Sample.student None _ _ padded_report_parses) as (_ & Hf & _).
  pose proof (@fenced_response Sample.engine
                (Sample.answering Sample.paddedReportText)
                Sample.student None _ _ padded_report_parses) as (_ & _ & Hu).
  split; [exact (Hf eq_refl) | exact (Hu eq_refl)].
Defined.

End GatewayProps.

(** ** The onboarding form *)

Module OnboardingProps.
Import JS Types Host GeminiService Onboarding Spec JSFacts GatewayProps.

(** C1, as the code has it. A step is complete exactly when: at step 1 a
    grade is chosen and the desired field is not blank; at step 2 there is
    a manual record with a field that is not blank; at step 3 none of the
    five scores is blank.  No other step is ever complete.  Blank means
    empty once trimmed. *)
Theorem isStepComplete_iff (s : State) :
  isStepComplete s = true <->
  (step s = 1%Z /\ grade (info s) <> GradeUnset
   /\ ~ Blank (desiredField (info s)))
  \/ (step s = 2%Z
      /\ exists record,
           manualAcademicRecord (info s) = Some record
           /\ Exists (fun v => ~ Blank v) (recordValues record))
  \/ (step s = 3%Z
      /\ Forall (fun v => ~ Blank v) (mockExamValues (mockExam (info s)))).
Proof.
  unfold isStepComplete. split.
  - destruct (step s) as [|[[|[]|]|[]|]|] eqn:Hs; try discriminate.
    + intros H. right. right. split; [reflexivity|].
      rewrite forallb_forall in H. apply Forall_forall.
      intros v Hv. apply filled_true_iff, H, Hv.
    + destruct (manualAcademicRecord (info s)) as [record|]; [|discriminate].
      intros H. right. left. split; [reflexivity|]. exists record.
      split; [reflexivity | apply existsb_filled_true, H].
    + intros H. apply andb_prop in H as [Hg Hd]. left.
      split; [reflexivity|]. split.
      * destruct (grade (info s)); [discriminate | | |]; discriminate.
      * apply filled_true_iff, Hd.
  - intros [(-> & Hg & Hd) | [(-> & record & -> & Hv) | (-> & Hv)]].
    + apply filled_true_iff in Hd. rewrite Hd.
      destruct (grade (info s)); [destruct (Hg eq_refl) | | |]; reflexivity.
    + apply existsb_filled_true, Hv.
    + apply forallb_forall. intros v Hin. apply filled_true_iff.
      rewrite Forall_forall in Hv. exact (Hv v Hin).
Qed.

(** C1 as the specification words it fails on [Sample.spaceTyped]: both
    required fields of step 1 are non-empty strings, and the step is not
    complete. *)
Lemma nonempty_fields_not_complete :
  step Sample.spaceTyped = 1%Z
  /\ gradeText (grade (info Sample.spaceTyped)) <> []
  /\ desiredField (info Sample.spaceTyped) <> []
  /\ isStepComplete Sample.spaceTyped = false.
Proof.
  split; [reflexivity|]. split; [|split].
  - vm_compute. discriminate.
  - vm_compute. discriminate.
  - vm_compute. reflexivity.
Qed.

Section Upload.
Context `{E : Engine}.

Lemma extract_cases ai imagePayload :
  (exists name record,
     extractDataFromImage ai imagePayload
     = (inr (name, record), [GenerateContent (extractionRequest imagePayload)]))
  \/ extractDataFromImage ai imagePayload
     = (inl extractionFailure,
        [GenerateContent (extractionRequest imagePayload);
         ConsoleError (js "Error calling Gemini API for data extraction:")]).
Proof.
  unfold extractDataFromImage. cbv zeta.
  destruct (ai (extractionRequest imagePayload)) as [|[text|]];
    [right; reflexivity | | right; reflexivity].
  destruct (JSON_parse readExtraction (trim text)) as [[name record]|].
  - left. exists name, record. reflexivity.
  - right. reflexivity.
Qed.

(** C6. Once a file is chosen and read, the form is rendered three times:
    busy on the image tile, busy with the image stored, and settled.  When
    the extraction returns a name and a record the settled form is on the
    manual tile with that record in its fields and no alert; when it
    throws, the settled form is back on the image tile, the record is as it
    was, and the message was shown in an alert.  Either way it is no longer
    busy. *)
Theorem image_upload_flow (ai : Request -> Response) (file : File)
    (imagePayload : InlineImage) (s : State) :
  base64 file = Some imagePayload ->
  exists s1 s2 s3,
    frames (handleFileChange ai (Some file) s) = [s1; s2; s3]
    /\ (isExtracting s1 = true /\ recordInputType s1 = Some image)
    /\ (isExtracting s2 = true
        /\ academicRecordImage (info s2) = Some imagePayload)
    /\ isExtracting s3 = false
    /\ (forall name record,
          fst (extractDataFromImage ai imagePayload) = inr (name, record) ->
          recordInputType s3 = Some manual
          /\ manualAcademicRecord (info s3) = Some record
          /\ studentName (info s3) = Some name
          /\ effects (handleFileChange ai (Some file) s)
             = [GenerateContent (extractionRequest imagePayload)])
    /\ (forall message,
          fst (extractDataFromImage ai imagePayload) = inl message ->
          recordInputType s3 = Some image
          /\ manualAcademicRecord (info s3) = manualAcademicRecord (info s)
          /\ In (Alert message) (effects (handleFileChange ai (Some file) s))).
Proof.
  intros Hread. unfold handleFileChange. rewrite Hread.
  destruct (extract_cases ai imagePayload) as [(name & record & ->) | ->].
  - eexists _, _, _. split; [reflexivity|].
    split; [split; reflexivity|]. split; [split; reflexivity|].
    split; [reflexivity|]. split.
    + intros n r Heq. injection Heq as <- <-. repeat split.
    + intros m Heq. discriminate Heq.
  - eexists _, _, _. split; [reflexivity|].
    split; [split; reflexivity|]. split; [split; reflexivity|].
    split; [reflexivity|]. split.
    + intros n r Heq. discriminate Heq.
    + intros m Heq. injection Heq as <-. split; [reflexivity|].
      split; [reflexivity|]. simpl. auto.
Qed.

End Upload.

Lemma sample_extraction_succeeds :
  fst (extractDataFromImage (H := Sample.engine)
         (Sample.answering Sample.extractionText) Sample.picture)
  = inr (js "김민수", Sample.extractedRecord).
Proof. vm_compute. reflexivity. Qed.

Lemma sample_extraction_fails :
  fst (extractDataFromImage (H := Sample.engine) Sample.failing Sample.picture)
  = inl extractionFailure.
Proof. reflexivity. Qed.

Lemma image_upload_flow_example :
  base64 Sample.file = Some Sample.picture
  /\ (exists s1 s2 s3,
        frames (handleFileChange (H := Sample.engine)
                  (Sample.answering Sample.extractionText)
                  (Some Sample.file) Sample.atImageUpload) = [s1; s2; s3]
        /\ isExtracting s1 = true
        /\ recordInputType s3 = Some manual
        /\ manualAcademicRecord (info s3) = Some Sample.extractedRecord
        /\ isExtracting s3 = false)
  /\ (exists s1 s2 s3,
        frames (handleFileChange (H := Sample.engine) Sample.failing
                  (Some Sample.file) Sample.atImageUpload) = [s1; s2; s3]
        /\ recordInputType s3 = Some image
        /\ isExtracting s3 = false
        /\ In (Alert extractionFailure)
              (effects (handleFileChange (H := Sample.engine) Sample.failing
                          (Some Sample.file) Sample.atImageUpload))).
Proof.
  split; [reflexivity|]. split.
  - destruct (@image_upload_flow Sample.engine
                (Sample.answering Sample.extractionText)
                Sample.file Sample.picture Sample.atImageUpload eq_refl)
      as (s1 & s2 & s3 & Hf & (Hb & _) & _ & Hd & Hok & _).
    destruct (Hok _ _ sample_extraction_succeeds) as (Hm & Hr & _).
    exists s1, s2, s3. repeat split; assumption.
  - destruct (@image_upload_flow Sample.engine Sample.failing
                Sample.file Sample.picture Sample.atImageUpload eq_refl)
      as (s1 & s2 & s3 & Hf & _ & _ & Hd & _ & Hko).
    destruct (Hko _ sample_extraction_fails) as (Hi & _ & Ha).
    exists s1, s2, s3. repeat split; assumption.
Defined.

End OnboardingProps.

(** ** The application shell *)

Module AppProps.
Import JS Types Host GeminiService React App Spec JSFacts GatewayProps.

Section Shell.
Context `{E : Engine}.

Lemma analyze_fails ai info location :
  AnalysisFails ai info location ->
  analyzeStudentData ai info location
  = (inl analysisFailure,
     [GenerateContent (analysisRequest info location);
      ConsoleError (js "Error calling Gemini API:")]).
Proof.
  unfold analyzeStudentData. cbv zeta.
  intros [-> | [-> | (text & -> & ->)]]; reflexivity.
Qed.

Lemma analyze_succeeds ai info location text report :
  ai (analysisRequest info location) = Resolved (Some text) ->
  JSON_parse readReport (cleanResponseText text) = Some report ->
  analyzeStudentData ai info location
  = (inr report, [GenerateContent (analysisRequest info location)]).
Proof.
  unfold analyzeStudentData. cbv zeta. intros -> ->. reflexivity.
Qed.

Lemma failure_message_kept (fallback : jsstring) :
  orElse analysisFailure fallback = analysisFailure.
Proof. unfold orElse. vm_compute. reflexivity. Qed.

(** C5. When the analysis call fails, the run ends on the error screen with
    the failure message; the screen shows the heading and the message; the
    only handler the page offers is the restart, which leads back to the
    initial state; and the run sent one request. *)
Theorem analysis_failure_is_terminal (ai : Request -> Response)
    (info : StudentInfo) (s : State) :
  AnalysisFails ai info (location s) ->
  step (finalState s (handleOnboardingComplete ai info s)) = ERROR
  /\ error (finalState s (handleOnboardingComplete ai info s))
     = Some analysisFailure
  /\ requestsOf (effects (handleOnboardingComplete ai info s))
     = [analysisRequest info (location s)]
  /\ contents (renderContent (finalState s (handleOnboardingComplete ai info s)))
     = [inl (js "분석 중 오류 발생"); inl analysisFailure;
        inl (js "처음으로 돌아가기")]
  /\ handlers (render (finalState s (handleOnboardingComplete ai info s)))
     = [restart; restart]
  /\ handle restart (finalState s (handleOnboardingComplete ai info s))
     = initial.
Proof.
  intros Hfail. unfold handleOnboardingComplete, finalState.
  rewrite (analyze_fails _ _ _ Hfail). unfold analysisSettled.
  rewrite failure_message_kept. cbn [frames effects last].
  repeat split.
Qed.

(** C8. When the browser has no geolocation or reports an error, the state
    is left as it was (so a location that was absent stays absent), the
    user gets an alert, and nothing else happens; the analysis then runs
    without a location and reaches the report.  When the browser reports a
    position, that one pair is stored. *)
Theorem geolocation_failure_is_local (ai : Request -> Response)
    (info : StudentInfo) (text : jsstring) (report : AnalysisReport)
    (browser : Geolocation) (s : State) :
  location s = None ->
  browser = Unsupported \/ browser = Failed ->
  ai (analysisRequest info None) = Resolved (Some text) ->
  JSON_parse readReport (cleanResponseText text) = Some report ->
  fst (handleLocationRequest browser s) = s
  /\ location (fst (handleLocationRequest browser s)) = None
  /\ (exists notice, In (Alert notice) (snd (handleLocationRequest browser s)))
  /\ Forall Notice (snd (handleLocationRequest browser s))
  /\ step (finalState s
             (handleOnboardingComplete ai info
                (fst (handleLocationRequest browser s)))) = REPORT
  /\ analysisReport
       (finalState s
          (handleOnboardingComplete ai info
             (fst (handleLocationRequest browser s)))) = Some report
  /\ (forall (coords : Location) (s0 : State),
        location (fst (handleLocationRequest (Position coords) s0))
        = Some coords).
Proof.
  intros Hloc Hbrowser Hai Hparse.
  assert (Hs : fst (handleLocationRequest browser s) = s)
    by (destruct Hbrowser as [-> | ->]; reflexivity).
  rewrite Hs. split; [reflexivity|]. split; [exact Hloc|].
  split; [destruct Hbrowser as [-> | ->]; eexists; simpl; eauto|].
  split; [destruct Hbrowser as [-> | ->]; repeat constructor|].
  unfold handleOnboardingComplete, finalState. rewrite Hloc.
  rewrite (analyze_succeeds _ _ _ _ _ Hai Hparse).
  split; [reflexivity|]. split; [reflexivity|].
  intros [lat lon] s0. reflexivity.
Qed.

End Shell.

Lemma rejected_call_fails :
  AnalysisFails (H := Sample.engine) Sample.failing Sample.student
    (location Sample.started).
Proof. left. reflexivity. Qed.

Lemma prose_answer_fails :
  AnalysisFails (H := Sample.engine)
    (Sample.answering (js "I am sorry, I cannot help with that."))
    Sample.student (location Sample.started).
Proof.
  right. right. exists (js "I am sorry, I cannot help with that.").
  split; [reflexivity | vm_compute; reflexivity].
Qed.

Lemma analysis_failure_example :
  step (finalState Sample.started
          (handleOnboardingComplete (H := Sample.engine) Sample.failing
             Sample.student Sample.started)) = ERROR
  /\ step (finalState Sample.started
             (handleOnboardingComplete (H := Sample.engine)
                (Sample.answering (js "I am sorry, I cannot help with that."))
                Sample.student Sample.started)) = ERROR.
Proof.
  pose proof (@analysis_failure_is_terminal Sample.engine Sample.failing
                Sample.student Sample.started rejected_call_fails) as [H1 _].
  pose proof (@analysis_failure_is_terminal Sample.engine
                (Sample.answering (js "I am sorry, I cannot help with that."))
                Sample.student Sample.started prose_answer_fails) as [H2 _].
  split; assumption.
Defined.

Lemma sample_answer_parses :
  JSON_parse (readReport (Engine := Sample.engine))
    (cleanResponseText Sample.paddedReportText) = Some Sample.report.
Proof. vm_compute. reflexivity. Qed.

Lemma geolocation_failure_example :
  location (fst (handleLocationRequest Failed Sample.started)) = None
  /\ analysisReport
       (finalState Sample.started
          (handleOnboardingComplete (H := Sample.engine)
             (Sample.answering Sample.paddedReportText) Sample.student
             (fst (handleLocationRequest Failed Sample.started))))
     = Some Sample.report.
Proof.
  pose proof (@geolocation_failure_is_local Sample.engine
                (Sample.answering Sample.paddedReportText) Sample.student
                Sample.paddedReportText Sample.report Failed Sample.started
                eq_refl (or_intror eq_refl) eq_refl sample_answer_parses)
    as (_ & Hl & _ & _ & _ & Hr & _).
  split; assumption.
Defined.

End AppProps.

(** ** The report view *)

Module DashboardProps.
Import JS Types Host React ReportDashboard Spec JSFacts.

Lemma readCard_render (rec : UniversityRecommendation) :
  readCard (renderRecommendationCard rec) = Some rec.
Proof. destruct rec. reflexivity. Qed.

Lemma readCards_render (recs : list UniversityRecommendation) :
  readCards (map renderRecommendationCard recs) = Some recs.
Proof.
  induction recs as [|rec recs IH]; [reflexivity|].
  cbn [map readCards]. rewrite readCard_render, IH. reflexivity.
Qed.

Lemma readColumn_render (title : string)
    (recs : list UniversityRecommendation) :
  readColumn (strategyColumn title recs) = Some recs.
Proof. exact (readCards_render recs). Qed.

Lemma readEach_map {X Y : Type} (read : View -> option Y) (render : X -> View)
    (shown : X -> Y) (items : list X) :
  (forall item, read (render item) = Some (shown item)) ->
  readEach read (map render items) = Some (map shown items).
Proof.
  intros Hread. induction items as [|item items IH]; [reflexivity|].
  cbn [map readEach]. rewrite Hread, IH. reflexivity.
Qed.

Lemma libraryLabel_test (type : jsstring) :
  (if strEq type (js "Library") then js "도서관" else js "스터디 카페")
  = libraryLabel type.
Proof.
  unfold libraryLabel.
  destruct (list_eq_dec N.eq_dec type (js "Library")) as [Heq|Hne];
    destruct (strEq type (js "Library")) eqn:Hs; try reflexivity.
  - apply strEq_true_iff in Heq. rewrite Heq in Hs. discriminate.
  - apply strEq_true_iff in Hs. destruct (Hne Hs).
Qed.

Section Views.
Context `{E : Engine}.

Lemma readChip_render (word : Keyword.t) :
  readChip (keywordChip word)
  = Some (Keyword.text word,
          [ (js "fontSize",
             Css (Number_toString (10 + Keyword.value word * 1.5)%float
                    ++ js "px"));
            (js "opacity",
             CssNumber (0.6 + Keyword.value word * 0.04)%float) ]).
Proof. reflexivity. Qed.

Lemma readAcademy_render (item : Academy.t) :
  readAcademy (academyCard item)
  = Some (Academy.name item, Academy.distance item,
          map (fun idx => PrimFloat.ltb idx (Math_round (Academy.rating item)))
              [0; 1; 2; 3; 4]%float,
          Number_toFixed1 (Academy.rating item),
          Academy.reviewCount item).
Proof. reflexivity. Qed.

Lemma readStudySpace_render (item : StudySpace.t) :
  readStudySpace (studySpaceCard item)
  = Some (StudySpace.name item, StudySpace.distance item,
          libraryLabel (StudySpace.type item),
          map (fun idx =>
                 PrimFloat.ltb idx (Math_round (StudySpace.rating item)))
              [0; 1; 2; 3; 4]%float,
          Number_toFixed1 (StudySpace.rating item)).
Proof.
  rewrite <- libraryLabel_test. unfold studySpaceCard. cbv zeta.
  destruct (strEq (StudySpace.type item) (js "Library")); reflexivity.
Qed.

(** C2, as the code has it.  Each tab of the dashboard is the view of its
    name, and what the three views show can be read back from them, item
    by item and in the order of the response.

    The dashboard tab: the student's name and the application type (each
    replaced by a fixed word when it is the empty string), the two
    probabilities as the data of the pie, the grade trend and the
    competencies as the data of the line and of the radar, and for every
    keyword its text, with a font size and an opacity computed from its
    value.

    The strategy tab: the early and the regular list in full; the text and
    number children of a card are the fields of its item as the response
    has them, with the fixed texts of the card between them.

    The local support tab: the student's name and the weak subject; for
    every academy its name, distance and review count, and its rating
    printed to one decimal and as five stars; for every study space its
    name and distance, the label of its type, and its rating likewise. *)
Theorem report_view_roundtrip (report : AnalysisReport) :
  (forall tab,
     In (match tab with
         | dashboard => renderDashboard report
         | strategy => renderStrategy report
         | local => renderLocalSupport report
         end)
        (childrenOf (ReportDashboard report tab)))
  /\ readDashboard (renderDashboard report)
     = Some (orElse (Report.studentName report) (js "학생"),
             orElse (Report.recommendedApplicationType report)
               (js "분석 결과"),
             [ (js "수시",
                earlyDecisionProbability (Report.applicationStrategy report));
               (js "정시",
                regularDecisionProbability
                  (Report.applicationStrategy report)) ],
             gradeTrend (Report.quantitativeAnalysis report),
             (orElse (Report.studentName report) (js "학생"),
              competencyRadar (Report.qualitativeAnalysis report)),
             map (fun word =>
                    (Keyword.text word,
                     [ (js "fontSize",
                        Css (Number_toString
                               (10 + Keyword.value word * 1.5)%float
                               ++ js "px"));
                       (js "opacity",
                        CssNumber (0.6 + Keyword.value word * 0.04)%float) ]))
                 (keywordCloud (Report.qualitativeAnalysis report)))
  /\ readStrategy (renderStrategy report)
     = Some (Report.earlyDecisionRecommendations report,
             Report.regularDecisionRecommendations report)
  /\ (forall rec : UniversityRecommendation,
        contents (renderRecommendationCard rec)
        = [ inl (category rec); inl (university rec); inl (js " - ");
            inl (major rec); inl (admissionType rec);
            inr (acceptanceChance rec); inl (js "%");
            inl (js "예상 합격률"); inl (rationale rec) ])
  /\ readLocalSupport (renderLocalSupport report)
     = Some (Report.studentName report,
             weakSubject (Report.localSupport report),
             map (fun item =>
                    (Academy.name item, Academy.distance item,
                     map (fun idx =>
                            PrimFloat.ltb idx
                              (Math_round (Academy.rating item)))
                         [0; 1; 2; 3; 4]%float,
                     Number_toFixed1 (Academy.rating item),
                     Academy.reviewCount item))
                 (recommendedAcademies (Report.localSupport report)),
             map (fun item =>
                    (StudySpace.name item, StudySpace.distance item,
                     libraryLabel (StudySpace.type item),
                     map (fun idx =>
                            PrimFloat.ltb idx
                              (Math_round (StudySpace.rating item)))
                         [0; 1; 2; 3; 4]%float,
                     Number_toFixed1 (StudySpace.rating item)))
                 (recommendedStudySpaces (Report.localSupport report))).
Proof.
  split; [|split; [|split; [|split]]].
  - intros tab. destruct tab; cbn; auto.
  - unfold renderDashboard. cbv zeta. unfold tagged, panelTitle.
    cbn [readDashboard childrenOf readHeadline readChart readCloud].
    rewrite (readEach_map readChip keywordChip _ _ readChip_render).
    reflexivity.
  - unfold renderStrategy, tagged. cbn [readStrategy].
    rewrite !readColumn_render. reflexivity.
  - intros rec. reflexivity.
  - unfold renderLocalSupport. cbv zeta. unfold tagged.
    cbn [readLocalSupport].
    rewrite (readEach_map readAcademy academyCard _ _ readAcademy_render).
    rewrite (readEach_map readStudySpace studySpaceCard _ _
               readStudySpace_render).
    reflexivity.
Qed.

(** No tab shows the z-scores or the mock-exam notes. *)
Lemma view_ignores_scores (z : list ZScore.t) (m : list MockExamNote.t)
    (r : AnalysisReport) (tab : Tab) :
  ReportDashboard (withScores z m r) tab = ReportDashboard r tab.
Proof. destruct r. reflexivity. Qed.

End Views.

(** C2 as the specification words it fails: the view does not reproduce
    every field.  Each pair of responses below differs in one kind of
    field and is rendered alike on every tab: other z-scores and mock-exam
    notes; an empty application type and the word that stands in for it;
    two keyword weights too small to move the font size or the opacity;
    two types of study space other than Library; and, with the roundings
    of [toFixed] and [Math.round] worked out, two ratings with the same
    first decimal. *)
Lemma view_loses_fields :
  (gpaZScore (Report.quantitativeAnalysis Sample.report)
     <> gpaZScore (Report.quantitativeAnalysis Sample.otherScores)
   /\ mockExamAnalysis (Report.quantitativeAnalysis Sample.report)
        <> mockExamAnalysis (Report.quantitativeAnalysis Sample.otherScores)
   /\ forall (E : Engine) (tab : Tab),
        ReportDashboard Sample.report tab
        = ReportDashboard Sample.otherScores tab)
  /\ ([] <> js "분석 결과"
      /\ forall (E : Engine) (tab : Tab),
           ReportDashboard (Sample.retyped []) tab
           = ReportDashboard (Sample.retyped (js "분석 결과")) tab)
  /\ (0x1p-100%float <> 0x1p-101%float
      /\ keywordCloud (Report.qualitativeAnalysis
                         (Sample.reweighted 0x1p-100%float)) <> []
      /\ forall (E : Engine) (tab : Tab),
           ReportDashboard (Sample.reweighted 0x1p-100%float) tab
           = ReportDashboard (Sample.reweighted 0x1p-101%float) tab)
  /\ (js "Study Cafe" <> js "Reading Room"
      /\ recommendedStudySpaces
           (Report.localSupport (Sample.rehoused (js "Study Cafe"))) <> []
      /\ forall (E : Engine) (tab : Tab),
           ReportDashboard (Sample.rehoused (js "Study Cafe")) tab
           = ReportDashboard (Sample.rehoused (js "Reading Room")) tab)
  /\ (4.3125%float <> 4.28125%float
      /\ recommendedAcademies
           (Report.localSupport (Sample.rerated 4.3125%float)) <> []
      /\ Sample.fixed1 4.3125%float = js "4.3"
      /\ Sample.fixed1 4.28125%float = js "4.3"
      /\ forall tab : Tab,
           ReportDashboard (H := Sample.precise) (Sample.rerated 4.3125%float) tab
           = ReportDashboard (H := Sample.precise)
               (Sample.rerated 4.28125%float) tab).
Proof.
  split; [|split; [|split; [|split]]].
  - split; [|split].
    + intros H. apply (f_equal (map ZScore.subject)) in H.
      vm_compute in H. discriminate H.
    + intros H. apply (f_equal (map MockExamNote.strength)) in H.
      vm_compute in H. discriminate H.
    + intros E tab. symmetry. apply view_ignores_scores.
  - split; [intros H; vm_compute in H; discriminate H|].
    intros E tab. destruct tab; vm_compute; reflexivity.
  - split; [intros H; apply (f_equal Prim2SF) in H; vm_compute in H;
           discriminate H|].
    split; [intros H; vm_compute in H; discriminate H|].
    intros E tab. destruct tab; vm_compute; reflexivity.
  - split; [intros H; vm_compute in H; discriminate H|].
    split; [intros H; vm_compute in H; discriminate H|].
    intros E tab. destruct tab; vm_compute; reflexivity.
  - split; [intros H; apply (f_equal Prim2SF) in H; vm_compute in H;
           discriminate H|].
    split; [intros H; vm_compute in H; discriminate H|].
    split; [vm_compute; reflexivity|]. split; [vm_compute; reflexivity|].
    intros tab. destruct tab; vm_compute; reflexivity.
Qed.

End DashboardProps.

(** ** Reading the chosen file *)

Module FileReaderProps.
Import JS Types FileReader.

Lemma split_absent (c : N) (s : jsstring) :
  ~ In c s -> split c s = [s].
Proof.
  induction s as [|d s IH]; intros Hc; [reflexivity|].
  simpl. destruct (N.eqb_spec d c) as [->|Hd].
  - destruct Hc. left. reflexivity.
  - rewrite IH; [reflexivity|]. intros Hin. apply Hc. right. exact Hin.
Qed.

Lemma split_at (c : N) (a b : jsstring) :
  ~ In c a -> split c (a ++ c :: b) = a :: split c b.
Proof.
  induction a as [|d a IH]; intros Hc; simpl.
  - rewrite N.eqb_refl. reflexivity.
  - destruct (N.eqb_spec d c) as [->|Hd].
    + destruct Hc. left. reflexivity.
    + rewrite IH; [reflexivity|]. intros Hin. apply Hc. right. exact Hin.
Qed.

(** The first piece of a split is made of code units of the string. *)
Lemma split_first (c : N) (s : jsstring) (x : N) :
  In x (hd [] (split c s)) -> In x s.
Proof.
  induction s as [|d s IH]; simpl; [tauto|].
  destruct (d =? c)%N; simpl; [tauto|].
  destruct (split c s) as [|piece pieces]; simpl in *.
  - intros [<-|[]]. left. reflexivity.
  - intros [<-|Hin]; [left; reflexivity | right; exact (IH Hin)].
Qed.

Lemma not_in_app (c : N) (a b : jsstring) :
  ~ In c a -> ~ In c b -> ~ In c (a ++ b).
Proof. intros Ha Hb Hin. apply in_app_or in Hin. tauto. Qed.

Ltac absent := intros H; vm_compute in H; intuition discriminate.

Lemma dataURL_shape (mediaType parameters payload : jsstring) :
  dataURL mediaType parameters payload
  = (js "data" ++ colon :: mediaType ++ semicolon :: parameters)
      ++ comma :: payload.
Proof.
  unfold dataURL.
  replace (js "data:") with (js "data" ++ [colon]) by (vm_compute; reflexivity).
  repeat (rewrite <- ?app_assoc; simpl). reflexivity.
Qed.

(** X1. The result of [readAsDataURL] is taken apart as it was put together:
    for a media type without comma, colon or semicolon, parameters without
    comma or colon, and a payload without comma, [fileToBase64] resolves
    with the media type and the payload; the parameters are dropped. *)
Theorem fileToBase64_dataURL (mediaType parameters payload : jsstring) :
  ~ In comma mediaType -> ~ In colon mediaType -> ~ In semicolon mediaType ->
  ~ In comma parameters -> ~ In colon parameters ->
  ~ In comma payload ->
  fileToBase64 (Some (dataURL mediaType parameters payload))
  = Resolve mediaType (Some payload).
Proof.
  intros Hm1 Hm2 Hm3 Hp1 Hp2 Hd.
  assert (Hs1 : ~ In comma (js "data")) by absent.
  assert (Hs2 : ~ In colon (js "data")) by absent.
  assert (Hsc : ~ In comma [colon]) by absent.
  assert (Hsm : ~ In comma [semicolon]) by absent.
  assert (Hcs : ~ In colon [semicolon]) by absent.
  pose (rest := mediaType ++ semicolon :: parameters).
  assert (Hrest1 : ~ In comma rest).
  { unfold rest. change (semicolon :: parameters) with ([semicolon] ++ parameters).
    repeat apply not_in_app; assumption. }
  assert (Hrest2 : ~ In colon rest).
  { unfold rest. change (semicolon :: parameters) with ([semicolon] ++ parameters).
    repeat apply not_in_app; assumption. }
  rewrite (dataURL_shape mediaType parameters payload). fold rest.
  unfold fileToBase64, onload.
  rewrite split_at, (split_absent _ _ Hd).
  - cbn [hd]. rewrite (split_at _ _ _ Hs2), (split_absent _ _ Hrest2).
    cbn [nth_error]. unfold rest. rewrite (split_at _ _ _ Hm3). reflexivity.
  - apply not_in_app; [exact Hs1|].
    change (colon :: rest) with ([colon] ++ rest).
    apply not_in_app; assumption.
Qed.

(** X2. A result with no colon makes [onload] throw, so the promise is never
    settled; a result with a colon and no comma resolves with [data]
    undefined. *)
Theorem fileToBase64_malformed (result : jsstring) :
  (~ In colon result -> fileToBase64 (Some result) = Throw)
  /\ (In colon result -> ~ In comma result ->
      exists mimeType, fileToBase64 (Some result) = Resolve mimeType None).
Proof.
  unfold fileToBase64, onload. split.
  - intros Hc. rewrite split_absent; [reflexivity|].
    intros Hin. exact (Hc (split_first _ _ _ Hin)).
  - intros Hc Hno. rewrite (split_absent _ _ Hno). cbn [hd].
    apply in_split in Hc as (a & b & ->).
    assert (Hsplit : exists a' b', a ++ colon :: b = a' ++ colon :: b'
                                   /\ ~ In colon a').
    { clear Hno. induction a as [|d a IH].
      - exists [], b. split; [reflexivity | intros []].
      - destruct (N.eq_dec d colon) as [->|Hd].
        + exists [], (a ++ colon :: b). split; [reflexivity | intros []].
        + destruct IH as (a' & b' & Heq & Ha').
          exists (d :: a'), b'. split; [simpl; rewrite Heq; reflexivity|].
          intros [Hin|Hin]; [exact (Hd Hin) | exact (Ha' Hin)]. }
    destruct Hsplit as (a' & b' & -> & Ha').
    rewrite (split_at _ _ _ Ha').
    destruct (split colon b') as [|p ps] eqn:Hb.
    + destruct b'; simpl in Hb; [discriminate|].
      destruct (n =? colon)%N; [discriminate|].
      destruct (split colon b'); discriminate.
    + cbn [nth_error]. eexists. reflexivity.
Qed.

Lemma fileToBase64_png_example :
  fileToBase64 (Some Walk.pngURL)
  = Resolve (js "image/png") (Some (js "iVBORw0KGgo=")).
Proof.
  replace Walk.pngURL
    with (dataURL (js "image/png") (js "base64") (js "iVBORw0KGgo="))
    by (vm_compute; reflexivity).
  apply fileToBase64_dataURL; absent.
Defined.

Lemma fileToBase64_malformed_examples :
  fileToBase64 (Some (js "image.png")) = Throw
  /\ (exists mimeType,
        fileToBase64 (Some (js "data:image/png;base64")) = Resolve mimeType None).
Proof.
  split.
  - apply (proj1 (fileToBase64_malformed (js "image.png"))). absent.
  - apply (proj2 (fileToBase64_malformed (js "data:image/png;base64"))).
    + vm_compute. tauto.
    + absent.
Defined.

End FileReaderProps.

(** ** The form, event by event *)

Module FormProps.
Import JS Types Host GeminiService Onboarding Form Spec JSFacts GatewayProps.

Lemma offers_In (c : Control) (s : State) :
  offers c s = true <-> In c (controls s).
Proof.
  unfold offers. destruct (in_dec sameControl c (controls s)); split;
    try tauto; discriminate.
Qed.

(** *** What is rendered when *)

Lemma barControls_In (s : State) (c : Control) :
  In c (barControls s) <->
  (c = Button Prev false /\ (1 < step s)%Z)
  \/ (c = Button Skip false /\ step s = 3%Z)
  \/ (c = Button Next (negb (isStepComplete s))
      /\ (step s < 4)%Z /\ isExtracting s = false)
  \/ (c = Button Start false /\ step s = 4%Z).
Proof.
  unfold barControls. rewrite !in_app_iff.
  destruct (Z.ltb_spec 1 (step s)), (Z.eqb_spec (step s) 3),
    (Z.ltb_spec (step s) 4), (Z.eqb_spec (step s) 4),
    (isExtracting s); simpl;
    intuition (try discriminate; try lia; auto).
Qed.

Lemma stepControls_In (s : State) (c : Control) :
  In c (stepControls s) -> StepControl s c.
Proof.
  unfold stepControls.
  destruct (step s) as [|[[q|q|]|[q|[r|r|]|]|]|p] eqn:Hs;
    intros Hin; simpl in Hin; try contradiction.
  - (* 3 *)
    destruct Hin as [<-|[<-|[<-|[<-|[<-|[]]]]]];
      eapply at_step3; (reflexivity || eassumption).
  - (* 4 *)
    destruct Hin as [<-|[]]. apply at_step4; [assumption | reflexivity].
  - (* 2 *)
    destruct (isExtracting s) eqn:He; [contradiction|].
    destruct (recordInputType s) as [[|]|] eqn:Hr.
    + destruct Hin as [<-|Hin]; [apply at_upload; auto|].
      destruct (imagePreview s); [|destruct Hin].
      destruct Hin as [<-|[]]. apply at_upload; auto.
    + destruct (manualAcademicRecord (info s)) as [rec|] eqn:Hm;
        [|contradiction].
      destruct Hin as [<-|[<-|[<-|[<-|[<-|[]]]]]];
        eapply at_record; (reflexivity || eassumption).
    + destruct Hin as [<-|[<-|[]]]; apply at_tiles; auto.
  - (* 1 *)
    destruct Hin as [<-|[<-|[]]]; apply at_step1; auto.
Qed.

Lemma controls_In (s : State) (c : Control) :
  In c (controls s) -> StepControl s c \/ In c (barControls s).
Proof.
  unfold controls. rewrite in_app_iff.
  intros [H|H]; [left; apply stepControls_In, H | right; exact H].
Qed.


Ltac bar_out H :=
  apply barControls_In in H;
  destruct H as [[H _]|[[H _]|[[H _]|[H _]]]]; discriminate H.

Lemma offers_GradeSelect (s : State) :
  offers GradeSelect s = true -> step s = 1%Z.
Proof.
  intros H. apply offers_In, controls_In in H. destruct H as [H|H].
  - inversion H; subst; intuition discriminate.
  - bar_out H.
Qed.

Lemma offers_TextInput (s : State) (field : TextField) :
  offers (TextInput field) s = true ->
  match field with
  | DesiredField => step s = 1%Z
  | RecordField _ =>
    step s = 2%Z /\ isExtracting s = false
    /\ exists r, manualAcademicRecord (info s) = Some r
  | ScoreField _ => step s = 3%Z
  end.
Proof.
  intros H. apply offers_In, controls_In in H. destruct H as [H|H].
  - inversion H; subst;
      repeat match goal with
             | E : _ \/ _ |- _ => destruct E
             | E : TextInput _ = _ |- _ => inversion E; subst; clear E
             | E : _ = TextInput _ |- _ => inversion E; subst; clear E
             end; try discriminate; eauto.
  - bar_out H.
Qed.

Lemma offers_FileInput (s : State) :
  offers FileInput s = true -> step s = 2%Z /\ isExtracting s = false.
Proof.
  intros H. apply offers_In, controls_In in H. destruct H as [H|H].
  - inversion H; subst; intuition discriminate.
  - bar_out H.
Qed.

Lemma offers_Button (s : State) (handler : Handler) :
  offers (Button handler false) s = true ->
  match handler with
  | ChooseImage | ChooseManual | ChangeImage =>
    step s = 2%Z /\ isExtracting s = false
  | RequestLocation | Start => step s = 4%Z
  | Prev => (1 < step s)%Z
  | Skip => step s = 3%Z
  | Next =>
    (step s < 4)%Z /\ isExtracting s = false /\ isStepComplete s = true
  end.
Proof.
  intros H. apply offers_In, controls_In in H. destruct H as [H|H].
  - inversion H; subst;
      repeat match goal with
             | E : _ \/ _ |- _ => destruct E
             | E : Button _ _ = _ |- _ => inversion E; subst; clear E
             | E : _ = Button _ _ |- _ => inversion E; subst; clear E
             end; try discriminate; auto.
  - apply barControls_In in H.
    destruct H as [[H G]|[[H G]|[[H G]|[H G]]]];
      inversion H; subst; auto.
    destruct G as [G1 G2]. repeat split; auto.
    destruct (isStepComplete s); [reflexivity | discriminate].
Qed.

Lemma complete_step1 (s : State) :
  step s = 1%Z -> isStepComplete s = true ->
  grade (info s) <> GradeUnset /\ filled (desiredField (info s)) = true.
Proof.
  unfold isStepComplete. intros -> H. apply andb_prop in H as [Hg Hd].
  split; [|exact Hd]. destruct (grade (info s)); discriminate.
Qed.

Lemma complete_step2 (s : State) :
  step s = 2%Z -> isStepComplete s = true ->
  hasManualRecord (info s) = true.
Proof. unfold isStepComplete, hasManualRecord. intros -> H. exact H. Qed.

(** *** Every event keeps a session sound *)

Section Sessions.
Context `{E : Engine}.
Variable ai : Request -> Response.

Lemma extractionSettled_form outcome (s : State) :
  step (fst (extractionSettled outcome s)) = step s
  /\ isExtracting (fst (extractionSettled outcome s)) = false
  /\ grade (info (fst (extractionSettled outcome s))) = grade (info s)
  /\ desiredField (info (fst (extractionSettled outcome s)))
     = desiredField (info s).
Proof. destruct outcome as [m|[n r]]; repeat split. Qed.

Lemma fire_sound (e : Event) (x y : Session) :
  Sound x -> fire ai e x = Some y -> Sound y.
Proof.
  intros [Hrange Hbusy Hearly Hbasic Hrecord] Hfire.
  destruct e as [g|field v|file|h confirmed| |]; simpl in Hfire.
  - (* the grade select *)
    destruct (offers GradeSelect (form x)) eqn:Ho; [|discriminate].
    injection Hfire as <-. apply offers_GradeSelect in Ho.
    constructor; simpl; auto; intros; lia.
  - (* a text input *)
    destruct (offers (TextInput field) (form x)) eqn:Ho; [|discriminate].
    injection Hfire as <-. apply offers_TextInput in Ho.
    destruct field as [|key|key].
    + constructor; simpl; auto; intros; lia.
    + destruct Ho as (Hs & He & r & Hr).
      constructor; simpl; rewrite ?Hr; simpl; auto; intros; lia.
    + constructor; simpl; auto.
  - (* a file is picked *)
    destruct (offers FileInput (form x)) eqn:Ho; [|discriminate].
    injection Hfire as <-. apply offers_FileInput in Ho as [Hs He].
    constructor; simpl; auto; intros; lia.
  - (* a button *)
    destruct (offers (Button h false) (form x)) eqn:Ho; [|discriminate].
    injection Hfire as <-. apply offers_Button in Ho.
    destruct h; simpl.
    + destruct Ho. constructor; simpl; auto; intros; lia.
    + destruct Ho. constructor; simpl; auto; intros; lia.
    + destruct Ho. constructor; simpl; auto; intros; lia.
    + constructor; simpl; auto.
    + constructor; simpl; auto; intros; try lia.
      * apply Hearly in H. lia.
      * apply Hbasic. lia.
      * apply Hrecord. lia.
    + assert (Hidle : isExtracting (form x) = false).
      { destruct (isExtracting (form x)) eqn:He; [|reflexivity].
        specialize (Hearly eq_refl). lia. }
      destruct confirmed; simpl; [|constructor; auto].
      constructor; simpl; auto; intros; try lia; try congruence.
      * apply Hbasic. lia.
      * apply Hrecord. lia.
    + destruct Ho as (Hlt & He & Hc).
      constructor; simpl; auto; intros; try lia; try congruence.
      * destruct (Z.eq_dec (step (form x)) 1) as [H1|H1].
        -- exact (complete_step1 _ H1 Hc).
        -- apply Hbasic. lia.
      * destruct (Z.eq_dec (step (form x)) 2) as [H2|H2].
        -- exact (complete_step2 _ H2 Hc).
        -- apply Hrecord. lia.
    + constructor; simpl; auto.
  - (* the reader is done *)
    destruct (pending x) as [|file|p] eqn:Hp; try discriminate.
    assert (Hb : isExtracting (form x) = true)
      by (apply Hbusy; discriminate).
    destruct (base64 file) as [payload|]; injection Hfire as <-.
    + constructor; simpl; auto.
    + constructor; simpl; auto; intros Hn; destruct Hn; reflexivity.
  - (* the model has answered *)
    destruct (pending x) as [|file|p] eqn:Hp; try discriminate.
    assert (Hb : isExtracting (form x) = true)
      by (apply Hbusy; discriminate).
    injection Hfire as <-.
    pose proof (Hearly Hb) as Hle.
    destruct (extractionSettled_form
                (fst (extractDataFromImage ai p)) (form x))
      as (Hs & He & Hg & Hd).
    constructor; simpl; rewrite ?Hs, ?He, ?Hg, ?Hd; auto; intros;
      try lia; try congruence.
Qed.

Lemma opening_sound : Sound opening.
Proof. constructor; simpl; intros; try lia; try congruence. Qed.

Lemma Reachable_sound (x : Session) : Reachable ai x -> Sound x.
Proof.
  induction 1 as [|e x y _ IH Hf]; [apply opening_sound|].
  exact (fire_sound e x y IH Hf).
Qed.

Lemma run_Reachable (events : list Event) (x y : Session) :
  Reachable ai x -> run ai events x = Some y -> Reachable ai y.
Proof.
  revert x. induction events as [|e events IH]; intros x Hx Hrun; simpl in Hrun.
  - injection Hrun as <-. exact Hx.
  - destruct (fire ai e x) as [x'|] eqn:Hf; [|discriminate].
    exact (IH x' (Reachable_fire ai e x x' Hx Hf) Hrun).
Qed.

Lemma arrive_Reachable (events : list Event) :
  Reachable ai (Walk.arrive ai events).
Proof.
  unfold Walk.arrive.
  destruct (run ai events opening) as [x|] eqn:Hrun.
  - exact (run_Reachable events opening x (Reachable_opening ai) Hrun).
  - apply Reachable_opening.
Qed.

Lemma After_Reachable (x z : Session) :
  Reachable ai x -> After ai x z -> Reachable ai z.
Proof.
  intros Hx. induction 1 as [|e y z _ IH Hf]; [exact Hx|].
  exact (Reachable_fire ai e y z IH Hf).
Qed.

(** X3. Whatever the user does and whenever the uploads resume, the step of a
    mounted form is 1, 2, 3 or 4: [renderStep] always has a case for it. *)
Theorem step_stays_in_range (x : Session) :
  Reachable ai x -> (1 <= step (form x) <= 4)%Z.
Proof. intros Hx. exact (sound_range x (Reachable_sound x Hx)). Qed.

(** X4. The next button gates the steps: a form that is past step 1 has a
    grade and a desired field that is not blank; a form that is past step
    2 has a manual record with a field that is not blank.  (Step 3 is not
    gated: the skip button passes it.) *)
Theorem steps_are_gated (x : Session) :
  Reachable ai x ->
  ((2 <= step (form x))%Z ->
     grade (info (form x)) <> GradeUnset
     /\ ~ Blank (desiredField (info (form x))))
  /\ ((3 <= step (form x))%Z ->
      exists record,
        manualAcademicRecord (info (form x)) = Some record
        /\ Exists (fun v => ~ Blank v) (recordValues record)).
Proof.
  intros Hx. pose proof (Reachable_sound x Hx) as [_ _ _ Hbasic Hrecord].
  split.
  - intros H2. destruct (Hbasic H2) as [Hg Hd].
    split; [exact Hg | apply filled_true_iff, Hd].
  - intros H3. specialize (Hrecord H3). unfold hasManualRecord in Hrecord.
    destruct (manualAcademicRecord (info (form x))) as [record|];
      [|discriminate].
    exists record. split; [reflexivity | apply existsb_filled_true, Hrecord].
Qed.

Lemma Next_needs_idle (s : State) (disabled : bool) :
  In (Button Next disabled) (controls s) -> isExtracting s = false.
Proof.
  intros H. apply controls_In in H. destruct H as [H|H].
  - inversion H; subst; intuition discriminate.
  - apply barControls_In in H.
    destruct H as [[H _]|[[H _]|[[H G]|[H _]]]]; try discriminate H.
    exact (proj2 G).
Qed.

Lemma busy_form_waits_aux (x : Session) :
  Reachable ai x -> isExtracting (form x) = true ->
  (step (form x) <= 2)%Z /\ submits x = None.
Proof.
  intros Hx Hext. pose proof (Reachable_sound x Hx) as [_ _ He _ _].
  specialize (He Hext). split; [exact He|].
  unfold submits. destruct (offers (Button Start false) (form x)) eqn:Ho;
    [|reflexivity].
  apply offers_Button in Ho. lia.
Qed.

(** X5. While an upload is in flight the form is busy, and a busy form is on
    step 1 or 2, shows neither the file input nor the next button (not
    even disabled), and cannot be submitted. *)
Theorem busy_form_waits (x : Session) :
  Reachable ai x ->
  pending x <> Idle \/ isExtracting (form x) = true ->
  isExtracting (form x) = true
  /\ (step (form x) <= 2)%Z
  /\ ~ In FileInput (controls (form x))
  /\ (forall disabled, ~ In (Button Next disabled) (controls (form x)))
  /\ submits x = None.
Proof.
  intros Hx Hbusy.
  pose proof (Reachable_sound x Hx) as [_ Hb He _ _].
  assert (Hext : isExtracting (form x) = true)
    by (destruct Hbusy as [Hp|Hi]; [exact (Hb Hp) | exact Hi]).
  specialize (He Hext). repeat split; try assumption.
  - intros Hin. apply offers_In, offers_FileInput in Hin. intuition congruence.
  - intros disabled Hin. apply Next_needs_idle in Hin. congruence.
  - unfold submits. destruct (offers (Button Start false) (form x)) eqn:Ho;
      [|reflexivity].
    apply offers_Button in Ho. lia.
Qed.

(** X6. A file that the reader fails on leaves the form busy for good: once
    the rejected [fileToBase64] has ended [handleFileChange], no event
    clears [isExtracting], the form stays on step 1 or 2 and is never
    submitted. *)
Theorem unreadable_file_blocks (x : Session) (file : File) :
  Reachable ai x ->
  pending x = Reading file ->
  base64 file = None ->
  exists y,
    fire ai Loaded x = Some y
    /\ forall z, After ai y z ->
         isExtracting (form z) = true
         /\ pending z = Idle
         /\ (step (form z) <= 2)%Z
         /\ submits z = None.
Proof.
  intros Hx Hp Hfile.
  exists {| form := form x; pending := Idle |}.
  assert (Hfire : fire ai Loaded x
                  = Some {| form := form x; pending := Idle |})
    by (simpl; rewrite Hp, Hfile; reflexivity).
  split; [exact Hfire|].
  pose proof (Reachable_sound x Hx) as Hsx.
  assert (Hbx : isExtracting (form x) = true)
    by (apply (sound_busy x Hsx); rewrite Hp; discriminate).
  pose proof (Reachable_fire ai Loaded x _ Hx Hfire) as Hy.
  intros z Hz.
  assert (Hstuck : isExtracting (form z) = true /\ pending z = Idle).
  { induction Hz as [|e u v Huv IH Hf]; [split; [exact Hbx | reflexivity]|].
    destruct IH as [Hbu Hpu].
    destruct e as [g|field val|f|h confirmed| |]; simpl in Hf.
    - destruct (offers GradeSelect (form u)); [|discriminate].
      injection Hf as <-. split; assumption.
    - destruct (offers (TextInput field) (form u)); [|discriminate].
      injection Hf as <-. split; [|assumption].
      destruct field as [|key|key]; simpl; try assumption.
      destruct (manualAcademicRecord (info (form u))); assumption.
    - destruct (offers FileInput (form u)) eqn:Ho; [|discriminate].
      apply offers_FileInput in Ho. intuition congruence.
    - destruct (offers (Button h false) (form u)) eqn:Ho; [|discriminate].
      injection Hf as <-. split; [|assumption].
      destruct h; simpl; try assumption.
      destruct confirmed; assumption.
    - rewrite Hpu in Hf. discriminate.
    - rewrite Hpu in Hf. discriminate. }
  destruct Hstuck as [Hbz Hpz].
  pose proof (After_Reachable _ z Hy Hz) as Hrz.
  destruct (busy_form_waits_aux z Hrz Hbz) as [Hle Hsub].
  repeat split; assumption.
Qed.

Lemma fire_tidy (e : Event) (x y : Session) :
  Sound x -> Tidy x -> fire ai e x = Some y -> Tidy y.
Proof.
  intros Hsound [Hrec Hpend] Hfire.
  pose proof (sound_busy x Hsound) as Hbusy.
  destruct e as [g|field v|file|h confirmed| |]; simpl in Hfire.
  - destruct (offers GradeSelect (form x)); [|discriminate].
    injection Hfire as <-. split; simpl; assumption.
  - destruct (offers (TextInput field) (form x)); [|discriminate].
    injection Hfire as <-. split; simpl; [|destruct field as [|k|k]; simpl;
      try assumption; destruct (manualAcademicRecord (info (form x)));
      assumption].
    destruct field as [|k|k]; simpl; try assumption.
    destruct (manualAcademicRecord (info (form x))) eqn:Hm; simpl;
      [intros Hn; discriminate (Hrec Hn) | intros Hn; try rewrite Hm; auto].
  - destruct (offers FileInput (form x)) eqn:Ho; [|discriminate].
    injection Hfire as <-. split; simpl; [|reflexivity].
    intros _. apply offers_In, controls_In in Ho. destruct Ho as [Ho|Ho].
    + inversion Ho; subst; try intuition discriminate.
      apply Hrec. congruence.
    + bar_out Ho.
  - destruct (offers (Button h false) (form x)) eqn:Ho; [|discriminate].
    injection Hfire as <-. pose proof (offers_Button _ _ Ho) as Hg.
    assert (Hidle : isExtracting (form x) = false -> pending x = Idle).
    { intros Hi. destruct (pending x) eqn:Hp; [reflexivity| |];
        (rewrite Hbusy in Hi; [discriminate | try rewrite Hp; discriminate]). }
    destruct h; simpl.
    + destruct Hg as [_ Hi]. split; simpl; [|reflexivity].
      intros _. apply offers_In, controls_In in Ho. destruct Ho as [Ho|Ho].
      * inversion Ho; subst; try intuition discriminate.
        apply Hrec. congruence.
      * bar_out Ho.
    + destruct Hg as [_ Hi]. split; simpl; [intros Hn; destruct Hn; reflexivity|].
      intros Hp. destruct (Hp (Hidle Hi)).
    + destruct Hg as [_ Hi]. split; simpl; [assumption|].
      intros Hp. destruct (Hp (Hidle Hi)).
    + split; assumption.
    + split; simpl; assumption.
    + destruct confirmed; split; simpl; assumption.
    + split; simpl; assumption.
    + split; assumption.
  - destruct (pending x) as [|file|p] eqn:Hp; try discriminate.
    assert (Hi : recordInputType (form x) = Some image)
      by (apply Hpend; discriminate).
    destruct (base64 file); injection Hfire as <-; split; simpl;
      try assumption; try (intros Hn; destruct Hn; reflexivity).
    intros Hn. congruence.
  - destruct (pending x) as [|file|p] eqn:Hp; try discriminate.
    assert (Hi : recordInputType (form x) = Some image)
      by (apply Hpend; discriminate).
    injection Hfire as <-.
    destruct (fst (extractDataFromImage ai p)) as [m|[n r]]; split; simpl;
      try (intros Hn; destruct Hn; reflexivity).
    intros _. apply Hrec. congruence.
Qed.

Lemma Reachable_tidy (x : Session) : Reachable ai x -> Tidy x.
Proof.
  induction 1 as [|e x y Hx IH Hf].
  - split; simpl; [reflexivity | intros Hn; destruct Hn; reflexivity].
  - exact (fire_tidy e x y (Reachable_sound x Hx) IH Hf).
Qed.

(** X7. No text is ever overwritten: the manual tile is offered only while
    there is no manual record, and while an upload is in flight the form
    is on the image tile with no manual record, so the record that an
    extraction brings lands in an empty form. *)
Theorem record_is_never_overwritten (x : Session) :
  Reachable ai x ->
  (In (Button ChooseManual false) (controls (form x)) ->
   manualAcademicRecord (info (form x)) = None)
  /\ (pending x <> Idle ->
      recordInputType (form x) = Some image
      /\ manualAcademicRecord (info (form x)) = None).
Proof.
  intros Hx. destruct (Reachable_tidy x Hx) as [Hrec Hpend]. split.
  - intros Hin. apply Hrec. apply controls_In in Hin. destruct Hin as [H|H].
    + inversion H; subst; try intuition discriminate. congruence.
    + bar_out H.
  - intros Hp. pose proof (Hpend Hp) as Hi. split; [exact Hi|].
    apply Hrec. congruence.
Qed.


End Sessions.

(** *** The text inputs *)

Lemma setScore_same key value m : scoreOf key (setScore key value m) = value.
Proof. destruct key; reflexivity. Qed.

Lemma setScore_other key other value m :
  other <> key -> scoreOf other (setScore key value m) = scoreOf other m.
Proof. destruct key, other; intros H; try reflexivity; destruct H; reflexivity. Qed.

Lemma setRecordField_same key value r :
  recordFieldOf key (setRecordField key value r) = value.
Proof. destruct key; reflexivity. Qed.

Lemma setRecordField_other key other value r :
  other <> key ->
  recordFieldOf other (setRecordField key value r) = recordFieldOf other r.
Proof. destruct key, other; intros H; try reflexivity; destruct H; reflexivity. Qed.

(** X9. The text inputs are controlled by the state they write to: after a
    change event an input that exists shows the text of the event, every
    other input shows what it showed before, and the rest of the form
    (step, grade, tiles, busy flag) is untouched. *)
Theorem typed_text_is_shown (s : State) (field : TextField)
    (value : jsstring) :
  valueOf field s <> None ->
  valueOf field (handleChange (ChangeText field value) s) = Some value
  /\ (forall other, other <> field ->
        valueOf other (handleChange (ChangeText field value) s)
        = valueOf other s)
  /\ step (handleChange (ChangeText field value) s) = step s
  /\ grade (info (handleChange (ChangeText field value) s)) = grade (info s)
  /\ recordInputType (handleChange (ChangeText field value) s)
     = recordInputType s
  /\ isExtracting (handleChange (ChangeText field value) s) = isExtracting s.
Proof.
  intros Hshown. destruct field as [|key|key]; simpl in *.
  - split; [reflexivity|]. split; [|repeat split].
    intros [|k|k] Hne; [destruct Hne|..]; reflexivity.
  - destruct (manualAcademicRecord (info s)) as [r|] eqn:Hr;
      [|destruct Hshown; reflexivity].
    simpl. rewrite Hr. split; [rewrite setRecordField_same; reflexivity|].
    split; [|repeat split].
    intros [|k|k] Hne; simpl; rewrite ?Hr; try reflexivity.
    rewrite setRecordField_other; [reflexivity | congruence].
  - split; [rewrite setScore_same; reflexivity|]. split; [|repeat split].
    intros [|k|k] Hne; simpl; try reflexivity.
    rewrite setScore_other; [reflexivity | congruence].
Qed.

(** *** Examples *)

Lemma shortest_walk_ends_at_start :
  step (form (Walk.arrive (H := Sample.engine) Sample.failing Walk.shortest))
    = 4%Z
  /\ (1 <= step (form (Walk.arrive (H := Sample.engine) Sample.failing
                        Walk.shortest)) <= 4)%Z.
Proof.
  split; [vm_compute; reflexivity|].
  exact (@step_stays_in_range Sample.engine Sample.failing _
           (arrive_Reachable Sample.failing Walk.shortest)).
Defined.

Lemma upload_walk_is_gated :
  step (form (Walk.arrive (H := Sample.engine)
                (Sample.answering Sample.extractionText) Walk.withUpload))
    = 4%Z
  /\ exists record,
       manualAcademicRecord
         (info (form (Walk.arrive (H := Sample.engine)
                        (Sample.answering Sample.extractionText)
                        Walk.withUpload)))
       = Some record
       /\ Exists (fun v => ~ Blank v) (recordValues record).
Proof.
  assert (H4 : step (form (Walk.arrive (H := Sample.engine)
                             (Sample.answering Sample.extractionText)
                             Walk.withUpload)) = 4%Z)
    by (vm_compute; reflexivity).
  split; [exact H4|].
  apply (@steps_are_gated Sample.engine
           (Sample.answering Sample.extractionText) _
           (arrive_Reachable _ Walk.withUpload)).
  rewrite H4. lia.
Defined.

Lemma picked_file_example :
  pending (Walk.arrive (H := Sample.engine) Sample.failing
             (Walk.picking Sample.file)) = Reading Sample.file
  /\ forall disabled,
       ~ In (Button Next disabled)
            (controls (form (Walk.arrive (H := Sample.engine) Sample.failing
                               (Walk.picking Sample.file)))).
Proof.
  assert (Hp : pending (Walk.arrive (H := Sample.engine) Sample.failing
                          (Walk.picking Sample.file)) = Reading Sample.file)
    by (vm_compute; reflexivity).
  split; [exact Hp|].
  apply (@busy_form_waits Sample.engine Sample.failing _
           (arrive_Reachable _ (Walk.picking Sample.file))).
  left. rewrite Hp. discriminate.
Defined.

Lemma unreadable_file_example :
  exists y,
    fire (H := Sample.engine) Sample.failing Loaded
      (Walk.arrive (H := Sample.engine) Sample.failing
         (Walk.picking Walk.unreadable)) = Some y
    /\ forall z, After (H := Sample.engine) Sample.failing y z ->
         isExtracting (form z) = true /\ pending z = Idle
         /\ (step (form z) <= 2)%Z /\ submits z = None.
Proof.
  apply (@unreadable_file_blocks Sample.engine Sample.failing _
           Walk.unreadable (arrive_Reachable _ (Walk.picking Walk.unreadable)));
    vm_compute; reflexivity.
Defined.

Lemma upload_walk_submits :
  submits (Walk.arrive (H := Sample.engine)
             (Sample.answering Sample.extractionText) Walk.withUpload)
  = Some (info (form (Walk.arrive (H := Sample.engine)
                        (Sample.answering Sample.extractionText)
                        Walk.withUpload))).
Proof. vm_compute. reflexivity. Qed.


Lemma picked_file_has_no_record :
  manualAcademicRecord
    (info (form (Walk.arrive (H := Sample.engine) Sample.failing
                   (Walk.picking Sample.file)))) = None.
Proof.
  apply (@record_is_never_overwritten Sample.engine Sample.failing _
           (arrive_Reachable _ (Walk.picking Sample.file))).
  vm_compute. discriminate.
Defined.

Lemma typed_text_example :
  valueOf DesiredField
    (handleChange (ChangeText DesiredField (js "의예과")) initial)
  = Some (js "의예과").
Proof.
  apply (typed_text_is_shown initial DesiredField (js "의예과")).
  discriminate.
Defined.

End FormProps.

(* ================================================================== *)
(** ** [App]: the visit *)
(* ================================================================== *)

Module VisitProps.
Import JS Types Host GeminiService React App Visit.

Lemma handlers_render (s : State) :
  handlers (render s)
  = match step s with
    | WELCOME => [startOnboarding]
    | ERROR => [restart; restart]
    | _ => [restart]
    end.
Proof.
  destruct s as [st i r l e]. unfold render, renderContent.
  destruct st; simpl; try reflexivity.
  - destruct r; reflexivity.
  - destruct e; reflexivity.
Qed.

Lemma formMounted_step (s : State) :
  formMounted s = true <-> step s = ONBOARDING.
Proof.
  destruct s as [st i r l e]. unfold formMounted, renderContent.
  destruct st; simpl; split; intros Hs; try discriminate; try reflexivity.
  destruct r; discriminate.
Qed.

Section Visits.
Context `{E : Engine}.
Variable ai : Request -> Response.

Lemma failure_is_fixed (info : StudentInfo) (place : option Location)
    (message : jsstring) :
  fst (analyzeStudentData ai info place) = inl message ->
  message = analysisFailure.
Proof.
  unfold analyzeStudentData. cbv zeta.
  generalize (analysisRequest info place). intros request.
  destruct (ai request) as [|[text|]]; cbn [fst];
    try (intros Hm; injection Hm as <-; reflexivity).
  destruct (JSON_parse readReport (cleanResponseText text)); cbn [fst];
    intros Hm; [discriminate | injection Hm as <-; reflexivity].
Qed.

Lemma fire_shown (e : Event) (x y : Session) :
  Shown x -> fire ai e x = Some y -> Shown y.
Proof.
  unfold Shown. intros Herror Hfire.
  destruct e as [h|info|browser|n]; unfold fire in Hfire.
  - destruct (existsb (sameHandler h) (handlers (render (app x)))) eqn:Hh;
      [|discriminate].
    injection Hfire as <-. rewrite handlers_render in Hh.
    destruct h; simpl; intros Hs; discriminate.
  - destruct (formMounted (app x)); [|discriminate].
    injection Hfire as <-. simpl. intros Hs. discriminate.
  - injection Hfire as <-.
    destruct browser; simpl; assumption.
  - destruct (nth_error (outstanding x) n) as [[info place]|]; [|discriminate].
    injection Hfire as <-.
    destruct (fst (analyzeStudentData ai info place)) as [message|report]
      eqn:Hout; simpl; intros Hs; try discriminate.
    rewrite (failure_is_fixed _ _ _ Hout).
    rewrite AppProps.failure_message_kept. reflexivity.
Qed.

Lemma Reachable_shown (x : Session) : Reachable ai x -> Shown x.
Proof.
  induction 1 as [|e x y _ IH Hf _].
  - intros Hs. discriminate.
  - exact (fire_shown e x y IH Hf).
Qed.

(** X10. Whatever a visit went through, with analyses abandoned and
    answered late, an error screen shows the fixed failure message of the
    analysis between the heading and the button back to the start (never
    the fallback for a missing message), and offers the restart only. *)
Theorem error_screen_shows_the_failure (x : Session) :
  Reachable ai x ->
  step (app x) = ERROR ->
  error (app x) = Some analysisFailure
  /\ contents (renderContent (app x))
     = [inl (js "분석 중 오류 발생"); inl analysisFailure;
        inl (js "처음으로 돌아가기")]
  /\ handlers (render (app x)) = [restart; restart].
Proof.
  intros Hx Hs. pose proof (Reachable_shown x Hx Hs) as Herror.
  split; [exact Herror|]. split.
  - unfold renderContent. rewrite Hs, Herror. reflexivity.
  - rewrite handlers_render, Hs. reflexivity.
Qed.

Lemma nth_error_last {A : Type} (l : list A) (a : A) :
  nth_error (l ++ [a]) (List.length l) = Some a.
Proof. induction l as [|b l IH]; [reflexivity | exact IH]. Qed.

(** X11. An analysis is not cancelled by the restart link.  When the form has
    handed over its data, the visitor restarts and opens the form again,
    and then the answer of the abandoned analysis arrives, the page leaves
    the form for the report (when the answer parses) or for the error
    screen, with no student info in the state. *)
Theorem late_answer_takes_over (x : Session) (info : StudentInfo) :
  formMounted (app x) = true ->
  exists y z,
    run ai [Complete info; Click restart; Click startOnboarding] x = Some y
    /\ formMounted (app y) = true
    /\ fire ai (Settled (List.length (outstanding x))) y = Some z
    /\ formMounted (app z) = false
    /\ studentInfo (app z) = None
    /\ match fst (analyzeStudentData ai info (location (app x))) with
       | inr report =>
         step (app z) = REPORT /\ analysisReport (app z) = Some report
       | inl message =>
         step (app z) = ERROR /\ error (app z) = Some analysisFailure
       end.
Proof.
  intros Hm. unfold run. simpl fire at 1. rewrite Hm.
  unfold fire at 1. cbv beta iota. rewrite handlers_render.
  simpl. eexists. eexists. split; [reflexivity|].
  split; [reflexivity|].
  unfold fire. cbn [outstanding app]. rewrite nth_error_last.
  split; [reflexivity|]. cbn [outstanding app].
  destruct (fst (analyzeStudentData ai info (location (app x))))
    as [message|report] eqn:Hout; simpl.
  - rewrite (failure_is_fixed _ _ _ Hout).
    rewrite AppProps.failure_message_kept. repeat split.
  - repeat split.
Qed.

Lemma shortest_submits :
  Form.submits (Walk.arrive ai Walk.shortest) = Some (Walk.submitted ai).
Proof. vm_compute. reflexivity. Qed.

Lemma visit_Reachable : Reachable ai (Walk.visit ai (Walk.throughVisit ai)).
Proof.
  unfold Walk.visit, Walk.throughVisit, run.
  destruct (fire ai (Click startOnboarding) arriving) as [x1|] eqn:H1;
    [|apply Reachable_arriving].
  destruct (fire ai (Complete (Walk.submitted ai)) x1) as [x2|] eqn:H2;
    [|apply Reachable_arriving].
  destruct (fire ai (Settled 0) x2) as [x3|] eqn:H3;
    [|apply Reachable_arriving].
  apply (Reachable_fire ai _ _ _
           (Reachable_fire ai _ _ _
              (Reachable_fire ai _ _ _ (Reachable_arriving ai) H1
                 ltac:(intros i Hi; discriminate))
              H2
              ltac:(intros i Hi; injection Hi as <-;
                    exists (Walk.arrive ai Walk.shortest);
                    split; [apply FormProps.arrive_Reachable
                           | exact shortest_submits]))
           H3).
  intros i Hi. discriminate.
Qed.

(** X12. Nothing bounds the analyses in flight: for every number there is a
    visit with that many requests sent and not yet answered, back on the
    first screen. *)
Theorem analyses_pile_up (n : nat) :
  exists x,
    Reachable ai x /\ app x = initial /\ List.length (outstanding x) = n.
Proof.
  induction n as [|n [x (Hx & Happ & Hlen)]].
  - exists arriving. repeat split. apply Reachable_arriving.
  - pose (f := Walk.arrive ai Walk.shortest).
    pose proof shortest_submits as Hsub.
    pose (info := Walk.submitted ai).
    pose (x1 := {| app := setStep ONBOARDING initial;
                   outstanding := outstanding x |}).
    pose (x2 := {| app := analyzing info (setStep ONBOARDING initial);
                   outstanding := outstanding x ++ [(info, None)] |}).
    pose (x3 := {| app := initial;
                   outstanding := outstanding x ++ [(info, None)] |}).
    assert (H1 : Reachable ai x1).
    { apply (Reachable_fire ai (Click startOnboarding) x x1 Hx).
      - unfold fire. rewrite handlers_render, Happ. reflexivity.
      - intros i Hi. discriminate. }
    assert (H2 : Reachable ai x2).
    { apply (Reachable_fire ai (Complete info) x1 x2 H1).
      - reflexivity.
      - intros i Hi. injection Hi as <-. exists f. split; [|exact Hsub].
        apply FormProps.arrive_Reachable. }
    exists x3. split; [|split].
    + apply (Reachable_fire ai (Click restart) x2 x3 H2).
      * reflexivity.
      * intros i Hi. discriminate.
    + reflexivity.
    + simpl. rewrite length_app, Hlen. simpl. apply Nat.add_1_r.
Qed.

End Visits.

(** The walk of the examples, with a service that rejects, ends on the
    error screen. *)
Lemma error_screen_example :
  step (app (Walk.visit (H := Sample.engine) Sample.failing
               (Walk.throughVisit (H := Sample.engine) Sample.failing)))
  = ERROR
  /\ error (app (Walk.visit (H := Sample.engine) Sample.failing
                   (Walk.throughVisit (H := Sample.engine) Sample.failing)))
     = Some analysisFailure.
Proof.
  assert (Hs : step (app (Walk.visit (H := Sample.engine) Sample.failing
                            (Walk.throughVisit (H := Sample.engine)
                               Sample.failing))) = ERROR)
    by (vm_compute; reflexivity).
  split; [exact Hs|].
  pose proof (@error_screen_shows_the_failure Sample.engine Sample.failing _
                (@visit_Reachable Sample.engine Sample.failing) Hs)
    as [H _].
  exact H.
Defined.

Lemma late_answer_example :
  exists y z,
    run (H := Sample.engine) Sample.failing
      [Complete Sample.student; Click restart; Click startOnboarding]
      Walk.formOpened = Some y
    /\ fire (H := Sample.engine) Sample.failing (Settled 0) y = Some z
    /\ step (app z) = ERROR.
Proof.
  destruct (@late_answer_takes_over Sample.engine Sample.failing
              Walk.formOpened Sample.student eq_refl)
    as (y & z & Hy & _ & Hz & _ & _ & Hout).
  exists y, z. split; [exact Hy|]. split; [exact Hz|].
  exact (proj1 Hout).
Defined.

End VisitProps.

(* ================================================================== *)
(** ** The gateway: fences that are not exactly the expected ones *)
(* ================================================================== *)

Module FenceProps.
Import JS Types Host GeminiService Spec JSFacts GatewayProps.

Lemma dropWhile_keeps (p : N -> bool) (s r : jsstring) (c : N) :
  p c = false -> exists s', dropWhile p (s ++ c :: r) = s' ++ c :: r.
Proof.
  intros Hc. induction s as [|a s [s' IH]]; simpl.
  - exists []. rewrite Hc. reflexivity.
  - destruct (p a); [exists s'; exact IH | exists (a :: s); reflexivity].
Qed.

Lemma dropWhileEnd_head (p : N -> bool) (c : N) (s : jsstring) :
  p c = false -> exists s', dropWhileEnd p (c :: s) = c :: s'.
Proof.
  intros Hc. unfold dropWhileEnd. simpl rev.
  destruct (dropWhile_keeps p (rev s) [] c Hc) as [s' ->].
  exists (rev s'). rewrite rev_app_distr. reflexivity.
Qed.

Lemma dropWhileEnd_last (p : N -> bool) (s : jsstring) (c : N) :
  p c = false -> dropWhileEnd p (s ++ [c]) = s ++ [c].
Proof.
  intros Hc. apply (dropWhileEnd_stop p _ (rev s) c); [|exact Hc].
  rewrite rev_app_distr. reflexivity.
Qed.

Section Reject.
Variable R : Type.
Variable grammar : jsstring -> option R.

(** [JSON.parse] throws on a text that begins with a character no value
    begins with, *)
Lemma parse_rejects_head (c : N) (s : jsstring) :
  isJsonSpace c = false -> beginsValue c = false ->
  JSON_parse grammar (c :: s) = None.
Proof.
  intros Hs Hb. unfold JSON_parse. cbv zeta.
  rewrite (dropWhile_stop _ _ _ Hs).
  destruct (dropWhileEnd_head isJsonSpace c s Hs) as [s' ->].
  unfold valueShaped.
  destruct (hd_error (rev (c :: s'))); cbn [hd_error]; [rewrite Hb|];
    reflexivity.
Qed.

(** and on one that ends with a character no value ends with. *)
Lemma parse_rejects_last (s : jsstring) (c : N) :
  isJsonSpace c = false -> endsValue c = false ->
  JSON_parse grammar (s ++ [c]) = None.
Proof.
  intros Hs He. unfold JSON_parse. cbv zeta.
  destruct (dropWhile_keeps isJsonSpace s [] c Hs) as [s' ->].
  rewrite (dropWhileEnd_last _ s' c Hs).
  unfold valueShaped. rewrite rev_app_distr.
  destruct (hd_error (s' ++ [c])); cbn [rev app hd_error];
    [rewrite He, andb_false_r|]; reflexivity.
Qed.

End Reject.

Lemma backtick_is_solid :
  isWhiteSpace 0x60 = false /\ isJsonSpace 0x60 = false
  /\ beginsValue 0x60 = false /\ endsValue 0x60 = false.
Proof. repeat split. Qed.

Lemma whiteSpace_not_backtick (c : N) : isWhiteSpace c = true -> c <> 0x60%N.
Proof. intros H. chars. Qed.

Lemma trim_head (c : N) (s : jsstring) :
  isWhiteSpace c = false -> exists s', trim (c :: s) = c :: s'.
Proof.
  intros Hc. unfold trim. rewrite (dropWhile_stop _ _ _ Hc).
  apply dropWhileEnd_head, Hc.
Qed.

Lemma trim_last (s w : jsstring) (c : N) :
  isWhiteSpace c = false -> forallb isWhiteSpace w = true ->
  exists s', trim (s ++ c :: w) = s' ++ [c].
Proof.
  intros Hc Hw. unfold trim.
  destruct (dropWhile_keeps isWhiteSpace s w c Hc) as [s' ->].
  exists s'. change (s' ++ c :: w) with (s' ++ [c] ++ w).
  rewrite app_assoc, (dropWhileEnd_skip _ _ _ Hw).
  apply dropWhileEnd_last, Hc.
Qed.

Section Fences.
Context `{E : Engine}.
Variable ai : Request -> Response.

(** X13. The extraction does not take the fence off: a response that opens with
    the fence line, which the analysis accepts, makes the extraction fail
    with its fixed message after the one request. *)
Theorem extraction_takes_no_fence (image : InlineImage) (rest : jsstring) :
  ai (extractionRequest image) = Resolved (Some (openingFence ++ rest)) ->
  extractDataFromImage ai image
  = (inl extractionFailure,
     [GenerateContent (extractionRequest image);
      ConsoleError (js "Error calling Gemini API for data extraction:")]).
Proof.
  intros Hai. unfold extractDataFromImage. cbv zeta. rewrite Hai.
  destruct backtick_is_solid as (Hw & Hs & Hb & _).
  rewrite openingFence_head. rewrite <- app_comm_cons.
  destruct (trim_head 0x60 (removeAtStart [0x60%N] openingFence ++ rest) Hw)
    as [s' ->].
  rewrite (parse_rejects_head _ _ 0x60 s' Hs Hb). reflexivity.
Qed.

(** X14. The two replaces of the analysis take off the exact fences only.  With
    white space after the closing fence, or before the opening one, a
    fenced text is not cleaned to the text between the fences, and the
    analysis fails with its fixed message whatever that text is. *)
Theorem fences_must_be_exact (studentInfo : StudentInfo)
    (location : option Location) (J w : jsstring) :
  w <> [] -> forallb isWhiteSpace w = true ->
  (ai (analysisRequest studentInfo location)
     = Resolved (Some (openingFence ++ J ++ closingFence ++ w)) ->
   fst (analyzeStudentData ai studentInfo location) = inl analysisFailure)
  /\ (ai (analysisRequest studentInfo location)
        = Resolved (Some (w ++ openingFence ++ J ++ closingFence)) ->
      fst (analyzeStudentData ai studentInfo location) = inl analysisFailure).
Proof.
  intros Hne Hw.
  destruct backtick_is_solid as (Hbw & Hbs & Hbb & Hbe).
  split; intros Hai; unfold analyzeStudentData; cbv zeta; rewrite Hai;
    unfold cleanResponseText.
  - rewrite removeAtStart_app.
    assert (Hlast : exists c r, rev (J ++ closingFence ++ w) = c :: r
                                /\ c <> 0x60%N).
    { destruct (rev w) as [|c r] eqn:Hr.
      - apply (f_equal (@rev N)) in Hr. rewrite rev_involutive in Hr.
        destruct (Hne Hr).
      - exists c, (r ++ rev closingFence ++ rev J). split.
        + rewrite !rev_app_distr, Hr, <- !app_assoc. reflexivity.
        + apply whiteSpace_not_backtick.
          rewrite <- forallb_rev, Hr in Hw. simpl in Hw.
          apply andb_prop in Hw as [Hc _]. exact Hc. }
    destruct Hlast as (c & r & Hr & Hc).
    rewrite closingFence_last at 1.
    rewrite (removeAtEnd_other _ _ _ _ _ Hr Hc).
    rewrite closingFence_last, <- !app_assoc.
    rewrite (app_assoc J). simpl app.
    destruct (trim_last (J ++ removeAtEnd [0x60%N] closingFence) w 0x60
                Hbw Hw) as [s' ->].
    rewrite (parse_rejects_last _ _ s' 0x60 Hbs Hbe). reflexivity.
  - destruct w as [|c w']; [destruct (Hne eq_refl)|].
    simpl in Hw. apply andb_prop in Hw as [Hc Hw'].
    rewrite openingFence_head at 1. rewrite <- app_comm_cons.
    rewrite (removeAtStart_other _ _ _ _ (whiteSpace_not_backtick c Hc)).
    rewrite app_comm_cons, !app_assoc, removeAtEnd_app, <- !app_assoc.
    rewrite <- app_comm_cons.
    change (c :: w' ++ openingFence ++ J)
      with ([c] ++ w' ++ openingFence ++ J).
    unfold trim. rewrite (dropWhile_skip isWhiteSpace [c]);
      [|simpl; rewrite Hc; reflexivity].
    rewrite (dropWhile_skip _ _ _ Hw').
    rewrite openingFence_head, <- app_comm_cons.
    rewrite (dropWhile_stop _ _ _ Hbw).
    destruct (dropWhileEnd_head isWhiteSpace 0x60
                (removeAtStart [0x60%N] openingFence ++ J) Hbw) as [s' ->].
    rewrite (parse_rejects_head _ _ 0x60 s' Hbs Hbb). reflexivity.
Qed.

End Fences.

Lemma fenced_extraction_example :
  fst (extractDataFromImage (H := Sample.engine)
         (Sample.answering
            (openingFence ++ Sample.extractionText ++ closingFence))
         Sample.picture)
  = inl extractionFailure.
Proof.
  rewrite (@extraction_takes_no_fence Sample.engine
             (Sample.answering
                (openingFence ++ Sample.extractionText ++ closingFence))
             Sample.picture (Sample.extractionText ++ closingFence) eq_refl).
  reflexivity.
Defined.

Lemma trailing_newline_example :
  fst (analyzeStudentData (H := Sample.engine)
         (Sample.answering
            (openingFence ++ Sample.reportText ++ closingFence ++ LF))
         Sample.student None)
  = inl analysisFailure.
Proof.
  assert (Hne : LF <> []) by discriminate.
  pose proof (@fences_must_be_exact Sample.engine
                (Sample.answering
                   (openingFence ++ Sample.reportText ++ closingFence ++ LF))
                Sample.student None Sample.reportText LF Hne eq_refl)
    as [H _].
  exact (H eq_refl).
Defined.

End FenceProps.

(* ================================================================== *)
(** ** The prompt: how the student is named *)
(* ================================================================== *)

Module PromptProps.
Import JS Types Host GeminiService Spec JSFacts.

Section Prompt.
Context `{E : Engine}.

Lemma prompt_studentNameInfo studentInfo location :
  Includes (promptText studentInfo location) (studentNameInfo studentInfo).
Proof.
  unfold promptText. do 11 apply Includes_right. apply Includes_head.
Qed.


End Prompt.

End PromptProps.

(* ================================================================== *)
(** ** The report view: the local support tab *)
(* ================================================================== *)

Module LocalSupportProps.
Import JS Types Host React ReportDashboard.

Lemma strEq_eq (s t : jsstring) : strEq s t = true <-> s = t.
Proof.
  revert t. induction s as [|c s IH]; intros [|d t]; simpl;
    try (split; [discriminate | discriminate]); [split; reflexivity|].
  rewrite andb_true_iff, N.eqb_eq, IH. split.
  - intros [-> ->]. reflexivity.
  - intros Heq. injection Heq as -> ->. split; reflexivity.
Qed.

Lemma contents_map {X A C : Type} (f : X -> Node A C) (l : list X) :
  flat_map contents (map f l) = flat_map (fun x => contents (f x)) l.
Proof.
  induction l as [|x l IH]; simpl; [reflexivity | rewrite IH; reflexivity].
Qed.

Section Cards.
Context `{E : Engine}.

(** X16. The local support tab shows every academy and every study space of the
    report, in the order of the report, after the sentence on the weak
    subject.  An academy is shown with its name, distance, rating to one
    decimal and review count; a study space with its name, distance, a
    label and its rating to one decimal.  The label is the one of a
    library exactly when the type is the string Library, and that of a
    study cafe for every other type. *)
Theorem local_support_lists_every_place (report : AnalysisReport) :
  contents (renderLocalSupport report)
  = [ inl (js "지역 기반 학업 지원 솔루션");
      inl (js "AI 분석 결과, "); inl (Report.studentName report);
      inl (js " 학생은 ");
      inl (weakSubject (Report.localSupport report));
      inl (js " 보완이 시급합니다.");
      inl (js "약점 보완 전문 학원 추천") ]
    ++ flat_map (fun item => contents (academyCard item))
         (recommendedAcademies (Report.localSupport report))
    ++ [ inl (js "학습 공간 추천") ]
    ++ flat_map (fun item => contents (studySpaceCard item))
         (recommendedStudySpaces (Report.localSupport report))
  /\ (forall item : Academy.t,
        contents (academyCard item)
        = [ inl (Academy.name item); inl (Academy.distance item);
            inl (js "("); inl (Number_toFixed1 (Academy.rating item));
            inl (js ", 리뷰 "); inr (Academy.reviewCount item);
            inl (js ")") ])
  /\ (forall item : StudySpace.t,
        exists label,
          contents (studySpaceCard item)
          = [ inl (StudySpace.name item); inl (StudySpace.distance item);
              inl label;
              inl (js "("); inl (Number_toFixed1 (StudySpace.rating item));
              inl (js ")") ]
          /\ (StudySpace.type item = js "Library" -> label = js "도서관")
          /\ (StudySpace.type item <> js "Library" ->
              label = js "스터디 카페")).
Proof.
  split; [|split].
  - unfold renderLocalSupport. cbv zeta. unfold tagged, t.
    cbn [contents flat_map app]. rewrite !app_nil_r.
    do 7 f_equal. f_equal; [|f_equal]; apply contents_map.
  - intros item. reflexivity.
  - intros item. unfold studySpaceCard. cbv zeta.
    destruct (strEq (StudySpace.type item) (js "Library")) eqn:Hs.
    + exists (js "도서관"). split; [reflexivity|]. split; [reflexivity|].
      apply strEq_eq in Hs. intros Hn. destruct (Hn Hs).
    + exists (js "스터디 카페"). split; [reflexivity|]. split; [|reflexivity].
      intros Heq. apply strEq_eq in Heq. rewrite Heq in Hs. discriminate.
Qed.

End Cards.

End LocalSupportProps.

(* ================================================================== *)
(** ** The form: skipping the mock exam *)
(* ================================================================== *)

Module SkipProps.
Import JS Types Host GeminiService Onboarding Form Spec JSFacts GatewayProps.

Lemma skip_offered (s : State) :
  step s = 3%Z -> offers (Button Skip false) s = true.
Proof.
  intros Hs. unfold offers.
  destruct (in_dec sameControl (Button Skip false) (controls s)) as [|Hn];
    [reflexivity|].
  destruct Hn. unfold controls, barControls. apply in_or_app. right.
  rewrite Hs. simpl. right. left. reflexivity.
Qed.

Lemma start_offered (s : State) :
  step s = 4%Z -> offers (Button Start false) s = true.
Proof.
  intros Hs. unfold offers.
  destruct (in_dec sameControl (Button Start false) (controls s)) as [|Hn];
    [reflexivity|].
  destruct Hn. unfold controls, barControls. apply in_or_app. right.
  rewrite Hs. simpl. right. left. reflexivity.
Qed.

Section Skip.
Context `{E : Engine}.
Variable ai : Request -> Response.


End Skip.


End SkipProps.
